(** * pyclash: the job lifecycle orchestrator of [clash.py]

    A shallow embedding of [src/python/pyclash/clash.py]: the [Job] creation
    sequence with its rollback, completion observation ([attach],
    [on_finish]), clean-up, [run_file], the [JobGroup] composition, the
    argument quoting of [translate_args_to_script], the rendering of the
    machine and boot configuration, [JobConfigBuilder] and [MemoryCache].

    The cloud (provisioning API, message bus, clock, uuid source, template
    engine) is an [environment]: an arbitrary function that answers every
    call the program issues.  Every call of the main thread is recorded in
    the world's trace together with its answer, so statements about "which
    calls are made, in which order" are statements about traces.
    Loops ([while True: ...]) take fuel: the number of loop bodies they may
    execute before the run is cut with [OutOfFuel]; the world reached so
    far is kept in every outcome. *)

From Stdlib Require Import String Ascii List ZArith Lia Bool DecimalString.
Import ListNotations.
Open Scope string_scope.
Open Scope Z_scope.

Set Implicit Arguments.
Set Warnings "-register-all".

(** ** Python values used by the program *)

(** Values decoded by [json.loads] (floats are not modelled). *)
Inductive json : Type :=
| JNull
| JBool (b : bool)
| JInt (z : Z)
| JStr (s : string)
| JList (l : list json)
| JObj (fields : list (string * json)).

(** [d[key]] on a decoded object. *)
Fixpoint assoc_get {A : Type} (key : string) (d : list (string * A)) : option A :=
  match d with
  | [] => None
  | (k, v) :: d' => if String.eqb k key then Some v else assoc_get key d'
  end.

Definition json_get (key : string) (d : json) : option json :=
  match d with
  | JObj fields => assoc_get key fields
  | _ => None
  end.

(** [code == 0] in Python: true of the integer [0] and of [False]. *)
Definition py_eq_zero (code : json) : bool :=
  match code with
  | JInt z => Z.eqb z 0
  | JBool b => negb b
  | _ => false
  end.

(** Truthiness of an optional string ([None] and [""] are falsy). *)
Definition truthy (s : option string) : bool :=
  match s with
  | None => false
  | Some "" => false
  | Some _ => true
  end.

(** Truthiness of an optional integer ([None] and [0] are falsy). *)
Definition truthy_int (n : option Z) : bool :=
  match n with
  | None => false
  | Some z => negb (Z.eqb z 0)
  end.

(** [str(n)] for a non-negative index and for an integer. *)
Definition str_nat (n : nat) : string := NilEmpty.string_of_uint (Nat.to_uint n).
Definition str_int (z : Z) : string := NilZero.string_of_int (Z.to_int z).

(** ** [translate_args_to_script] *)

(** [" " in arg] *)
Fixpoint has_space (arg : string) : bool :=
  match arg with
  | EmptyString => false
  | String c rest => if Ascii.eqb c " " then true else has_space rest
  end.

(** The loop of [translate_args_to_script]: [res] grows by [append]. *)
Fixpoint translate_loop (args : list string) (res : list string) : list string :=
  match args with
  | [] => res
  | arg :: args' =>
      if has_space arg
      then translate_loop args' (res ++ ["'" ++ arg ++ "'"])
      else translate_loop args' (res ++ [arg])
  end.

Definition translate_args_to_script (args : list string) : string :=
  String.concat " " (translate_loop args []).


(** [for arg in args] when [args] is a string: its characters, each a
    string of length one. *)
Fixpoint characters (s : string) : list string :=
  match s with
  | EmptyString => []
  | String c rest => String c EmptyString :: characters rest
  end.

(** ** Exceptions

    The program never dispatches on an exception's class other than by
    [except Exception], so an exception is identified by where it was
    constructed: the [raise] statements of [clash.py], the failing
    subscripts of its own code, or a client library ([External], opaque). *)
Inductive exn : Type :=
| ValueError (msg : string)
| TimeoutError (msg : string)
| Exception_ (payload : json)
| KeyError (key : string)
| TypeError
| JSONDecodeError
| External (what : string).

(** ** Configuration and runtime parameters *)

Record JobConfig : Type := {
  project_id : string;
  image : string;
  privileged : bool;
  preemptible : bool;
  zone : string;
  region : string;
  subnetwork : string;
  machine_type : string;
  service_account : string;
  disk_image_project : string;
  disk_image_family : string;
  scopes : list string;
  labels : option (list (string * string));
  allowed_persistence_regions : option (list string)
}.

Record JobRuntimeSpec : Type := {
  args : list string;
  env_vars : list (string * string);
  gcs_mounts : list (string * string);
  gcs_target : list (string * string)
}.

Inductive CloudSdk : Type := cloud_sdk.

(** ** Calls into the external collaborators *)

(** A Python list object on the heap. *)
Definition ref := nat.

(** The callables handed to [on_finish]: the bound method [append] of a list
    object (the only callback the repository registers). *)
Inductive callback : Type :=
| list_append (l : ref).

Record received_message : Type := {
  ack_id : string;
  message_data : string
}.

Inductive call : Type :=
(* CloudSdk *)
| get_compute_client
| get_publisher
| get_subscriber
(* publisher *)
| create_topic (topic : string) (message_storage_policy : option (list string))
| delete_topic (topic : option string)
| list_topics (project : string)
(* subscriber *)
| create_subscription (subscription : string) (topic : option string)
| delete_subscription (subscription : option string)
| pull (subscription : option string) (max_messages : nat)
       (return_immediately : bool) (timeout : Z)
| acknowledge (subscription : option string) (ack_ids : list string)
| subscribe (subscription : option string) (cb : callback)
(* compute *)
| images_getFromFamily (project family : string)
| instanceTemplates_insert (project vm_name : string) (properties : json)
| instanceTemplates_delete (project instanceTemplate : string)
| instanceGroupManagers_insert (project zone_ vm_name : string) (targetSize : nat)
| instanceGroupManagers_delete (project zone_ instanceGroupManager : string)
| instanceGroups_list (project zone_ : string)
| globalOperations_get (project : string) (operation : json)
| zoneOperations_get (project zone_ : string) (operation : json)
(* jinja2, time, uuid *)
| render_template (template : string) (bindings : list (string * json))
| time_sleep (seconds : Z)
| uuid1.

(** The type of value each call returns. *)
Definition resp (c : call) : Type :=
  match c with
  | get_compute_client | get_publisher | get_subscriber => unit
  | create_topic _ _ | delete_topic _ => unit
  | list_topics _ => list string
  | create_subscription _ _ | delete_subscription _ => unit
  | pull _ _ _ _ => list received_message
  | acknowledge _ _ | subscribe _ _ => unit
  | images_getFromFamily _ _ => json
  | instanceTemplates_insert _ _ _ | instanceTemplates_delete _ _ => json
  | instanceGroupManagers_insert _ _ _ _ | instanceGroupManagers_delete _ _ _ => json
  | instanceGroups_list _ _ => json
  | globalOperations_get _ _ | zoneOperations_get _ _ _ => json
  | render_template _ _ => string
  | time_sleep _ => unit
  | uuid1 => string
  end.

(** A call returns a value or raises an exception of its client library
    (described by [what]). *)
Inductive answer (A : Type) : Type :=
| Returns (a : A)
| Raises (what : string).
Arguments Raises {A} what.

(** What the environment does with one call: the value or exception it
    answers with, how long the call blocks, and the status messages its
    streaming-pull threads hand to listeners while the caller is blocked
    (subscription path, message data). *)
Record reply (c : call) : Type := {
  answered : answer (resp c);
  took : Z;
  delivered : list (string * string)
}.

Inductive event : Type :=
| Event (c : call) (r : reply c) (at_time : Z).

(** ** The world *)

Record world : Type := {
  trace : list event;                          (* calls of the main thread, oldest first *)
  now : Z;                                     (* [time.time()], in seconds *)
  lists : list (list json);                    (* the shared list objects *)
  listeners : list (option string * callback); (* listeners opened by [subscribe] *)
  acked : list string                          (* messages acknowledged by listeners *)
}.

Definition environment : Type := world -> forall c : call, reply c.

Definition empty_world : world :=
  {| trace := []; now := 0; lists := []; listeners := []; acked := [] |}.

(** [l.append(x)] on the list object [r]. *)
Fixpoint heap_append (h : list (list json)) (r : ref) (x : json) : list (list json) :=
  match h, r with
  | [], _ => []
  | l :: h', O => (l ++ [x])%list :: h'
  | l :: h', S r' => l :: heap_append h' r' x
  end.

Definition apply_callback (cb : callback) (x : json) (w : world) : world :=
  match cb with
  | list_append r =>
      {| trace := trace w; now := now w; lists := heap_append (lists w) r x;
         listeners := listeners w; acked := acked w |}
  end.

Definition ack_message (data : string) (w : world) : world :=
  {| trace := trace w; now := now w; lists := lists w;
     listeners := listeners w; acked := acked w ++ [data] |}.

Definition same_subscription (path : string) (s : option string) : bool :=
  match s with
  | Some p => String.eqb p path
  | None => false
  end.

(** ** The program monad: state [S] of the object a method runs on, the
    world, exceptions and fuel exhaustion. *)

Inductive outcome (A : Type) : Type :=
| Ok (a : A)
| Raise (e : exn)
| OutOfFuel.
Arguments Raise {A} e.
Arguments OutOfFuel {A}.

Definition M (S A : Type) : Type := S -> world -> outcome A * S * world.

Definition ret {S A : Type} (a : A) : M S A := fun s w => (Ok a, s, w).

Definition raise {S A : Type} (e : exn) : M S A := fun s w => (Raise e, s, w).

Definition out_of_fuel {S A : Type} : M S A := fun s w => (OutOfFuel, s, w).

Definition bind {S A B : Type} (m : M S A) (k : A -> M S B) : M S B :=
  fun s w =>
    match m s w with
    | (Ok a, s', w') => k a s' w'
    | (Raise e, s', w') => (Raise e, s', w')
    | (OutOfFuel, s', w') => (OutOfFuel, s', w')
    end.

(** [try: m except Exception as ex: handler ex] *)
Definition try_except {S A : Type} (m : M S A) (handler : exn -> M S A) : M S A :=
  fun s w =>
    match m s w with
    | (Raise e, s', w') => handler e s' w'
    | r => r
    end.

Definition get {S : Type} : M S S := fun s w => (Ok s, s, w).

Definition put {S : Type} (s' : S) : M S unit := fun _ w => (Ok tt, s', w).

(** Runs a method of another object [o]; the caller keeps its own state and
    receives the object as the method left it. *)
Definition on_object {S O A : Type} (o : O) (m : M O A) : M S (A * O) :=
  fun s w =>
    match m o w with
    | (Ok a, o', w') => (Ok (a, o'), s, w')
    | (Raise e, _, w') => (Raise e, s, w')
    | (OutOfFuel, _, w') => (OutOfFuel, s, w')
    end.

Declare Scope clash_scope.
Delimit Scope clash_scope with clash.
Notation "x <- m ;; k" := (bind m (fun x => k))
  (at level 100, m at next level, right associativity) : clash_scope.
Notation "m ;; k" := (bind m (fun _ => k))
  (at level 100, right associativity) : clash_scope.
Open Scope clash_scope.


(** [with manager as x: body], for a manager whose [__exit__] returns
    [None]: the exit runs when the body returns and when it raises; an
    exception of the body goes on after the exit, unless the exit raises
    one of its own. *)
Definition with_block {S X A : Type} (enter_ : M S X) (exit_ : option exn -> M S unit)
           (body : X -> M S A) : M S A :=
  x <- enter_;;
  fun s w =>
    match body x s w with
    | (Ok a, s', w') => bind (exit_ None) (fun _ => ret a) s' w'
    | (Raise e, s', w') => bind (exit_ (Some e)) (fun _ => raise e) s' w'
    | (OutOfFuel, s', w') => (OutOfFuel, s', w')
    end.

(** [time.time()] *)
Definition time_time {S : Type} : M S Z := fun s w => (Ok (now w), s, w).

(** [[]]: a fresh list object. *)
Definition new_list {S : Type} : M S ref :=
  fun s w =>
    (Ok (List.length (lists w)), s,
     {| trace := trace w; now := now w; lists := lists w ++ [[]];
        listeners := listeners w; acked := acked w |}).

Definition read_list {S : Type} (r : ref) : M S (list json) :=
  fun s w => (Ok (nth r (lists w) []), s, w).

Section Runtime.

Variable env : environment.
Variable json_loads : string -> option json.

(** The wrapper [pubsub_callback] that [on_finish] hands to [subscribe],
    run by a listener thread on one message.  An exception in it stays in
    that thread: the message is neither recorded nor acknowledged. *)
Definition pubsub_callback (cb : callback) (data : string) (w : world) : world :=
  match json_loads data with
  | None => w
  | Some d =>
      match json_get "status" d with
      | None => w
      | Some code => ack_message data (apply_callback cb code w)
      end
  end.

Fixpoint notify (ls : list (option string * callback)) (path data : string)
         (w : world) : world :=
  match ls with
  | [] => w
  | (s, cb) :: ls' =>
      notify ls' path data
             (if same_subscription path s then pubsub_callback cb data w else w)
  end.

Fixpoint deliver (msgs : list (string * string)) (w : world) : world :=
  match msgs with
  | [] => w
  | (path, data) :: msgs' => deliver msgs' (notify (listeners w) path data w)
  end.

(** One call of the main thread: logged with its answer, the clock
    advanced by its duration, the listeners served meanwhile. *)
Definition invoke {S : Type} (c : call) : M S (resp c) :=
  fun s w =>
    let r := env w c in
    let w' := deliver (delivered r)
                {| trace := trace w ++ [Event r (now w)]; now := now w + took r;
                   lists := lists w; listeners := listeners w; acked := acked w |} in
    (match answered r with
     | Returns a => Ok a
     | Raises what => Raise (External what)
     end, s, w').

(** The streaming pull a successful [subscribe] leaves running. *)
Definition spawn_listener {S : Type} (s : option string) (cb : callback) : M S unit :=
  fun st w =>
    (Ok tt, st,
     {| trace := trace w; now := now w; lists := lists w;
        listeners := listeners w ++ [(s, cb)]; acked := acked w |}).

End Runtime.

(** ** Subscripting and iteration of decoded values *)

(** [d[key]]: [KeyError] on a dict without the key, [TypeError] on a value
    that takes no string subscript. *)
Definition subscript {S : Type} (d : json) (key : string) : M S json :=
  match d with
  | JObj fields =>
      match assoc_get key fields with
      | Some v => ret v
      | None => raise (KeyError key)
      end
  | _ => raise TypeError
  end.

(** [key in d] for a dict [d]. *)
Definition has_key (key : string) (d : json) : bool :=
  match json_get key d with
  | Some _ => true
  | None => false
  end.

(** [x == s] for a string [s]. *)
Definition py_eq_str (x : json) (s : string) : bool :=
  match x with
  | JStr s' => String.eqb s' s
  | _ => false
  end.

Fixpoint assoc_set {A : Type} (key : string) (v : A) (d : list (string * A))
  : list (string * A) :=
  match d with
  | [] => [(key, v)]
  | (k, v') :: d' =>
      if String.eqb k key then (k, v) :: d' else (k, v') :: assoc_set key v d'
  end.

Definition dict_of (d : list (string * string)) : json :=
  JObj (map (fun kv => (fst kv, JStr (snd kv))) d).

Definition newline : string := String (Ascii.ascii_of_nat 10) EmptyString.

(** Path helpers of the message-bus client library. *)
Definition topic_path (project topic : string) : string :=
  "projects/" ++ project ++ "/topics/" ++ topic.

Definition subscription_path (project sub : string) : string :=
  "projects/" ++ project ++ "/subscriptions/" ++ sub.

(** ** Boot and machine configuration (external renderers) *)

Section Rendering.

Variable env : environment.
Variable json_loads : string -> option json.

(** [CloudInitConfig.render] *)
Definition CloudInitConfig_render {S : Type} (vm_name script : string)
           (job_config : JobConfig)
           (env_vars gcs_target gcs_mounts : list (string * string)) : M S string :=
  clash_runner_script <-
    invoke env json_loads (render_template "clash_runner.sh.j2"
                  [("vm_name", JStr vm_name);
                   ("zone", JStr (zone job_config));
                   ("image", JStr (image job_config));
                   ("privileged", JBool (privileged job_config))]);;
  let env_var_file :=
    String.concat newline (map (fun kv => fst kv ++ "=" ++ snd kv) env_vars) in
  invoke env json_loads (render_template "cloud-init.yaml.j2"
                [("vm_name", JStr vm_name);
                 ("clash_runner_script", JStr clash_runner_script);
                 ("gcs_target", dict_of gcs_target);
                 ("gcs_mounts", dict_of gcs_mounts);
                 ("script", JStr script);
                 ("env_var_file", JStr env_var_file)]).

(** [rendered["metadata"]["items"][0]["value"] = value] *)
Definition set_startup_payload {S : Type} (rendered : json) (value : string) : M S json :=
  metadata <- subscript rendered "metadata";;
  items <- subscript metadata "items";;
  match rendered, metadata, items with
  | JObj top, JObj meta, JList (JObj item0 :: rest) =>
      ret (JObj (assoc_set "metadata"
                   (JObj (assoc_set "items"
                            (JList (JObj (assoc_set "value" (JStr value) item0) :: rest))
                            meta))
                   top))
  | _, _, JList [] => raise (External "IndexError")
  | _, _, _ => raise TypeError
  end.

(** [MachineConfig.to_dict] *)
Definition MachineConfig_to_dict {S : Type} (vm_name : string)
           (cloud_init : M S string) (job_config : JobConfig) : M S json :=
  image_response <-
    invoke env json_loads (images_getFromFamily (disk_image_project job_config)
                                     (disk_image_family job_config));;
  source_disk_image <- subscript image_response "selfLink";;
  text <-
    invoke env json_loads (render_template "machine_config.json.j2"
                  [("vm_name", JStr vm_name);
                   ("source_image", source_disk_image);
                   ("project_id", JStr (project_id job_config));
                   ("machine_type", JStr (machine_type job_config));
                   ("region", JStr (region job_config));
                   ("scopes", JList (map JStr (scopes job_config)));
                   ("subnetwork", JStr (subnetwork job_config));
                   ("preemptible", JBool (preemptible job_config));
                   ("service_account", JStr (service_account job_config));
                   ("labels", dict_of (match labels job_config with
                                       | Some l => l
                                       | None => []
                                       end))]);;
  match json_loads text with
  | None => raise JSONDecodeError
  | Some rendered =>
      value <- cloud_init;;
      set_startup_payload rendered value
  end.

(** [CloudInitConfig.render] on an instance whose [env_vars] is [True]:
    the runner script is rendered, then [self.env_vars.items()] raises
    AttributeError (a bool has no [items]). *)
Definition CloudInitConfig_render_without_items {S : Type} (vm_name : string)
           (job_config : JobConfig) : M S string :=
  invoke env json_loads (render_template "clash_runner.sh.j2"
                [("vm_name", JStr vm_name);
                 ("zone", JStr (zone job_config));
                 ("image", JStr (image job_config));
                 ("privileged", JBool (privileged job_config))]);;
  raise (External "AttributeError").

End Rendering.

(** ** The answer of the list-of-instance-groups endpoint *)

(** The [for group in ...: res.append(group["name"])] loop of
    [_retrieve_active_instance_groups]. *)
Fixpoint group_names (items : list json) (res : list json) : exn + list json :=
  match items with
  | [] => inr res
  | JObj fields :: items' =>
      match assoc_get "name" fields with
      | Some group_name => group_names items' (res ++ [group_name])%list
      | None => inl (KeyError "name")
      end
  | _ :: _ => inl TypeError
  end.

(** [....execute()["items"]] and the loop over it: the names, or the
    exception a subscript raises. *)
Definition listed_groups (listing : json) : exn + list json :=
  match listing with
  | JObj fields =>
      match assoc_get "items" fields with
      | None => inl (KeyError "items")
      | Some (JList l) => group_names l []
      | Some (JObj []) => inr []
      | Some (JStr "") => inr []
      | Some _ => inl TypeError
      end
  | _ => inl TypeError
  end.

(** ** class Job *)

Module Job.

Definition POLLING_INTERVAL_SECONDS : Z := 30.

Record t : Type := {
  gcloud : CloudSdk;
  job_config : JobConfig;
  started : bool;
  job_status_topic : option string;
  job_status_subscription : option string;
  timeout_seconds : option Z;
  name : string
}.

Definition set_started (b : bool) : M t unit :=
  fun self w =>
    (Ok tt,
     {| gcloud := gcloud self; job_config := job_config self; started := b;
        job_status_topic := job_status_topic self;
        job_status_subscription := job_status_subscription self;
        timeout_seconds := timeout_seconds self; name := name self |}, w).

Definition set_job_status_topic (v : option string) : M t unit :=
  fun self w =>
    (Ok tt,
     {| gcloud := gcloud self; job_config := job_config self;
        started := started self; job_status_topic := v;
        job_status_subscription := job_status_subscription self;
        timeout_seconds := timeout_seconds self; name := name self |}, w).

Definition set_job_status_subscription (v : option string) : M t unit :=
  fun self w =>
    (Ok tt,
     {| gcloud := gcloud self; job_config := job_config self;
        started := started self; job_status_topic := job_status_topic self;
        job_status_subscription := v;
        timeout_seconds := timeout_seconds self; name := name self |}, w).

Section Methods.

Variable env : environment.
Variable json_loads : string -> option json.

Local Abbreviation api := (invoke env json_loads).

(** [Job.__init__] *)
Definition init {S : Type} (job_config_ : JobConfig)
           (name_ name_prefix : option string) (gcloud_ : option CloudSdk)
           (timeout_seconds_ : option Z) : M S t :=
  the_name <-
    (if negb (truthy name_)
     then
       u <- api uuid1;;
       let generated := "clash-job-" ++ substring 0 16 u in
       match name_prefix with
       | Some p => if truthy name_prefix
                   then ret ((p ++ "-") ++ generated)
                   else ret generated
       | None => ret generated
       end
     else
       ret (match name_ with Some n => n | None => "" end));;
  ret {| gcloud := match gcloud_ with Some g => g | None => cloud_sdk end;
         job_config := job_config_;
         started := false;
         job_status_topic := None;
         job_status_subscription := None;
         timeout_seconds := timeout_seconds_;
         name := the_name |}.

(** The [while True] loop of [_wait_for_operation]. *)
Fixpoint _wait_for_operation_loop (fuel : nat) (operation : json)
         (is_global_op : bool) : M t json :=
  match fuel with
  | O => out_of_fuel
  | S fuel' =>
      self <- get;;
      result <-
        (if is_global_op
         then api (globalOperations_get (project_id (job_config self)) operation)
         else api (zoneOperations_get (project_id (job_config self))
                                      (zone (job_config self)) operation));;
      status <- subscript result "status";;
      if py_eq_str status "DONE"
      then
        if has_key "error" result
        then
          err <- subscript result "error";;
          raise (Exception_ err)
        else ret result
      else
        api (time_sleep 1);;
        _wait_for_operation_loop fuel' operation is_global_op
  end.

Definition _wait_for_operation (fuel : nat) (operation : json)
           (is_global_op : bool) : M t json :=
  api get_compute_client;;
  _wait_for_operation_loop fuel operation is_global_op.

Definition _create_instance_template (fuel : nat) (machine_config : json)
  : M t unit :=
  self <- get;;
  api get_compute_client;;
  template_op <-
    api (instanceTemplates_insert (project_id (job_config self)) (name self)
                                  machine_config);;
  op_name <- subscript template_op "name";;
  _wait_for_operation fuel op_name true;;
  ret tt.

Definition _create_managed_instance_group (fuel : nat) (size : nat) : M t unit :=
  self <- get;;
  api get_compute_client;;
  template_op <-
    api (instanceGroupManagers_insert (project_id (job_config self))
                                      (zone (job_config self)) (name self) size);;
  op_name <- subscript template_op "name";;
  _wait_for_operation fuel op_name false;;
  ret tt.

Definition _create_machine_config (script : string)
           (env_vars_ gcs_target_ gcs_mounts_ : list (string * string))
  : M t json :=
  self <- get;;
  api get_compute_client;;
  MachineConfig_to_dict env json_loads (name self)
    (CloudInitConfig_render env json_loads (name self) script (job_config self)
                            env_vars_ gcs_target_ gcs_mounts_)
    (job_config self).

Definition _create_status_topic : M t string :=
  self <- get;;
  let job_status_topic_ := topic_path (project_id (job_config self)) (name self) in
  let message_storage_policy :=
    match allowed_persistence_regions (job_config self) with
    | Some (r :: regions) => Some (r :: regions)
    | _ => None
    end in
  api (create_topic job_status_topic_ message_storage_policy);;
  ret job_status_topic_.

Definition _create_status_subscription : M t string :=
  self <- get;;
  let project := project_id (job_config self) in
  topics <- api (list_topics ("projects/" ++ project));;
  if negb (match job_status_topic self with
           | Some tp => existsb (String.eqb tp) topics
           | None => false
           end)
  then raise (ValueError ("Could not find status topic for job " ++ name self))
  else
    let path := subscription_path project (name self) in
    api (create_subscription path (job_status_topic self));;
    ret path.

Definition _remove_instance_template (fuel : nat) : M t unit :=
  self <- get;;
  if negb (started self)
  then raise (Exception_ (JStr "Job is not running"))
  else
    api get_compute_client;;
    template_op <-
      api (instanceTemplates_delete (project_id (job_config self)) (name self));;
    op_name <- subscript template_op "name";;
    _wait_for_operation fuel op_name true;;
    ret tt.

Definition _remove_instance_group (fuel : nat) : M t unit :=
  self <- get;;
  if negb (started self)
  then raise (Exception_ (JStr "Job is not running"))
  else
    api get_compute_client;;
    template_op <-
      api (instanceGroupManagers_delete (project_id (job_config self))
                                        (zone (job_config self)) (name self));;
    op_name <- subscript template_op "name";;
    _wait_for_operation fuel op_name false;;
    ret tt.

Definition _pull_message (subscription_path_ : option string)
  : M t (option string) :=
  response <- api (pull subscription_path_ 1 false POLLING_INTERVAL_SECONDS);;
  match response with
  | message :: _ =>
      api (acknowledge subscription_path_ [ack_id message]);;
      ret (Some (message_data message))
  | [] => ret None
  end.

(** The [while] loop of [attach] and the [raise] that follows it. *)
Fixpoint attach_loop (fuel : nat) (timeout_seconds_ : option Z) (start_time : Z)
  : M t json :=
  self <- get;;
  go_on <-
    (if negb (truthy_int timeout_seconds_)
     then ret true
     else
       t1 <- time_time;;
       ret (match timeout_seconds_ with
            | Some tmo => Z.leb (t1 - start_time) tmo
            | None => true
            end));;
  if go_on : bool
  then
    match fuel with
    | O => out_of_fuel
    | S fuel' =>
        message <- _pull_message (job_status_subscription self);;
        match message with
        | Some data =>            (* a received message object is truthy *)
            match json_loads data with
            | Some payload => ret payload
            | None => raise JSONDecodeError
            end
        | None => attach_loop fuel' timeout_seconds_ start_time
        end
    end
  else
    raise (TimeoutError
             ("The job took longer than "
                ++ match timeout_seconds_ with
                   | Some tmo => str_int tmo
                   | None => "None"
                   end ++ " seconds")).

Definition attach (fuel : nat) (timeout_seconds_ : option Z) : M t json :=
  self <- get;;
  if negb (started self)
  then raise (ValueError "The job is not running")
  else
    api get_subscriber;;
    start_time <- time_time;;
    attach_loop fuel timeout_seconds_ start_time.

(** The [except Exception as ex] handler of [run]. *)
Definition run_rollback {A : Type} (fuel : nat) (ex : exn) : M t A :=
  self <- get;;
  (if started self
   then try_except (_remove_instance_group fuel) (fun _ => ret tt)
   else ret tt);;
  self <- get;;
  (if truthy (job_status_topic self)
   then try_except (api (delete_topic (job_status_topic self))) (fun _ => ret tt)
   else ret tt);;
  self <- get;;
  (if truthy (job_status_subscription self)
   then try_except (api (delete_subscription (job_status_subscription self)))
                   (fun _ => ret tt)
   else ret tt);;
  raise ex.

(** The [try] block of [run]. *)
Definition run_try (fuel : nat) (machine_config : json) (wait_for_result : bool)
  : M t (option json) :=
  topic <- _create_status_topic;;
  set_job_status_topic (Some topic);;
  subscription <- _create_status_subscription;;
  set_job_status_subscription (Some subscription);;
  _create_instance_template fuel machine_config;;
  _create_managed_instance_group fuel 1;;
  set_started true;;
  if wait_for_result
  then
    self <- get;;
    status <- attach fuel (timeout_seconds self);;
    ret (Some status)
  else ret None.

(** The creation sequence of the [try] block by step number (step 1 is
    the rendering done in [run_prepare]). *)
Definition creation_step (fuel : nat) (machine_config : json) (k : nat)
  : M t unit :=
  match k with
  | 2%nat => topic <- _create_status_topic;;
             set_job_status_topic (Some topic)
  | 3%nat => subscription <- _create_status_subscription;;
             set_job_status_subscription (Some subscription)
  | 4%nat => _create_instance_template fuel machine_config
  | 5%nat => _create_managed_instance_group fuel 1
  | _ => ret tt
  end.

Fixpoint creation_steps (fuel : nat) (machine_config : json) (ks : list nat)
  : M t unit :=
  match ks with
  | [] => ret tt
  | k :: ks' =>
      creation_step fuel machine_config k;;
      creation_steps fuel machine_config ks'
  end.

(** Steps [2 .. k-1]. *)
Definition steps_before (fuel : nat) (machine_config : json) (k : nat)
  : M t unit :=
  creation_steps fuel machine_config (seq 2 (k - 2)).

(** The statements of [run] that precede its [try] block. *)
Definition run_prepare (args_ : list string)
           (env_vars_ gcs_target_ gcs_mounts_ : option (list (string * string)))
  : M t json :=
  api get_subscriber;;
  api get_publisher;;
  let env_vars_ := match env_vars_ with Some d => d | None => [] end in
  let gcs_target_ := match gcs_target_ with Some d => d | None => [] end in
  let gcs_mounts_ := match gcs_mounts_ with Some d => d | None => [] end in
  let script := translate_args_to_script args_ in
  machine_config <- _create_machine_config script env_vars_ gcs_target_ gcs_mounts_;;
  set_job_status_topic None;;
  set_job_status_subscription None;;
  ret machine_config.

Definition run (fuel : nat) (args_ : list string)
           (env_vars_ gcs_target_ gcs_mounts_ : option (list (string * string)))
           (wait_for_result : bool) : M t (option json) :=
  machine_config <- run_prepare args_ env_vars_ gcs_target_ gcs_mounts_;;
  try_except (run_try fuel machine_config wait_for_result)
             (fun ex => run_rollback fuel ex).

Definition on_finish (cb : callback) : M t unit :=
  self <- get;;
  if negb (started self)
  then raise (ValueError "The job is not running")
  else
    api get_subscriber;;
    api (subscribe (job_status_subscription self) cb);;
    spawn_listener (job_status_subscription self) cb.

Definition _retrieve_active_instance_groups : M t (list json) :=
  self <- get;;
  api get_compute_client;;
  listing <- api (instanceGroups_list (project_id (job_config self))
                                      (zone (job_config self)));;
  match listed_groups listing with
  | inl e => raise e
  | inr res => ret res
  end.

(** [self.name in active_instance_groups] *)
Definition name_in (n : string) (groups : list json) : bool :=
  existsb (fun g => py_eq_str g n) groups.

Fixpoint _wait_for_instance_group_removal (fuel : nat) : M t unit :=
  match fuel with
  | O => out_of_fuel
  | S fuel' =>
      self <- get;;
      active_instance_groups <- _retrieve_active_instance_groups;;
      if name_in (name self) active_instance_groups
      then
        api (time_sleep POLLING_INTERVAL_SECONDS);;
        _wait_for_instance_group_removal fuel'
      else ret tt
  end.

Definition clean_up (fuel : nat) : M t unit :=
  self <- get;;
  if started self
  then
    _wait_for_instance_group_removal fuel;;
    _remove_instance_template fuel
  else ret tt.

(** [__enter__] and [__exit__]: a Job is a context manager whose exit
    cleans up; [__exit__] returns [None] whatever exception it is told of. *)
Definition __enter__ : M t t := get.

Definition __exit__ (fuel : nat) (raised : option exn) : M t unit :=
  clean_up fuel.

(** The file system, as far as [run_file] reads it: the text of a file, or
    the error [open] raises. *)
Variable read_text : string -> answer string.

(** [self.run(script, wait_for_result, env_vars, gcs_target)] as [run_file]
    calls it.  The arguments are bound by position to the parameters
    [args, env_vars, gcs_target, gcs_mounts] of [run]: [args] is the text
    of the script, [env_vars] is the flag, [gcs_target] is the
    environment, [gcs_mounts] is the target, and [wait_for_result] keeps
    its default [False].
    - With the flag [False], [env_vars or {}] is [{}] and the call is a
      well-typed [run] on the characters of the script.
    - With the flag [True], [env_vars or {}] is [True], which travels to
      [CloudInitConfig] and fails there when the env file is written. *)
Definition run_positional (fuel : nat) (script : string) (flag : bool)
           (env_vars_ gcs_target_ : list (string * string)) : M t (option json) :=
  if flag
  then
    api get_subscriber;;
    api get_publisher;;
    let script_ := translate_args_to_script (characters script) in
    self <- get;;
    api get_compute_client;;
    machine_config <-
      MachineConfig_to_dict env json_loads (name self)
        (CloudInitConfig_render_without_items env json_loads (name self)
                                              (job_config self))
        (job_config self);;
    set_job_status_topic None;;
    set_job_status_subscription None;;
    try_except (run_try fuel machine_config false)
               (fun ex => run_rollback fuel ex)
  else
    run fuel (characters script) None (Some env_vars_) (Some gcs_target_) false.

Definition run_file (fuel : nat) (script_file : string)
           (env_vars_ gcs_target_ gcs_mounts_ : option (list (string * string)))
           (wait_for_result : bool) : M t (option json) :=
  let env_vars_ := match env_vars_ with Some d => d | None => [] end in
  let gcs_target_ := match gcs_target_ with Some d => d | None => [] end in
  let gcs_mounts_ := match gcs_mounts_ with Some d => d | None => [] end in
  match read_text script_file with
  | Raises what => raise (External what)
  | Returns script => run_positional fuel script wait_for_result env_vars_ gcs_target_
  end.

Definition is_group : bool := false.

End Methods.

End Job.

(** ** class JobFactory *)

Module JobFactory.

Record t : Type := {
  job_config : JobConfig;
  gcloud : CloudSdk
}.

Section Methods.

Variable env : environment.
Variable json_loads : string -> option json.

Definition create {S : Type} (self : t) (name_prefix : string) : M S Job.t :=
  Job.init env json_loads (job_config self) None (Some name_prefix)
           (Some (gcloud self)) None.

End Methods.

End JobFactory.

(** ** class JobGroup *)

Module JobGroup.

Record t : Type := {
  name : string;
  job_factory : JobFactory.t;
  job_config : JobConfig;
  gcloud : CloudSdk;
  job_specs : list JobRuntimeSpec;
  running_jobs : list Job.t;
  jobs_status_codes : ref       (* the list object shared with the listeners *)
}.

Definition set_job_specs (v : list JobRuntimeSpec) : M t unit :=
  fun self w =>
    (Ok tt,
     {| name := name self; job_factory := job_factory self;
        job_config := job_config self; gcloud := gcloud self;
        job_specs := v; running_jobs := running_jobs self;
        jobs_status_codes := jobs_status_codes self |}, w).

Definition set_running_jobs (v : list Job.t) : M t unit :=
  fun self w =>
    (Ok tt,
     {| name := name self; job_factory := job_factory self;
        job_config := job_config self; gcloud := gcloud self;
        job_specs := job_specs self; running_jobs := v;
        jobs_status_codes := jobs_status_codes self |}, w).

(** [JobGroup.__init__] *)
Definition init {S : Type} (name_ : string) (job_factory_ : JobFactory.t) : M S t :=
  codes <- new_list;;
  ret {| name := name_; job_factory := job_factory_;
         job_config := JobFactory.job_config job_factory_;
         gcloud := JobFactory.gcloud job_factory_;
         job_specs := []; running_jobs := [];
         jobs_status_codes := codes |}.

Definition add_job (runtime_spec : JobRuntimeSpec) : M t unit :=
  self <- get;;
  set_job_specs (job_specs self ++ [runtime_spec])%list.

Section Methods.

Variable env : environment.
Variable json_loads : string -> option json.

Local Abbreviation api := (invoke env json_loads).

(** The [for spec_id, spec in enumerate(self.job_specs)] loop of [run]. *)
Fixpoint run_loop (fuel : nat) (spec_id : nat) (specs : list JobRuntimeSpec)
  : M t unit :=
  match specs with
  | [] => ret tt
  | spec :: specs' =>
      self <- get;;
      job <- JobFactory.create env json_loads (job_factory self)
               (name self ++ "-" ++ str_nat spec_id);;
      r <- on_object job
             (Job.run env json_loads fuel (args spec) (Some (env_vars spec))
                      (Some (gcs_target spec)) (Some (gcs_mounts spec)) false);;
      r <- on_object (snd r)
             (Job.on_finish env json_loads (list_append (jobs_status_codes self)));;
      self <- get;;
      set_running_jobs (running_jobs self ++ [snd r])%list;;
      run_loop fuel (S spec_id) specs'
  end.

Definition run (fuel : nat) : M t unit :=
  self <- get;;
  run_loop fuel 0 (job_specs self).

(** The polling loop of [wait]. *)
Fixpoint wait_loop (fuel : nat) : M t unit :=
  self <- get;;
  codes <- read_list (jobs_status_codes self);;
  if negb (Nat.eqb (List.length codes) (List.length (running_jobs self)))
  then
    match fuel with
    | O => out_of_fuel
    | S fuel' =>
        api (time_sleep 1);;
        wait_loop fuel'
    end
  else ret tt.

Definition wait (fuel : nat) : M t bool :=
  wait_loop fuel;;
  self <- get;;
  codes <- read_list (jobs_status_codes self);;
  ret (forallb py_eq_zero codes).

(** The [for job in self.running_jobs] loop of [clean_up]. *)
Fixpoint clean_up_loop (fuel : nat) (jobs : list Job.t) : M t unit :=
  match jobs with
  | [] => ret tt
  | job :: jobs' =>
      on_object job (Job.clean_up env json_loads fuel);;
      clean_up_loop fuel jobs'
  end.

Definition clean_up (fuel : nat) : M t unit :=
  self <- get;;
  clean_up_loop fuel (running_jobs self).

Definition is_group : bool := true.

Definition __enter__ : M t t := get.

Definition __exit__ (fuel : nat) (raised : option exn) : M t unit :=
  clean_up fuel.


End Methods.

End JobGroup.

(** ** Observations on traces *)

Definition call_of (e : event) : call :=
  match e with
  | @Event c _ _ => c
  end.

Definition calls (evs : list event) : list call := map call_of evs.

(** The four resources a Job owns. *)
Inductive resource : Type :=
| Topic
| Subscription
| Template
| Group.

(** The resource a call asks the provider to remove, if any. *)
Definition removal (c : call) : option resource :=
  match c with
  | delete_topic _ => Some Topic
  | delete_subscription _ => Some Subscription
  | instanceTemplates_delete _ _ => Some Template
  | instanceGroupManagers_delete _ _ _ => Some Group
  | _ => None
  end.

(** The removal attempts of a trace, in the order they were issued. *)
Fixpoint removals (evs : list event) : list resource :=
  match evs with
  | [] => []
  | e :: evs' =>
      match removal (call_of e) with
      | Some r => r :: removals evs'
      | None => removals evs'
      end
  end.

(** The resources whose creation steps precede step [k] of [Job.run]. *)
Definition created_before (k : nat) : list resource :=
  ((if Nat.ltb 2 k then [Topic] else [])
     ++ (if Nat.ltb 3 k then [Subscription] else [])
     ++ (if Nat.ltb 4 k then [Template] else []))%list.

(** What the failure rollback of [Job.run] asks to remove after a failure
    at step [k]. *)
Definition rolled_back (k : nat) : list resource :=
  ((if Nat.ltb 2 k then [Topic] else [])
     ++ (if Nat.ltb 3 k then [Subscription] else []))%list.

Definition optional (b : bool) (r : resource) : list resource :=
  if b then [r] else [].

(** A pull that returned: when it began, when it ended, what it carried. *)
Record pulled : Type := {
  pull_began : Z;
  pull_ended : Z;
  pull_messages : list received_message
}.

Definition pull_of (e : event) : option pulled :=
  match e with
  | @Event (pull _ _ _ _) r at_time =>
      match answered r with
      | Returns msgs =>
          Some {| pull_began := at_time; pull_ended := at_time + took r;
                  pull_messages := msgs |}
      | Raises _ => None
      end
  | _ => None
  end.

Fixpoint pulls (evs : list event) : list pulled :=
  match evs with
  | [] => []
  | e :: evs' =>
      match pull_of e with
      | Some p => p :: pulls evs'
      | None => pulls evs'
      end
  end.

(** What [Job.clean_up] observes and does, as far as the claim about it
    goes: group listings (is the job's group still there?), sleeps and the
    deletion of the template. *)
Inductive cleanup_obs : Type :=
| Listed (present : bool)
| Slept (seconds : Z)
| TemplateDeleted.

Definition cleanup_obs_of (job_name : string) (e : event) : option cleanup_obs :=
  match e with
  | @Event (instanceGroups_list _ _) r _ =>
      match answered r with
      | Returns listing =>
          match listed_groups listing with
          | inr groups => Some (Listed (Job.name_in job_name groups))
          | inl _ => None
          end
      | Raises _ => None
      end
  | @Event (time_sleep seconds) _ _ => Some (Slept seconds)
  | @Event (instanceTemplates_delete _ _) _ _ => Some TemplateDeleted
  | _ => None
  end.

Fixpoint cleanup_view (job_name : string) (evs : list event) : list cleanup_obs :=
  match evs with
  | [] => []
  | e :: evs' =>
      match cleanup_obs_of job_name e with
      | Some o => o :: cleanup_view job_name evs'
      | None => cleanup_view job_name evs'
      end
  end.

(** [k] polling rounds that found the group, each followed by the 30 second
    sleep. *)
Fixpoint polling_rounds (k : nat) : list cleanup_obs :=
  match k with
  | O => []
  | S k' => Listed true :: Slept 30 :: polling_rounds k'
  end.

(** [xs] is an initial segment of [ys]. *)
Definition prefix_of {A : Type} (xs ys : list A) : Prop :=
  exists zs, ys = (xs ++ zs)%list.

(** ** Reading a command line back into words

    The reading side of [translate_args_to_script] is no part of
    [clash.py]: the command line goes to a shell.  [shell_words] is the
    part of that reading on which a POSIX shell and Python's [shlex.split]
    agree and in which nothing is expanded: words made of the characters
    that need no quoting, separated by spaces or tabs, and single-quoted
    stretches, in which every character stands for itself up to the next
    single quote.  Any other character outside single quotes (a double
    quote, a backslash, [$], a backquote, an operator such as [;] [&] [|]
    [<] [>], a globbing character, [#], [~], a newline, a carriage
    return, a byte outside ASCII) means something to one of the two
    readers at least: such a line is not a plain list of words, and the
    reading gives [None] for it, as it does for a quote left open and for
    a NUL character, which no shell word can hold. *)

Inductive quoting : Type :=
| Unquoted
| SingleQuoted.

Definition squote : ascii := "'"%char.
Definition nul : ascii := Ascii.zero.

(** Blanks that separate the words of one command: space and tab. *)
Definition is_blank (c : ascii) : bool :=
  Ascii.eqb c " " || Ascii.eqb c (Ascii.ascii_of_nat 9).

(** The characters that stand for themselves in an unquoted word, for a
    POSIX shell as for [shlex]: ASCII letters, digits and
    [@ % + = : , . / - _]. *)
Definition is_safe (c : ascii) : bool :=
  let n := nat_of_ascii c in
  (Nat.leb 48 n && Nat.leb n 57)
  || (Nat.leb 65 n && Nat.leb n 90)
  || (Nat.leb 97 n && Nat.leb n 122)
  || existsb (Ascii.eqb c) ["@"; "%"; "+"; "="; ":"; ","; "."; "/"; "-"; "_"]%char.

Definition add_char (word : option string) (c : ascii) : option string :=
  match word with
  | Some w => Some (w ++ String c EmptyString)
  | None => Some (String c EmptyString)
  end.

Definition open_word (word : option string) : option string :=
  match word with
  | Some w => Some w
  | None => Some ""
  end.

Definition close_word (word : option string) (words : list string) : list string :=
  match word with
  | Some w => (words ++ [w])%list
  | None => words
  end.

Fixpoint shell_words (s : string) (q : quoting) (word : option string)
         (words : list string) : option (list string) :=
  match s with
  | EmptyString =>
      match q with
      | Unquoted => Some (close_word word words)
      | SingleQuoted => None
      end
  | String c rest =>
      match q with
      | Unquoted =>
          if is_blank c then shell_words rest Unquoted None (close_word word words)
          else if Ascii.eqb c squote
               then shell_words rest SingleQuoted (open_word word) words
          else if is_safe c
               then shell_words rest Unquoted (add_char word c) words
          else None
      | SingleQuoted =>
          if Ascii.eqb c squote
          then shell_words rest Unquoted word words
          else if Ascii.eqb c nul then None
          else shell_words rest SingleQuoted (add_char word c) words
      end
  end.

Definition shell_split (line : string) : option (list string) :=
  shell_words line Unquoted None [].

(** The argument as [translate_args_to_script] writes it. *)
Definition quoted (arg : string) : string :=
  if has_space arg then "'" ++ arg ++ "'" else arg.

(** [p] holds of every character of [s]. *)
Fixpoint all_chars (p : ascii -> bool) (s : string) : bool :=
  match s with
  | EmptyString => true
  | String c rest => p c && all_chars p rest
  end.

(** A character that stands for itself between single quotes. *)
Definition is_literal (c : ascii) : bool :=
  negb (Ascii.eqb c squote) && negb (Ascii.eqb c nul).

(** An argument the quoting of [translate_args_to_script] is enough for:
    with a space in it, it holds no single quote (and no NUL); without
    one, it is not empty and made of characters that need no quoting. *)
Definition plain_arg (arg : string) : Prop :=
  if has_space arg
  then all_chars is_literal arg = true
  else arg <> "" /\ all_chars is_safe arg = true.

(** ** A scripted cloud for concrete runs *)

Module Fake.

(** A reply that takes no time and delivers nothing. *)
Definition quiet {c : call} (a : resp c) : reply c :=
  {| answered := Returns a; took := 0; delivered := [] |}.

(** A reply that takes [duration] seconds while [posts] are delivered. *)
Definition slow (c : call) (a : resp c) (duration : Z)
           (posts : list (string * string)) : reply c :=
  {| answered := Returns a; took := duration; delivered := posts |}.

Definition failing {c : call} (what : string) : reply c :=
  {| answered := Raises what; took := 0; delivered := [] |}.

Definition created_topic (e : event) : list string :=
  match call_of e with
  | create_topic topic _ => [topic]
  | _ => []
  end.

Definition is_pull (c : call) : bool :=
  match c with
  | pull _ _ _ _ => true
  | _ => false
  end.

Definition is_listing (c : call) : bool :=
  match c with
  | instanceGroups_list _ _ => true
  | _ => false
  end.

Definition is_sleep (c : call) : bool :=
  match c with
  | time_sleep _ => true
  | _ => false
  end.

Definition is_group_insert (c : call) : bool :=
  match c with
  | instanceGroupManagers_insert _ _ _ _ => true
  | _ => false
  end.

Definition is_template_insert (c : call) : bool :=
  match c with
  | instanceTemplates_insert _ _ _ => true
  | _ => false
  end.

Definition is_create_topic (c : call) : bool :=
  match c with
  | create_topic _ _ => true
  | _ => false
  end.

Definition is_create_subscription (c : call) : bool :=
  match c with
  | create_subscription _ _ => true
  | _ => false
  end.

(** How many calls of a kind the trace already holds. *)
Definition seen (kind : call -> bool) (w : world) : nat :=
  List.length (filter kind (calls (trace w))).

Definition operation_done : json := JObj [("status", JStr "DONE")].

Definition machine_document : json :=
  JObj [("name", JStr "vm");
        ("metadata", JObj [("items", JList [JObj [("key", JStr "user-data");
                                                  ("value", JStr "")]])])].

(** The decoder of the concrete runs: the rendered machine configuration
    and the two status messages a worker posts. *)
Definition decode (text : string) : option json :=
  if String.eqb text "machine_config.json.j2" then Some machine_document
  else if String.eqb text "status 0" then Some (JObj [("status", JInt 0)])
  else if String.eqb text "status 1" then Some (JObj [("status", JInt 1)])
  else None.

(** A cloud in which every call succeeds at once: topics are listed once
    created, operations are done when polled, no group is listed, no
    message is waiting, templates render to their own name. *)
Definition value (w : world) (c : call) : resp c :=
  match c return resp c with
  | get_compute_client => tt
  | get_publisher => tt
  | get_subscriber => tt
  | create_topic _ _ => tt
  | delete_topic _ => tt
  | list_topics _ => flat_map created_topic (trace w)
  | create_subscription _ _ => tt
  | delete_subscription _ => tt
  | pull _ _ _ _ => []
  | acknowledge _ _ => tt
  | subscribe _ _ => tt
  | images_getFromFamily _ _ => JObj [("selfLink", JStr "image-link")]
  | instanceTemplates_insert _ _ _ => JObj [("name", JStr "operation-1")]
  | instanceTemplates_delete _ _ => JObj [("name", JStr "operation-2")]
  | instanceGroupManagers_insert _ _ _ _ => JObj [("name", JStr "operation-3")]
  | instanceGroupManagers_delete _ _ _ => JObj [("name", JStr "operation-4")]
  | instanceGroups_list _ _ => JObj [("items", JList [])]
  | globalOperations_get _ _ => operation_done
  | zoneOperations_get _ _ _ => operation_done
  | render_template template _ => template
  | time_sleep _ => tt
  | uuid1 => "123e4567-e89b-12d3-a456-426614174000"
  end.

Definition cloud : environment := fun w c => quiet (value w c).

(** The calls of a kind raise. *)
Definition breaking (kind : call -> bool) (what : string) (base : environment)
  : environment :=
  fun w c => if kind c then failing what else base w c.

(** The first [idle] pulls wait [30] seconds for nothing; the next one
    waits [wait] seconds and carries a message. *)
Definition posting_after (idle : nat) (wait : Z) (data : string)
           (base : environment) : environment :=
  fun w c =>
    match c return reply c with
    | pull s m r tmo =>
        if Nat.ltb (seen is_pull w) idle
        then slow (pull s m r tmo) [] 30 []
        else slow (pull s m r tmo)
                  [{| ack_id := "ack-1"; message_data := data |}] wait []
    | c' => base w c'
    end.

(** The first [rounds] listings still show the group [group]. *)
Definition lingering (rounds : nat) (group : string) (base : environment)
  : environment :=
  fun w c =>
    match c return reply c with
    | instanceGroups_list p z =>
        if Nat.ltb (seen is_listing w) rounds
        then quiet (c := instanceGroups_list p z)
                   (JObj [("items", JList [JObj [("name", JStr group)]])])
        else base w (instanceGroups_list p z)
    | c' => base w c'
    end.

(** Sleeps last as long as asked; during the first one the workers post
    [posts] (subscription path, message data). *)
Definition reporting (posts : list (string * string)) (base : environment)
  : environment :=
  fun w c =>
    match c return reply c with
    | time_sleep seconds =>
        slow (time_sleep seconds) tt seconds
             (if Nat.eqb (seen is_sleep w) 0 then posts else [])
    | c' => base w c'
    end.

Definition config : JobConfig :=
  {| project_id := "my-gcp-project"; image := "google/cloud-sdk";
     privileged := false; preemptible := false; zone := "europe-west1-b";
     region := "europe-west1"; subnetwork := "default-europe-west1";
     machine_type := "n1-standard-4"; service_account := "default";
     disk_image_project := "gce-uefi-images"; disk_image_family := "cos-stable";
     scopes := ["https://www.googleapis.com/auth/compute"];
     labels := None;
     allowed_persistence_regions := Some ["europe-west1"] |}.

(** A Job as [Job(job_config, name="job")] builds it. *)
Definition job : Job.t :=
  {| Job.gcloud := cloud_sdk; Job.job_config := config; Job.started := false;
     Job.job_status_topic := None; Job.job_status_subscription := None;
     Job.timeout_seconds := None; Job.name := "job" |}.

(** The same Job after a successful [run]. *)
Definition started_job : Job.t :=
  {| Job.gcloud := cloud_sdk; Job.job_config := config; Job.started := true;
     Job.job_status_topic := Some (topic_path "my-gcp-project" "job");
     Job.job_status_subscription := Some (subscription_path "my-gcp-project" "job");
     Job.timeout_seconds := None; Job.name := "job" |}.

Definition factory : JobFactory.t :=
  {| JobFactory.job_config := config; JobFactory.gcloud := cloud_sdk |}.

Definition spec (words : list string) : JobRuntimeSpec :=
  {| args := words; env_vars := []; gcs_mounts := []; gcs_target := [] |}.

Definition batch_specs : list JobRuntimeSpec :=
  [spec ["echo"; "hi"]; spec ["echo"; "bye"]].

End Fake.

(** [add_job] for each spec of a list, in order. *)
Fixpoint add_jobs (specs : list JobRuntimeSpec) : M JobGroup.t unit :=
  match specs with
  | [] => ret tt
  | spec :: specs' =>
      JobGroup.add_job spec;;
      add_jobs specs'
  end.

(** ** [DEFAULT_JOB_CONFIG] and class JobConfigBuilder

    A configuration is a dict object.  The builder copies the dict it
    starts from and the dict it hands out, so the dicts live in a store and
    are named by their address.  The values kept under the keys are
    immutable here: a copy of a dict shares nothing that can change. *)

Definition DEFAULT_JOB_CONFIG : list (string * json) :=
  [("project_id", JStr "my-gcp-project");
   ("image", JStr "google/cloud-sdk");
   ("privileged", JBool false);
   ("preemptible", JBool false);
   ("zone", JStr "europe-west1-b");
   ("region", JStr "europe-west1");
   ("subnetwork", JStr "default-europe-west1");
   ("machine_type", JStr "n1-standard-4");
   ("service_account", JStr "default");
   ("disk_image", JObj [("project", JStr "gce-uefi-images");
                        ("family", JStr "cos-stable")]);
   ("scopes", JList [JStr "https://www.googleapis.com/auth/bigquery";
                     JStr "https://www.googleapis.com/auth/compute";
                     JStr "https://www.googleapis.com/auth/devstorage.read_write";
                     JStr "https://www.googleapis.com/auth/devstorage.full_control";
                     JStr "https://www.googleapis.com/auth/logging.write";
                     JStr "https://www.googleapis.com/auth/monitoring";
                     JStr "https://www.googleapis.com/auth/pubsub";
                     JStr "https://www.googleapis.com/auth/cloud-platform";
                     JStr "https://www.googleapis.com/auth/cloudplatformprojects"]);
   ("allowed_persistence_regions", JList [JStr "europe-north1";
                                          JStr "europe-west1";
                                          JStr "europe-west3";
                                          JStr "europe-west4"])].

Module JobConfigBuilder.

Definition dict : Type := list (string * json).

Inductive address : Type :=
| the_default          (* the module's [DEFAULT_JOB_CONFIG] *)
| object (n : nat).    (* a dict created while the program runs *)

Record store : Type := {
  default_job_config : dict;   (* what [DEFAULT_JOB_CONFIG] holds now *)
  objects : list dict
}.

(** The store once the module is loaded. *)
Definition loaded : store :=
  {| default_job_config := DEFAULT_JOB_CONFIG; objects := [] |}.

Definition lookup (a : address) (h : store) : dict :=
  match a with
  | the_default => default_job_config h
  | object n => nth n (objects h) []
  end.

Fixpoint update_nth {A : Type} (n : nat) (f : A -> A) (l : list A) : list A :=
  match l, n with
  | [], _ => []
  | x :: l', O => f x :: l'
  | x :: l', S n' => x :: update_nth n' f l'
  end.

(** [d[key] = value] on the dict at [a]. *)
Definition setitem (a : address) (key : string) (value : json) (h : store) : store :=
  match a with
  | the_default =>
      {| default_job_config := assoc_set key value (default_job_config h);
         objects := objects h |}
  | object n =>
      {| default_job_config := default_job_config h;
         objects := update_nth n (assoc_set key value) (objects h) |}
  end.

(** [copy.deepcopy(d)]: a new dict with the content of the dict at [a]. *)
Definition deepcopy (a : address) (h : store) : address * store :=
  (object (List.length (objects h)),
   {| default_job_config := default_job_config h;
      objects := (objects h ++ [lookup a h])%list |}).

Record t : Type := {
  config : address
}.

(** [__init__]: [base_config or DEFAULT_JOB_CONFIG] is the default when no
    base is given and when the base is an empty dict. *)
Definition init (base_config : option address) (h : store) : t * store :=
  let source :=
    match base_config with
    | Some a => match lookup a h with
                | [] => the_default
                | _ :: _ => a
                end
    | None => the_default
    end in
  let (c, h') := deepcopy source h in
  ({| config := c |}, h').

(** [self.config[key] = value; return self] *)
Definition set_config (key : string) (value : json) (self : t) (h : store)
  : t * store :=
  (self, setitem (config self) key value h).

Definition project_id (project_id : json) := set_config "project_id" project_id.
Definition image (image : json) := set_config "image" image.
Definition privileged (privileged : json) := set_config "privileged" privileged.
Definition preemptible (preemptible : json) := set_config "preemptible" preemptible.
Definition zone (zone : json) := set_config "zone" zone.
Definition region (region : json) := set_config "region" region.
Definition subnetwork (subnetwork : json) := set_config "subnetwork" subnetwork.
Definition machine_type (machine_type : json) := set_config "machine_type" machine_type.
Definition service_account (service_account : json) :=
  set_config "service_account" service_account.
Definition disk_image (disk_image : json) := set_config "disk_image" disk_image.
Definition scopes (scopes : json) := set_config "scopes" scopes.
Definition labels (labels : json) := set_config "labels" labels.

Definition build (self : t) (h : store) : address * store :=
  deepcopy (config self) h.

(** The twelve setters, to speak of any sequence of calls. *)
Inductive setter : Type :=
| set_project_id | set_image | set_privileged | set_preemptible | set_zone
| set_region | set_subnetwork | set_machine_type | set_service_account
| set_disk_image | set_scopes | set_labels.

Definition call_setter (m : setter) : json -> t -> store -> t * store :=
  match m with
  | set_project_id => project_id
  | set_image => image
  | set_privileged => privileged
  | set_preemptible => preemptible
  | set_zone => zone
  | set_region => region
  | set_subnetwork => subnetwork
  | set_machine_type => machine_type
  | set_service_account => service_account
  | set_disk_image => disk_image
  | set_scopes => scopes
  | set_labels => labels
  end.

(** The key a setter writes. *)
Definition key_of (m : setter) : string :=
  match m with
  | set_project_id => "project_id"
  | set_image => "image"
  | set_privileged => "privileged"
  | set_preemptible => "preemptible"
  | set_zone => "zone"
  | set_region => "region"
  | set_subnetwork => "subnetwork"
  | set_machine_type => "machine_type"
  | set_service_account => "service_account"
  | set_disk_image => "disk_image"
  | set_scopes => "scopes"
  | set_labels => "labels"
  end.

(** [builder.m1(v1).m2(v2)...]: a chain of setter calls. *)
Fixpoint chain (calls : list (setter * json)) (self : t) (h : store) : t * store :=
  match calls with
  | [] => (self, h)
  | (m, v) :: calls' =>
      let (self', h') := call_setter m v self h in
      chain calls' self' h'
  end.

(** The value the last call of the setter of [key] was given, if any. *)
Fixpoint last_given (key : string) (calls : list (setter * json)) : option json :=
  match calls with
  | [] => None
  | (m, v) :: calls' =>
      match last_given key calls' with
      | Some v' => Some v'
      | None => if String.eqb (key_of m) key then Some v else None
      end
  end.

(** The dict a new builder starts from. *)
Definition start_of (base_config : option address) (h : store) : dict :=
  match base_config with
  | Some a => match lookup a h with
              | [] => default_job_config h
              | d => d
              end
  | None => default_job_config h
  end.

(** A dict after the assignments of a chain of setter calls. *)
Definition written (calls : list (setter * json)) (d : dict) : dict :=
  fold_left (fun d mv => assoc_set (key_of (fst mv)) (snd mv) d) calls d.

End JobConfigBuilder.

(** ** class MemoryCache

    [_CACHE] is an attribute of the class: one dict for all instances,
    which have no state of their own. *)

Module MemoryCache.

Definition cache : Type := list (string * string).

Inductive t : Type :=
| instance (id : nat).

(** [MemoryCache._CACHE.get(url)] *)
Definition get (self : t) (url : string) (_CACHE : cache) : option string :=
  assoc_get url _CACHE.

(** [MemoryCache._CACHE[url] = content] *)
Definition set (self : t) (url content : string) (_CACHE : cache) : cache :=
  assoc_set url content _CACHE.

End MemoryCache.

(** * Definitions used by the statements *)

(** ** Footprints: what a computation may do to its object and which calls
    it may issue *)

Definition behaves {S : Type} (R : S -> S -> Prop) (P : call -> Prop) {A : Type}
  (m : M S A) : Prop :=
  forall s w,
    R s (snd (fst (m s w)))
    /\ exists evs, trace (snd (m s w)) = (trace w ++ evs)%list
                   /\ Forall (fun e => P (call_of e)) evs.

Definition any_call (c : call) : Prop := True.

(** The calls of [_wait_for_operation]. *)
Definition operation_poll (c : call) : Prop :=
  match c with
  | get_compute_client => True
  | globalOperations_get _ _ => True
  | zoneOperations_get _ _ _ => True
  | time_sleep seconds => seconds = 1
  | _ => False
  end.

(** The fields a method of [Job] never assigns. *)
Definition same_job (a b : Job.t) : Prop :=
  Job.name b = Job.name a /\ Job.job_config b = Job.job_config a
  /\ Job.timeout_seconds b = Job.timeout_seconds a.

Definition same_group (a b : JobGroup.t) : Prop :=
  JobGroup.name b = JobGroup.name a
  /\ JobGroup.job_factory b = JobGroup.job_factory a
  /\ JobGroup.job_specs b = JobGroup.job_specs a
  /\ JobGroup.jobs_status_codes b = JobGroup.jobs_status_codes a.

(** The world once the call [c] issued in [w] has been answered. *)
Definition after_call (env : environment) (json_loads : string -> option json)
           (w : world) (c : call) : world :=
  snd (invoke env json_loads c tt w).

(** ** Observations of the claims *)

(** The three fields of a Job the handler of [run] looks at. *)
Definition marks (self : Job.t) : bool * bool * bool :=
  (Job.started self, truthy (Job.job_status_topic self),
   truthy (Job.job_status_subscription self)).

(** The completion codes recorded for the group [g] in the world [w]. *)
Definition recorded (g : JobGroup.t) (w : world) : list json :=
  nth (JobGroup.jobs_status_codes g) (lists w) [].

Definition is_sleep_of (seconds : Z) (e : event) : Prop :=
  call_of e = time_sleep seconds.

(** The name [JobGroup.run] gives to the job of the spec at [index]. *)
Definition launched_name (group : string) (index : nat) (uuid : string) : string :=
  group ++ "-" ++ str_nat index ++ "-clash-job-" ++ substring 0 16 uuid.

(** A pull that returned without a message. *)
Definition idle_pull (p : pulled) : Prop := pull_messages p = [].

(** ** Concrete scenarios *)

(** The machine configuration the scripted cloud renders for any job. *)
Definition rendered_machine_config : json :=
  JObj [("name", JStr "vm");
        ("metadata", JObj [("items", JList [JObj [("key", JStr "user-data");
                                                  ("value", JStr "cloud-init.yaml.j2")]])])].

(** A Job that waits at most 5 seconds for its result, on a bus that stays
    silent: [run(..., wait_for_result=True)] fails in [attach], after the
    group was created. *)
Definition impatient_job : Job.t :=
  {| Job.gcloud := cloud_sdk; Job.job_config := Fake.config; Job.started := false;
     Job.job_status_topic := None; Job.job_status_subscription := None;
     Job.timeout_seconds := Some 5; Job.name := "job" |}.

Definition silent_cloud : environment :=
  Fake.posting_after 10 30 "status 0" Fake.cloud.

(** The worker posts its status 25 seconds into the first pull. *)
Definition late_cloud : environment :=
  Fake.posting_after 0 25 "status 0" Fake.cloud.

(** The provider refuses the managed instance group (step 5), after the
    topic, the subscription and the template were created. *)
Definition no_group_cloud : environment :=
  Fake.breaking Fake.is_group_insert "quota exceeded" Fake.cloud.

(** A group named ["batch"] holding the two specs of the scenario, as
    [JobGroup("batch", factory)] and two [add_job] calls leave it. *)
Definition batch_group : JobGroup.t :=
  {| JobGroup.name := "batch"; JobGroup.job_factory := Fake.factory;
     JobGroup.job_config := Fake.config; JobGroup.gcloud := cloud_sdk;
     JobGroup.job_specs := Fake.batch_specs; JobGroup.running_jobs := [];
     JobGroup.jobs_status_codes := 0%nat |}.

Definition batch_world : world :=
  {| trace := []; now := 0; lists := [[]]; listeners := []; acked := [] |}.

(** The scenario of the specification: both workers of ["batch"] post
    status 0 while [wait] sleeps. *)
Definition batch_posts (second : string) : list (string * string) :=
  [(subscription_path "my-gcp-project" "batch-0-clash-job-123e4567-e89b-12", "status 0");
   (subscription_path "my-gcp-project" "batch-1-clash-job-123e4567-e89b-12", second)].

Definition batch_cloud (second : string) : environment :=
  Fake.reporting (batch_posts second) Fake.cloud.

(** ** The claims that fail, as the specification states them *)

(** C1 as the specification states it: after a failure at step [k], the
    rollback asks for the removal of exactly the resources created in the
    steps before [k]. *)
Definition rollback_removes_what_was_created (env : environment)
  (json_loads : string -> option json) : Prop :=
  forall (fuel : nat) (args_ : list string)
         (e t m : option (list (string * string))) (wait_for_result : bool)
         (self s0 s1 s2 : Job.t) (w w0 w1 w2 : world) (machine_config : json)
         (k : nat) (ex : exn),
    Job.started self = false ->
    Job.run_prepare env json_loads args_ e t m self w = (Ok machine_config, s0, w0) ->
    (2 <= k <= 5)%nat ->
    Job.steps_before env json_loads fuel machine_config k s0 w0 = (Ok tt, s1, w1) ->
    Job.creation_step env json_loads fuel machine_config k s1 w1 = (Raise ex, s2, w2) ->
    let r := Job.run env json_loads fuel args_ e t m wait_for_result self w in
    fst (fst r) = Raise ex
    /\ exists evs, trace (snd r) = (trace w2 ++ evs)%list
                   /\ forall x, In x (removals evs) <-> In x (created_before k).

(** C3 as the specification states it: a message [attach] returns was
    received within [T] seconds of the beginning of the call. *)
Definition attach_returns_only_timely_messages (env : environment)
  (json_loads : string -> option json) : Prop :=
  forall (fuel : nat) (T : Z) (self : Job.t) (w : world),
    Job.started self = true ->
    let r := Job.attach env json_loads fuel (Some T) self w in
    forall payload, fst (fst r) = Ok payload ->
    forall evs, trace (snd r) = (trace w ++ evs)%list ->
    forall p, In p (pulls evs) -> pull_messages p <> [] ->
              pull_ended p - now w <= T.

(** C5 as the specification states it: the job launched for the spec at
    index [i] is named ["{G}-{i}"]. *)
Definition jobs_named_group_dash_index : Prop :=
  forall env json_loads fuel (g : JobGroup.t) (w : world) (i : nat) (j : Job.t),
    JobGroup.running_jobs g = [] ->
    nth_error (JobGroup.running_jobs (snd (fst (JobGroup.run env json_loads fuel g w)))) i
    = Some j ->
    Job.name j = JobGroup.name g ++ "-" ++ str_nat i.

(** C6 as the specification states it. *)
Definition command_line_round_trips : Prop :=
  forall args : list string,
    translate_args_to_script args = String.concat " " (map quoted args)
    /\ shell_split (translate_args_to_script args) = Some args.

(** C7 as the specification states it: each of the three operations fails
    on a Job that was never started, without touching the world. *)
Definition unstarted_operations_fail (env : environment)
  (json_loads : string -> option json) : Prop :=
  forall (fuel : nat) (cb : callback) (timeout : option Z) (self : Job.t)
         (w : world),
    Job.started self = false ->
    (exists e, Job.on_finish env json_loads cb self w = (Raise e, self, w))
    /\ (exists e, Job.attach env json_loads fuel timeout self w = (Raise e, self, w))
    /\ (exists e, Job.clean_up env json_loads fuel self w = (Raise e, self, w)).

(** ** Further observations and scenarios *)

(** The answers to the polls of an operation, oldest first. *)
Definition polled_of (e : event) : option json :=
  match e with
  | @Event (globalOperations_get _ _) r _ =>
      match answered r with
      | Returns result => Some result
      | Raises _ => None
      end
  | @Event (zoneOperations_get _ _ _) r _ =>
      match answered r with
      | Returns result => Some result
      | Raises _ => None
      end
  | _ => None
  end.

Fixpoint polled (evs : list event) : list json :=
  match evs with
  | [] => []
  | e :: evs' =>
      match polled_of e with
      | Some result => result :: polled evs'
      | None => polled evs'
      end
  end.

(** [result["status"] == "DONE"] holds. *)
Definition is_done (result : json) : bool :=
  match json_get "status" result with
  | Some status => py_eq_str status "DONE"
  | None => false
  end.

(** The request [_wait_for_operation] repeats. *)
Definition operation_get (self : Job.t) (operation : json) (is_global_op : bool) : call :=
  if is_global_op
  then globalOperations_get (project_id (Job.job_config self)) operation
  else zoneOperations_get (project_id (Job.job_config self))
                          (zone (Job.job_config self)) operation.

(** One poll that found the operation unfinished, and the sleep after it,
    for each of [pending]. *)
Definition unfinished_rounds (poll : call) (pending : list json) : list call :=
  flat_map (fun _ => [poll; time_sleep 1]) pending.

(** What a run of [_wait_for_operation] that repeated the request [poll]
    observed after its client was built, by outcome; a run cut for lack
    of fuel made [fuel] polls. *)
Definition operation_observed (fuel : nat) (poll : call) (o : outcome json)
           (evs : list event) : Prop :=
  match o with
  | Ok result =>
      exists pending,
        polled evs = (pending ++ [result])%list
        /\ Forall (fun p => is_done p = false) pending
        /\ is_done result = true /\ has_key "error" result = false
        /\ calls evs = (unfinished_rounds poll pending ++ [poll])%list
  | Raise (Exception_ err) =>
      exists pending result,
        polled evs = (pending ++ [result])%list
        /\ Forall (fun p => is_done p = false) pending
        /\ is_done result = true /\ json_get "error" result = Some err
        /\ calls evs = (unfinished_rounds poll pending ++ [poll])%list
  | OutOfFuel =>
      Forall (fun p => is_done p = false) (polled evs)
      /\ List.length (polled evs) = fuel
      /\ calls evs = unfinished_rounds poll (polled evs)
  | Raise _ => True
  end.

(** The resource a call asks the provider to create, if any. *)
Definition creation (c : call) : option resource :=
  match c with
  | create_topic _ _ => Some Topic
  | create_subscription _ _ => Some Subscription
  | instanceTemplates_insert _ _ _ => Some Template
  | instanceGroupManagers_insert _ _ _ _ => Some Group
  | _ => None
  end.

(** The creation attempts of a trace, in the order they were issued. *)
Fixpoint creations (evs : list event) : list resource :=
  match evs with
  | [] => []
  | e :: evs' =>
      match creation (call_of e) with
      | Some r => r :: creations evs'
      | None => creations evs'
      end
  end.

(** A call that asks for no creation and no removal. *)
Definition builds_nothing (c : call) : Prop :=
  match creation c, removal c with
  | None, None => True
  | _, _ => False
  end.

(** A computation that asks for no removal, and for the creation of the
    resources [l], in this order, as far as it gets: all of them when it
    returns. *)
Definition creates (l : list resource) {S A : Type} (m : M S A) : Prop :=
  forall s w,
    exists evs, trace (snd (m s w)) = (trace w ++ evs)%list
                /\ removals evs = []
                /\ prefix_of (creations evs) l
                /\ (forall a, fst (fst (m s w)) = Ok a -> creations evs = l).

(** The acknowledgements a trace asks for: subscription and ack ids. *)
Definition acknowledged_of (e : event) : option (option string * list string) :=
  match e with
  | @Event (acknowledge subscription ack_ids) _ _ => Some (subscription, ack_ids)
  | _ => None
  end.

Fixpoint acknowledged (evs : list event) : list (option string * list string) :=
  match evs with
  | [] => []
  | e :: evs' =>
      match acknowledged_of e with
      | Some a => a :: acknowledged evs'
      | None => acknowledged evs'
      end
  end.

(** What [_pull_message] acknowledges after a pull: the first message. *)
Definition to_acknowledge (subscription : option string) (p : pulled)
  : list (option string * list string) :=
  match pull_messages p with
  | m :: _ => [(subscription, [ack_id m])]
  | [] => []
  end.

(** The condition of the [while] loop of [attach], when the clock reads
    [t]. *)
Definition attach_goes_on (timeout_seconds_ : option Z) (start_time t : Z) : bool :=
  if negb (truthy_int timeout_seconds_)
  then true
  else match timeout_seconds_ with
       | Some tmo => Z.leb (t - start_time) tmo
       | None => true
       end.

(** The text of the error [attach] raises when the time is over. *)
Definition timeout_message (timeout_seconds_ : option Z) : string :=
  "The job took longer than "
    ++ match timeout_seconds_ with
       | Some tmo => str_int tmo
       | None => "None"
       end ++ " seconds".

(** What a run of the loop of [attach] observed, by outcome: the pulls
    that returned ([ps]), the time at which the run began ([begun]) and
    ended ([finish]); a run cut for lack of fuel made [fuel] pulls. *)
Definition attach_loop_observed (json_loads : string -> option json) (fuel : nat)
           (o : outcome json) (ps : list pulled) (begun finish : Z) : Prop :=
  match o with
  | Ok payload =>
      exists idle p m rest,
        ps = (idle ++ [p])%list /\ Forall idle_pull idle
        /\ pull_messages p = m :: rest
        /\ json_loads (message_data m) = Some payload
  | Raise JSONDecodeError =>
      exists idle p m rest,
        ps = (idle ++ [p])%list /\ Forall idle_pull idle
        /\ pull_messages p = m :: rest
        /\ json_loads (message_data m) = None
  | Raise (TimeoutError _) =>
      Forall idle_pull ps /\ finish = last (map pull_ended ps) begun
  | OutOfFuel => Forall idle_pull ps /\ List.length ps = fuel
  | Raise _ => True
  end.

(** From [w] to [w'] no listener was opened or closed and no shared list
    lost an element. *)
Definition grown (w w' : world) : Prop :=
  listeners w' = listeners w
  /\ List.length (lists w') = List.length (lists w)
  /\ forall i, (List.length (nth i (lists w) []) <= List.length (nth i (lists w') []))%nat.

(** A computation that opens no listener and creates no list. *)
Definition steady {S A : Type} (m : M S A) : Prop :=
  forall s w, grown w (snd (m s w)).

(** A world in which the code list of a group with no launched job
    already holds a code. *)
Definition surplus_world : world :=
  {| trace := []; now := 0; lists := [[JInt 0]]; listeners := []; acked := [] |}.

(** The listener [JobGroup.run] opens for a job it launched: on the job's
    status subscription, appending to the group's code list. *)
Definition group_listener (g : JobGroup.t) (j : Job.t) : option string * callback :=
  (Job.job_status_subscription j, list_append (JobGroup.jobs_status_codes g)).

(** A job as [JobGroup.run] leaves it in [running_jobs]. *)
Definition launched_by (g : JobGroup.t) (j : Job.t) : Prop :=
  Job.started j = true
  /\ Job.job_config j = JobFactory.job_config (JobGroup.job_factory g)
  /\ Job.job_status_subscription j
     = Some (subscription_path (project_id (Job.job_config j)) (Job.name j)).

(** The instance templates a trace asks to delete, by name, in order. *)
Definition template_deletion (c : call) : option string :=
  match c with
  | instanceTemplates_delete _ instanceTemplate => Some instanceTemplate
  | _ => None
  end.

Fixpoint template_deletions (evs : list event) : list string :=
  match evs with
  | [] => []
  | e :: evs' =>
      match template_deletion (call_of e) with
      | Some n => n :: template_deletions evs'
      | None => template_deletions evs'
      end
  end.

(** The templates [clean_up] has to delete for a list of jobs. *)
Definition templates_of (jobs : list Job.t) : list string :=
  map Job.name (filter Job.started jobs).

(** A cloud whose listing of the instance groups has no ["items"] entry. *)
Definition no_items_cloud : environment :=
  fun w c =>
    match c return reply c with
    | instanceGroups_list p z =>
        Fake.quiet (c := instanceGroups_list p z)
                   (JObj [("kind", JStr "compute#instanceGroupList")])
    | c' => Fake.cloud w c'
    end.

(** The templates a trace rendered: name, bindings and the text returned. *)
Definition rendering_of (e : event) : option (string * list (string * json) * string) :=
  match e with
  | @Event (render_template template bindings) r _ =>
      match answered r with
      | Returns text => Some (template, bindings, text)
      | Raises _ => None
      end
  | _ => None
  end.

Fixpoint renderings (evs : list event)
  : list (string * list (string * json) * string) :=
  match evs with
  | [] => []
  | e :: evs' =>
      match rendering_of e with
      | Some r => r :: renderings evs'
      | None => renderings evs'
      end
  end.

(** [d["metadata"]["items"][0]["value"]], where it exists. *)
Definition startup_payload (d : json) : option json :=
  match json_get "metadata" d with
  | Some metadata =>
      match json_get "items" metadata with
      | Some (JList (item :: _)) => json_get "value" item
      | _ => None
      end
  | None => None
  end.

(** The bindings [CloudInitConfig.render] hands to the two templates. *)
Definition runner_bindings (vm_name : string) (job_config : JobConfig)
  : list (string * json) :=
  [("vm_name", JStr vm_name);
   ("zone", JStr (zone job_config));
   ("image", JStr (image job_config));
   ("privileged", JBool (privileged job_config))].

Definition cloud_init_bindings (vm_name clash_runner_script script : string)
           (env_vars gcs_target gcs_mounts : list (string * string))
  : list (string * json) :=
  [("vm_name", JStr vm_name);
   ("clash_runner_script", JStr clash_runner_script);
   ("gcs_target", dict_of gcs_target);
   ("gcs_mounts", dict_of gcs_mounts);
   ("script", JStr script);
   ("env_var_file",
    JStr (String.concat newline (map (fun kv => fst kv ++ "=" ++ snd kv) env_vars)))].

(** [d or {}] for an optional dict. *)
Definition or_empty (d : option (list (string * string))) : list (string * string) :=
  match d with
  | Some d' => d'
  | None => []
  end.

(** A file system with one script. *)
Definition one_script (path : string) : answer string :=
  if String.eqb path "job.sh" then Returns "ls -l" else Raises "FileNotFoundError".

(** Every exception but those a [raise ValueError(...)] statement of
    [clash.py] builds.  [json.JSONDecodeError], which Python makes a
    subclass of [ValueError], is a constructor of its own here and is
    among the exceptions this holds of. *)
Definition not_raised_value_error (e : exn) : Prop :=
  match e with
  | ValueError _ => False
  | _ => True
  end.

(** A computation whose exceptions all satisfy [Q]. *)
Definition raises_only {S A : Type} (Q : exn -> Prop) (m : M S A) : Prop :=
  forall s w e, fst (fst (m s w)) = Raise e -> Q e.

(** A cloud in which the list of topics is always empty. *)
Definition unlisted_cloud : environment :=
  fun w c =>
    match c return reply c with
    | list_topics p => Fake.quiet (c := list_topics p) []
    | c' => Fake.cloud w c'
    end.

(** ** What a run did, by outcome *)

(** The exception a call of the trace was answered with, if it raised. *)
Definition failure_of (e : event) : option string :=
  match e with
  | @Event _ r _ =>
      match answered r with
      | Raises what => Some what
      | Returns _ => None
      end
  end.

(** The last call of [evs] raised [what]; every call before it returned. *)
Definition ends_raising (evs : list event) (what : string) : Prop :=
  exists before e,
    evs = (before ++ [e])%list
    /\ Forall (fun e' => failure_of e' = None) before
    /\ failure_of e = Some what.

(** The times at which the pulls of a trace were issued, whatever their
    answer. *)
Definition pull_time (e : event) : option Z :=
  match e with
  | @Event (pull _ _ _ _) _ at_time => Some at_time
  | _ => None
  end.

Fixpoint pull_times (evs : list event) : list Z :=
  match evs with
  | [] => []
  | e :: evs' =>
      match pull_time e with
      | Some t => t :: pull_times evs'
      | None => pull_times evs'
      end
  end.

(** The request [_pull_message] sends. *)
Definition the_pull (subscription : option string) : call :=
  pull subscription 1 false Job.POLLING_INTERVAL_SECONDS.

(** The calls of a run of the loop of [attach] that made [n] pulls and got
    the message [m] from the last one. *)
Definition pulls_then_ack (subscription : option string) (n : nat)
           (m : received_message) : list call :=
  (repeat (the_pull subscription) n ++ [acknowledge subscription [ack_id m]])%list.

(** What a run of the loop of [attach] on the subscription [subscription]
    did, by outcome.  [within t] is the condition of the loop when the
    clock reads [t], [late] the text of the timeout error, [evs] the calls
    of the run with their answers and [finish] the time at which it ended.
    - Every pull was issued at a time at which the condition held.
    - The run returns the decoded payload of the first message of the
      first pull that carried one; it has acknowledged that message.
    - It raises the timeout error when every pull so far returned without
      a message and the condition fails.
    - It is cut for lack of fuel only after [fuel] pulls that returned
      without a message, with the condition still holding.
    - Any other exception comes from the decoding of the message or from
      the last call of the run: a pull, or the acknowledgement of the
      message the last pull carried. *)
Definition attach_run (json_loads : string -> option json) (fuel : nat)
           (subscription : option string) (within : Z -> bool) (late : string)
           (o : outcome json) (evs : list event) (finish : Z) : Prop :=
  Forall (fun t => within t = true) (pull_times evs)
  /\ match o with
     | Ok payload =>
         exists idle p m rest,
           pulls evs = (idle ++ [p])%list /\ Forall idle_pull idle
           /\ pull_messages p = m :: rest
           /\ json_loads (message_data m) = Some payload
           /\ calls evs = pulls_then_ack subscription (S (List.length idle)) m
     | Raise JSONDecodeError =>
         exists idle p m rest,
           pulls evs = (idle ++ [p])%list /\ Forall idle_pull idle
           /\ pull_messages p = m :: rest
           /\ json_loads (message_data m) = None
           /\ calls evs = pulls_then_ack subscription (S (List.length idle)) m
     | Raise (TimeoutError msg) =>
         Forall idle_pull (pulls evs)
         /\ calls evs = repeat (the_pull subscription) (List.length (pulls evs))
         /\ within finish = false /\ msg = late
     | Raise (External what) =>
         ends_raising evs what
         /\ ((Forall idle_pull (pulls evs)
              /\ calls evs
                 = repeat (the_pull subscription) (S (List.length (pulls evs))))
             \/ (exists idle p m rest,
                   pulls evs = (idle ++ [p])%list /\ Forall idle_pull idle
                   /\ pull_messages p = m :: rest
                   /\ calls evs
                      = pulls_then_ack subscription (S (List.length idle)) m))
     | Raise _ => False
     | OutOfFuel =>
         Forall idle_pull (pulls evs) /\ List.length (pulls evs) = fuel
         /\ calls evs = repeat (the_pull subscription) fuel
         /\ within finish = true
     end.

(** *** [JobGroup.wait] *)

(** The world after [k] sleeps of [seconds] seconds, one after the other,
    from [w] on. *)
Fixpoint after_sleeps (env : environment) (json_loads : string -> option json)
         (seconds : Z) (k : nat) (w : world) : world :=
  match k with
  | O => w
  | S k' =>
      after_sleeps env json_loads seconds k'
                   (after_call env json_loads w (time_sleep seconds))
  end.

(** What a run of [JobGroup.wait] on the group [g], begun in the world
    [w], did, by outcome: [o] is the outcome and [w'] the world it left.
    The run polled the code list [k + 1] times, sleeping one second after
    each of the first [k] polls, none of which found [N] codes.
    - It returns when the last poll finds [N] codes, with the answer
      whether each of them equals 0.
    - It is cut for lack of fuel when the last poll does not find [N]
      codes and [fuel] sleeps are over.
    - It raises only the exception of the sleep after the last poll. *)
Definition wait_run (env : environment) (json_loads : string -> option json)
           (fuel : nat) (g : JobGroup.t) (N : nat) (w : world)
           (o : outcome bool) (w' : world) : Prop :=
  let polled_world := after_sleeps env json_loads 1 in
  let count := fun i => List.length (recorded g (polled_world i w)) in
  let slept := fun i => answered (env (polled_world i w) (time_sleep 1)) in
  exists k,
    (k <= fuel)%nat
    /\ (forall i, (i < k)%nat -> count i <> N /\ slept i = Returns tt)
    /\ match o with
       | Ok b =>
           count k = N /\ w' = polled_world k w
           /\ b = forallb py_eq_zero (recorded g (polled_world k w))
       | OutOfFuel => count k <> N /\ k = fuel /\ w' = polled_world k w
       | Raise e =>
           count k <> N /\ (k < fuel)%nat
           /\ (exists what, slept k = Raises what /\ e = External what)
           /\ w' = polled_world (S k) w
       end.

(** *** The uuids of the jobs a group launches *)

(** The uuids the uuid source answered with in a trace, oldest first. *)
Definition uuid_of (e : event) : option string :=
  match e with
  | @Event uuid1 r _ =>
      match answered r with
      | Returns u => Some u
      | Raises _ => None
      end
  | _ => None
  end.

Fixpoint uuids (evs : list event) : list string :=
  match evs with
  | [] => []
  | e :: evs' =>
      match uuid_of e with
      | Some u => u :: uuids evs'
      | None => uuids evs'
      end
  end.

Definition is_uuid1 (c : call) : bool :=
  match c with
  | uuid1 => true
  | _ => false
  end.

(** How many uuids a trace asked for. *)
Definition uuid_requests (evs : list event) : nat :=
  List.length (filter is_uuid1 (calls evs)).

(** A call that asks for no uuid. *)
Definition no_uuid (c : call) : Prop := is_uuid1 c = false.

(** *** The handler of [Job.run] *)

(** The removal requests of a trace, with their arguments, in the order
    they were issued. *)
Definition is_removal (c : call) : bool :=
  match removal c with
  | Some _ => true
  | None => false
  end.

Definition removal_requests (evs : list event) : list call :=
  filter is_removal (calls evs).

(** The request by which a Job asks for the removal of its managed
    instance group. *)
Definition group_removal (self : Job.t) : call :=
  instanceGroupManagers_delete (project_id (Job.job_config self))
                               (zone (Job.job_config self)) (Job.name self).

(** The removals the handler of [run] asks the message bus for: the topic
    and the subscription the Job holds, in this order. *)
Definition bus_removals (self : Job.t) : list call :=
  ((if truthy (Job.job_status_topic self)
    then [delete_topic (Job.job_status_topic self)] else [])
     ++ (if truthy (Job.job_status_subscription self)
         then [delete_subscription (Job.job_status_subscription self)] else []))%list.

(** What the handler of [run] did on the Job [self] after the exception
    [ex], by outcome ([client] is the answer to the request for a compute
    client with which the removal of the group begins).
    - The handler first asks for the removal of the managed instance group,
      if the Job is marked started and the compute client is there; then
      for the removals on the message bus; then it raises [ex] again.
    - It is cut for lack of fuel only while it waits for the removal of
      the group, [fuel] polls of which found the operation unfinished. *)
Definition rollback_observed (fuel : nat) (self : Job.t) (client : answer unit)
           (ex : exn) {A : Type} (o : outcome A) (evs : list event) : Prop :=
  let group_part :=
    if Job.started self
    then match client with
         | Returns _ => [group_removal self]
         | Raises _ => []
         end
    else [] in
  match o with
  | Raise e =>
      e = ex /\ removal_requests evs = (group_part ++ bus_removals self)%list
  | OutOfFuel =>
      Job.started self = true
      /\ removal_requests evs = [group_removal self]
      /\ Forall (fun p => is_done p = false) (polled evs)
      /\ List.length (polled evs) = fuel
  | Ok _ => False
  end.

(** *** [Job.clean_up] *)

(** The request by which a Job lists the instance groups of its zone. *)
Definition listing_request (self : Job.t) : call :=
  instanceGroups_list (project_id (Job.job_config self)) (zone (Job.job_config self)).

(** The request by which a Job asks for the removal of its instance
    template. *)
Definition template_removal (self : Job.t) : call :=
  instanceTemplates_delete (project_id (Job.job_config self)) (Job.name self).

(** The answers to the listings of the instance groups in a trace, oldest
    first. *)
Definition listed_of (e : event) : option json :=
  match e with
  | @Event (instanceGroups_list _ _) r _ =>
      match answered r with
      | Returns listing => Some listing
      | Raises _ => None
      end
  | _ => None
  end.

Fixpoint listed (evs : list event) : list json :=
  match evs with
  | [] => []
  | e :: evs' =>
      match listed_of e with
      | Some listing => listing :: listed evs'
      | None => listed evs'
      end
  end.

(** Whether a listing shows the group of the Job, or the exception that
    reading the listing raises. *)
Definition shows (self : Job.t) (listing : json) : exn + bool :=
  match listed_groups listing with
  | inr groups => inr (Job.name_in (Job.name self) groups)
  | inl e => inl e
  end.

(** The calls of [k] rounds of [_wait_for_instance_group_removal] that
    found the group: the client, the listing, the sleep of 30 seconds. *)
Fixpoint waiting_rounds (self : Job.t) (k : nat) : list call :=
  match k with
  | O => []
  | S k' =>
      get_compute_client :: listing_request self
        :: time_sleep Job.POLLING_INTERVAL_SECONDS :: waiting_rounds self k'
  end.

(** What a run of [_wait_for_instance_group_removal] did, by outcome.
    The listings [shown] showed the group of the Job; each was followed by
    a sleep of 30 seconds and another listing.
    - The run returns on the first listing that does not show the group.
    - It is cut for lack of fuel after [fuel] listings that showed it.
    - It raises the exception of its last call (the client, the listing
      or the sleep), or the one that reading the last listing raises. *)
Definition group_wait_observed (fuel : nat) (self : Job.t) (o : outcome unit)
           (evs : list event) : Prop :=
  exists shown rest,
    listed evs = (shown ++ rest)%list
    /\ Forall (fun listing => shows self listing = inr true) shown
    /\ match o with
       | Ok _ =>
           (exists absent, rest = [absent] /\ shows self absent = inr false)
           /\ calls evs
              = (waiting_rounds self (List.length shown)
                   ++ [get_compute_client; listing_request self])%list
           /\ Forall (fun e => failure_of e = None) evs
       | OutOfFuel =>
           rest = [] /\ List.length shown = fuel
           /\ calls evs = waiting_rounds self fuel
           /\ Forall (fun e => failure_of e = None) evs
       | Raise (External what) =>
           rest = [] /\ ends_raising evs what
           /\ prefix_of (calls evs) (waiting_rounds self (S (List.length shown)))
       | Raise e =>
           (exists bad, rest = [bad] /\ shows self bad = inl e)
           /\ calls evs
              = (waiting_rounds self (List.length shown)
                   ++ [get_compute_client; listing_request self])%list
           /\ Forall (fun e => failure_of e = None) evs
       end.

(** What [_remove_instance_template] did on a started Job: it asks for a
    compute client and, unless that fails, for the removal of the
    template; whatever follows is the polling of that operation. *)
Definition template_removal_observed (self : Job.t) (o : outcome unit)
           (evs : list event) : Prop :=
  exists first after,
    evs = first :: after /\ call_of first = get_compute_client
    /\ match failure_of first with
       | Some what => after = [] /\ o = Raise (External what)
       | None =>
           exists deletion polls,
             after = deletion :: polls
             /\ call_of deletion = template_removal self
             /\ Forall (fun e => operation_poll (call_of e)) polls
             /\ (forall what, failure_of deletion = Some what ->
                              polls = [] /\ o = Raise (External what))
       end.

(** * Reasoning about runs *)

(** ** Lists of events *)

Lemma removals_app (xs ys : list event) :
  removals (xs ++ ys) = (removals xs ++ removals ys)%list.
Proof.
  induction xs as [|e xs IH]; simpl; [reflexivity|].
  destruct (removal (call_of e)); simpl; now rewrite IH.
Qed.

Lemma pulls_app (xs ys : list event) :
  pulls (xs ++ ys) = (pulls xs ++ pulls ys)%list.
Proof.
  induction xs as [|e xs IH]; simpl; [reflexivity|].
  destruct (pull_of e); simpl; now rewrite IH.
Qed.

Lemma cleanup_view_app (n : string) (xs ys : list event) :
  cleanup_view n (xs ++ ys) = (cleanup_view n xs ++ cleanup_view n ys)%list.
Proof.
  induction xs as [|e xs IH]; simpl; [reflexivity|].
  destruct (cleanup_obs_of n e); simpl; now rewrite IH.
Qed.

Lemma calls_app (xs ys : list event) : calls (xs ++ ys) = (calls xs ++ calls ys)%list.
Proof. apply map_app. Qed.

Lemma pull_times_app (xs ys : list event) :
  pull_times (xs ++ ys) = (pull_times xs ++ pull_times ys)%list.
Proof.
  induction xs as [|e xs IH]; simpl; [reflexivity|].
  destruct (pull_time e); simpl; now rewrite IH.
Qed.

Lemma pulls_began_within (P : Z -> Prop) (evs : list event) :
  Forall P (pull_times evs) -> Forall (fun p => P (pull_began p)) (pulls evs).
Proof.
  induction evs as [|e evs IH]; simpl; [constructor|].
  destruct e as [c r t]. destruct c; simpl; try exact IH.
  intros H. inversion H as [|? ? Ht Hts]; subst.
  destruct (answered r); [constructor; [exact Ht|]|]; now apply IH.
Qed.

Lemma uuids_app (xs ys : list event) : uuids (xs ++ ys) = (uuids xs ++ uuids ys)%list.
Proof.
  induction xs as [|e xs IH]; simpl; [reflexivity|].
  destruct (uuid_of e); simpl; now rewrite IH.
Qed.

Lemma uuid_requests_app (xs ys : list event) :
  uuid_requests (xs ++ ys) = (uuid_requests xs + uuid_requests ys)%nat.
Proof. unfold uuid_requests. now rewrite calls_app, filter_app, length_app. Qed.

Lemma listed_app (xs ys : list event) : listed (xs ++ ys) = (listed xs ++ listed ys)%list.
Proof.
  induction xs as [|e xs IH]; simpl; [reflexivity|].
  destruct (listed_of e); simpl; now rewrite IH.
Qed.

Lemma removal_requests_app (xs ys : list event) :
  removal_requests (xs ++ ys) = (removal_requests xs ++ removal_requests ys)%list.
Proof. unfold removal_requests. now rewrite calls_app, filter_app. Qed.

Lemma ends_raising_cons (e : event) (evs : list event) (what : string) :
  failure_of e = None -> ends_raising evs what -> ends_raising (e :: evs) what.
Proof.
  intros He (before & l & -> & Hb & Hl).
  exists (e :: before), l. split; [reflexivity|]. split; [now constructor|exact Hl].
Qed.

Lemma ends_raising_one (e : event) (what : string) :
  failure_of e = Some what -> ends_raising [e] what.
Proof. intros He. exists [], e. split; [reflexivity|]. split; [constructor|exact He]. Qed.


(** ** The world after a call *)

Section WorldFacts.

Variable env : environment.
Variable json_loads : string -> option json.

Lemma pubsub_callback_trace cb data w :
  trace (pubsub_callback json_loads cb data w) = trace w
  /\ now (pubsub_callback json_loads cb data w) = now w.
Proof.
  unfold pubsub_callback.
  destruct (json_loads data) as [d|]; [|now split].
  destruct (json_get "status" d); [|now split].
  destruct cb; now split.
Qed.

Lemma notify_trace ls path data w :
  trace (notify json_loads ls path data w) = trace w
  /\ now (notify json_loads ls path data w) = now w.
Proof.
  revert w; induction ls as [|[s cb] ls IH]; intros w; simpl; [now split|].
  destruct (IH (if same_subscription path s
                then pubsub_callback json_loads cb data w else w)) as [Ht Hn].
  rewrite Ht, Hn.
  destruct (same_subscription path s); [apply pubsub_callback_trace|now split].
Qed.

Lemma deliver_trace msgs w :
  trace (deliver json_loads msgs w) = trace w
  /\ now (deliver json_loads msgs w) = now w.
Proof.
  revert w; induction msgs as [|[path data] msgs IH]; intros w; simpl; [now split|].
  destruct (IH (notify json_loads (listeners w) path data w)) as [Ht Hn].
  rewrite Ht, Hn. apply notify_trace.
Qed.

(** What one call does to the caller and to the world. *)
Lemma invoke_spec (S : Type) (c : call) (s : S) (w : world) :
  let r := invoke env json_loads c s w in
  fst (fst r) = match answered (env w c) with
                | Returns a => Ok a
                | Raises what => Raise (External what)
                end
  /\ snd (fst r) = s
  /\ trace (snd r) = (trace w ++ [Event (env w c) (now w)])%list
  /\ now (snd r) = now w + took (env w c).
Proof.
  unfold invoke; simpl.
  repeat split; apply deliver_trace.
Qed.

End WorldFacts.

(** ** Sequencing *)

Lemma bind_run {S A B : Type} (m : M S A) (k : A -> M S B) s w o s1 w1 :
  m s w = (o, s1, w1) ->
  bind m k s w = match o with
                 | Ok a => k a s1 w1
                 | Raise e => (Raise e, s1, w1)
                 | OutOfFuel => (OutOfFuel, s1, w1)
                 end.
Proof.
  intros H. unfold bind. rewrite H. now destruct o.
Qed.
Arguments bind_run {S A B} m k {s w o s1 w1} _.

Lemma try_except_run {S A : Type} (m : M S A) (h : exn -> M S A) s w o s1 w1 :
  m s w = (o, s1, w1) ->
  try_except m h s w = match o with
                       | Raise e => h e s1 w1
                       | _ => (o, s1, w1)
                       end.
Proof.
  intros H. unfold try_except. rewrite H. now destruct o.
Qed.
Arguments try_except_run {S A} m h {s w o s1 w1} _.

(** ** Footprints: what a computation may do to its object and which calls
    it may issue *)

Section Footprint.

Variable S : Type.
Variable R : S -> S -> Prop.
Variable P : call -> Prop.
Hypothesis R_refl : forall s, R s s.
Hypothesis R_trans : forall a b c, R a b -> R b c -> R a c.

Lemma behaves_silent {A : Type} (m : M S A) :
  (forall s w, snd (fst (m s w)) = s /\ trace (snd (m s w)) = trace w) ->
  behaves R P m.
Proof.
  intros H s w. destruct (H s w) as [Hs Ht]. rewrite Hs, Ht. split; [apply R_refl|].
  exists []. now rewrite app_nil_r.
Qed.

Lemma behaves_ret {A : Type} (a : A) : behaves R P (ret a).
Proof. apply behaves_silent; now split. Qed.

Lemma behaves_raise {A : Type} (e : exn) : behaves R P (@raise S A e).
Proof. apply behaves_silent; now split. Qed.

Lemma behaves_out_of_fuel {A : Type} : behaves R P (@out_of_fuel S A).
Proof. apply behaves_silent; now split. Qed.

Lemma behaves_get : behaves R P (@get S).
Proof. apply behaves_silent; now split. Qed.

Lemma behaves_time_time : behaves R P (@time_time S).
Proof. apply behaves_silent; now split. Qed.

Lemma behaves_read_list r : behaves R P (@read_list S r).
Proof. apply behaves_silent; now split. Qed.

Lemma behaves_new_list : behaves R P (@new_list S).
Proof. apply behaves_silent; now split. Qed.

Lemma behaves_spawn_listener sub cb : behaves R P (@spawn_listener S sub cb).
Proof. apply behaves_silent; now split. Qed.

Lemma behaves_subscript d key : behaves R P (@subscript S d key).
Proof.
  apply behaves_silent; intros s w. unfold subscript.
  destruct d; try now split.
  destruct (assoc_get key fields); now split.
Qed.

Lemma behaves_invoke env json_loads c : P c -> behaves R P (@invoke env json_loads S c).
Proof.
  intros HP s w.
  destruct (invoke_spec env json_loads c s w) as (_ & Hs & Ht & _).
  rewrite Hs, Ht. split; [apply R_refl|].
  eexists; split; [reflexivity|]. constructor; [exact HP|constructor].
Qed.

Lemma behaves_bind {A B : Type} (m : M S A) (k : A -> M S B) :
  behaves R P m -> (forall a, behaves R P (k a)) -> behaves R P (bind m k).
Proof.
  intros Hm Hk s w. specialize (Hm s w).
  destruct (m s w) as [[o s1] w1] eqn:E. rewrite (bind_run m k E).
  simpl in Hm. destruct Hm as (HR & evs & Ht & HP).
  destruct o as [a| |]; simpl.
  - destruct (Hk a s1 w1) as (HR2 & evs2 & Ht2 & HP2).
    split; [eapply R_trans; eassumption|].
    exists (evs ++ evs2)%list. rewrite Ht2, Ht, app_assoc. split; [reflexivity|].
    apply Forall_app; now split.
  - split; [assumption|]. now exists evs.
  - split; [assumption|]. now exists evs.
Qed.

Lemma behaves_try_except {A : Type} (m : M S A) (h : exn -> M S A) :
  behaves R P m -> (forall e, behaves R P (h e)) -> behaves R P (try_except m h).
Proof.
  intros Hm Hh s w. specialize (Hm s w).
  destruct (m s w) as [[o s1] w1] eqn:E. rewrite (try_except_run m h E).
  simpl in Hm. destruct Hm as (HR & evs & Ht & HP).
  destruct o as [a|e|]; simpl.
  - split; [assumption|]. now exists evs.
  - destruct (Hh e s1 w1) as (HR2 & evs2 & Ht2 & HP2).
    split; [eapply R_trans; eassumption|].
    exists (evs ++ evs2)%list. rewrite Ht2, Ht, app_assoc. split; [reflexivity|].
    apply Forall_app; now split.
  - split; [assumption|]. now exists evs.
Qed.

End Footprint.

(** A footprint may be widened. *)
Lemma behaves_weaken {S A : Type} (R R' : S -> S -> Prop) (P P' : call -> Prop)
      (m : M S A) :
  (forall s s', R s s' -> R' s s') -> (forall c, P c -> P' c) ->
  behaves R P m -> behaves R' P' m.
Proof.
  intros HR HP H s w. destruct (H s w) as (H1 & evs & Ht & HF).
  split; [now apply HR|]. exists evs; split; [assumption|].
  eapply Forall_impl; [|exact HF]. intros e; apply HP.
Qed.

(** A method run on another object leaves the caller as it is. *)
Lemma behaves_on_object {S O A : Type} (R : S -> S -> Prop) (R' : O -> O -> Prop)
      (P : call -> Prop) (o : O) (m : M O A) :
  (forall s, R s s) -> behaves R' P m -> behaves R P (on_object o m).
Proof.
  intros HR H s w. destruct (H o w) as (_ & evs & Ht & HF).
  unfold on_object. destruct (m o w) as [[r o'] w'].
  simpl in Ht. destruct r; simpl; (split; [apply HR|now exists evs]).
Qed.

Create HintDb footprint.

#[export] Hint Extern 1 (_ = _) => congruence : footprint.

Ltac behave_side := solve [ intros; eauto with footprint ].

Ltac behave_step :=
  match goal with
  | |- behaves _ _ (ret _) => apply behaves_ret; behave_side
  | |- behaves _ _ (raise _) => apply behaves_raise; behave_side
  | |- behaves _ _ out_of_fuel => apply behaves_out_of_fuel; behave_side
  | |- behaves _ _ get => apply behaves_get; behave_side
  | |- behaves _ _ time_time => apply behaves_time_time; behave_side
  | |- behaves _ _ (read_list _) => apply behaves_read_list; behave_side
  | |- behaves _ _ new_list => apply behaves_new_list; behave_side
  | |- behaves _ _ (spawn_listener _ _) => apply behaves_spawn_listener; behave_side
  | |- behaves _ _ (subscript _ _) => apply behaves_subscript; behave_side
  | |- behaves _ _ (invoke _ _ _) =>
      apply behaves_invoke; [behave_side..|solve [exact I | reflexivity]]
  | |- behaves _ _ (bind _ _) => apply behaves_bind; [behave_side..| |intro]
  | |- behaves _ _ (try_except _ _) =>
      apply behaves_try_except; [behave_side..| |intro]
  | |- behaves _ _ (if ?b then _ else _) => destruct b
  | |- behaves _ _ (match ?x with _ => _ end) => destruct x
  end.

Ltac behave := repeat behave_step.

(** ** Footprints of the methods of [Job] *)

Lemma same_job_refl (a : Job.t) : same_job a a.
Proof. now repeat split. Qed.

Lemma same_job_trans (a b c : Job.t) : same_job a b -> same_job b c -> same_job a c.
Proof. unfold same_job; intros (? & ? & ?) (? & ? & ?); repeat split; congruence. Qed.

Lemma eq_job_trans (a b c : Job.t) : a = b -> b = c -> a = c.
Proof. congruence. Qed.

#[export] Hint Resolve same_job_refl same_job_trans eq_job_trans : footprint.

Ltac footprint := behave.

Section JobFootprints.

Variable env : environment.
Variable json_loads : string -> option json.

Lemma wait_for_operation_loop_behaves fuel operation is_global_op :
  behaves eq operation_poll
          (Job._wait_for_operation_loop env json_loads fuel operation is_global_op).
Proof.
  induction fuel as [|fuel IH]; simpl; [apply behaves_out_of_fuel; behave_side|].
  footprint. exact IH.
Qed.

Lemma wait_for_operation_behaves fuel operation is_global_op :
  behaves eq operation_poll
          (Job._wait_for_operation env json_loads fuel operation is_global_op).
Proof.
  unfold Job._wait_for_operation. footprint.
  apply wait_for_operation_loop_behaves.
Qed.

Lemma wait_for_operation_any fuel operation is_global_op :
  behaves eq any_call
          (Job._wait_for_operation env json_loads fuel operation is_global_op).
Proof.
  eapply behaves_weaken; [| |apply wait_for_operation_behaves]; [auto|].
  intros; exact I.
Qed.

Lemma create_instance_template_behaves fuel machine_config :
  behaves eq any_call (Job._create_instance_template env json_loads fuel machine_config).
Proof.
  unfold Job._create_instance_template. footprint.
  apply wait_for_operation_any.
Qed.

Lemma create_managed_instance_group_behaves fuel size :
  behaves eq any_call (Job._create_managed_instance_group env json_loads fuel size).
Proof.
  unfold Job._create_managed_instance_group. footprint.
  apply wait_for_operation_any.
Qed.

Lemma create_status_topic_behaves :
  behaves eq any_call (Job._create_status_topic env json_loads).
Proof. unfold Job._create_status_topic. footprint. Qed.

Lemma create_status_subscription_behaves :
  behaves eq any_call (Job._create_status_subscription env json_loads).
Proof. unfold Job._create_status_subscription. footprint. Qed.

Lemma create_machine_config_behaves script e t m :
  behaves eq any_call (Job._create_machine_config env json_loads script e t m).
Proof.
  unfold Job._create_machine_config, MachineConfig_to_dict, CloudInitConfig_render,
    set_startup_payload.
  footprint.
Qed.

Lemma remove_instance_group_behaves fuel :
  behaves eq any_call (Job._remove_instance_group env json_loads fuel).
Proof.
  unfold Job._remove_instance_group. footprint.
  apply wait_for_operation_any.
Qed.

Lemma remove_instance_template_behaves fuel :
  behaves eq any_call (Job._remove_instance_template env json_loads fuel).
Proof.
  unfold Job._remove_instance_template. footprint.
  apply wait_for_operation_any.
Qed.

Lemma pull_message_behaves sub :
  behaves eq any_call (Job._pull_message env json_loads sub).
Proof. unfold Job._pull_message. footprint. Qed.

Lemma attach_loop_behaves fuel timeout start :
  behaves eq any_call (Job.attach_loop env json_loads fuel timeout start).
Proof.
  induction fuel as [|fuel IH]; simpl; footprint;
    first [apply pull_message_behaves | exact IH].
Qed.

Lemma attach_behaves fuel timeout :
  behaves eq any_call (Job.attach env json_loads fuel timeout).
Proof.
  unfold Job.attach. footprint. apply attach_loop_behaves.
Qed.

Lemma on_finish_behaves cb :
  behaves eq any_call (Job.on_finish env json_loads cb).
Proof. unfold Job.on_finish. footprint. Qed.

Lemma run_rollback_behaves (A : Type) fuel ex :
  behaves eq any_call (@Job.run_rollback env json_loads A fuel ex).
Proof.
  unfold Job.run_rollback. footprint.
  apply remove_instance_group_behaves.
Qed.

Lemma set_started_behaves b : behaves same_job any_call (Job.set_started b).
Proof.
  intros s w; simpl. split; [now repeat split|]. exists []. now rewrite app_nil_r.
Qed.

Lemma set_job_status_topic_behaves v :
  behaves same_job any_call (Job.set_job_status_topic v).
Proof.
  intros s w; simpl. split; [now repeat split|]. exists []. now rewrite app_nil_r.
Qed.

Lemma set_job_status_subscription_behaves v :
  behaves same_job any_call (Job.set_job_status_subscription v).
Proof.
  intros s w; simpl. split; [now repeat split|]. exists []. now rewrite app_nil_r.
Qed.

Lemma keeps_job (A : Type) (m : M Job.t A) :
  behaves eq any_call m -> behaves same_job any_call m.
Proof.
  apply behaves_weaken; [|auto]. intros s s' <-. apply same_job_refl.
Qed.

Lemma run_try_behaves fuel machine_config wait_for_result :
  behaves same_job any_call
          (Job.run_try env json_loads fuel machine_config wait_for_result).
Proof.
  unfold Job.run_try.
  footprint;
    first [ apply set_started_behaves | apply set_job_status_topic_behaves
          | apply set_job_status_subscription_behaves | apply keeps_job ].
  - apply create_status_topic_behaves.
  - apply create_status_subscription_behaves.
  - apply create_instance_template_behaves.
  - apply create_managed_instance_group_behaves.
  - apply attach_behaves.
Qed.

Lemma run_prepare_behaves args_ e t m :
  behaves same_job any_call (Job.run_prepare env json_loads args_ e t m).
Proof.
  unfold Job.run_prepare.
  footprint;
    first [ apply set_job_status_topic_behaves
          | apply set_job_status_subscription_behaves | apply keeps_job ].
  apply create_machine_config_behaves.
Qed.

Lemma run_behaves fuel args_ e t m wait_for_result :
  behaves same_job any_call (Job.run env json_loads fuel args_ e t m wait_for_result).
Proof.
  unfold Job.run. footprint.
  - apply run_prepare_behaves.
  - apply run_try_behaves.
  - apply keeps_job, run_rollback_behaves.
Qed.

End JobFootprints.

(** ** Stepping through calls *)

Section Stepping.

Variable env : environment.
Variable json_loads : string -> option json.

Lemma invoke_cases (S : Type) (c : call) (s : S) (w : world) :
  (exists a, answered (env w c) = Returns a
             /\ invoke env json_loads c s w
                = (Ok a, s, after_call env json_loads w c))
  \/ (exists what, answered (env w c) = Raises what
                   /\ invoke env json_loads c s w
                      = (Raise (External what), s, after_call env json_loads w c)).
Proof.
  unfold after_call, invoke; simpl.
  destruct (answered (env w c)) as [a|what]; [left; exists a|right; exists what];
    now split.
Qed.

Lemma trace_after_call w c :
  trace (after_call env json_loads w c)
  = (trace w ++ [Event (env w c) (now w)])%list.
Proof. unfold after_call. apply (invoke_spec env json_loads c tt w). Qed.

Lemma now_after_call w c :
  now (after_call env json_loads w c) = now w + took (env w c).
Proof. unfold after_call. apply (invoke_spec env json_loads c tt w). Qed.

End Stepping.

Opaque invoke after_call.

(** One call of the program, split by its answer. *)
Ltac call_step env jl c s w a E :=
  let Ha := fresh "Hanswer" in
  destruct (invoke_cases env jl c s w) as [(a & Ha & E)|(a & Ha & E)].

(** * C7: operations on a Job that was never started *)

Section NeverStarted.

Variable env : environment.
Variable json_loads : string -> option json.

(** C7 (amended): on a Job that was never started, [on_finish] and
    [attach] raise the not-started error and [clean_up] returns normally;
    none of the three issues a call or changes the Job or the world. *)
Theorem unstarted_job_operations (fuel : nat) (cb : callback)
        (timeout : option Z) (self : Job.t) (w : world) :
  Job.started self = false ->
  Job.on_finish env json_loads cb self w
  = (Raise (ValueError "The job is not running"), self, w)
  /\ Job.attach env json_loads fuel timeout self w
     = (Raise (ValueError "The job is not running"), self, w)
  /\ Job.clean_up env json_loads fuel self w = (Ok tt, self, w).
Proof.
  intros H.
  unfold Job.on_finish, Job.attach, Job.clean_up, bind, get; simpl.
  rewrite H; simpl. repeat split.
Qed.

End NeverStarted.

(** C7, a concrete Job built by the constructor and never run: [clean_up]
    returns instead of failing. *)
Lemma unstarted_clean_up_returns :
  ~ unstarted_operations_fail Fake.cloud Fake.decode.
Proof.
  intros H.
  destruct (H 1%nat (list_append 0%nat) None Fake.job empty_world eq_refl)
    as (_ & _ & e & He).
  discriminate He.
Qed.

Lemma unstarted_job_operations_witness :
  Job.on_finish Fake.cloud Fake.decode (list_append 0%nat) Fake.job empty_world
  = (Raise (ValueError "The job is not running"), Fake.job, empty_world)
  /\ Job.attach Fake.cloud Fake.decode 3 (Some 5) Fake.job empty_world
     = (Raise (ValueError "The job is not running"), Fake.job, empty_world)
  /\ Job.clean_up Fake.cloud Fake.decode 3 Fake.job empty_world
     = (Ok tt, Fake.job, empty_world).
Proof.
  apply (@unstarted_job_operations Fake.cloud Fake.decode 3 (list_append 0%nat) (Some 5)
           Fake.job empty_world).
  reflexivity.
Defined.

(** ** [attach] with a falsy timeout *)

Section ZeroTimeout.

Variable env : environment.
Variable json_loads : string -> option json.

Lemma attach_loop_falsy_timeout fuel (t1 t2 : option Z) start self w :
  truthy_int t1 = false -> truthy_int t2 = false ->
  Job.attach_loop env json_loads fuel t1 start self w
  = Job.attach_loop env json_loads fuel t2 start self w.
Proof.
  intros H1 H2. revert self w.
  induction fuel as [|fuel IH]; intros self w; simpl;
    unfold bind, get; simpl; rewrite H1, H2; simpl; [reflexivity|].
  destruct (Job._pull_message env json_loads (Job.job_status_subscription self) self w)
    as [[[[data|]| |] s1] w1]; try reflexivity.
  apply IH.
Qed.

(** The loop keeps pulling as long as the bus has nothing. *)
Lemma attach_loop_blocks fuel (t : option Z) start self w :
  truthy_int t = false ->
  (forall w' c, exists a, answered (env w' c) = Returns a) ->
  (forall w' s, answered (env w' (pull s 1 false 30)) = Returns []) ->
  fst (fst (Job.attach_loop env json_loads fuel t start self w)) = OutOfFuel.
Proof.
  intros H Hok Hpull. revert self w.
  induction fuel as [|fuel IH]; intros self w; simpl;
    unfold bind, get; simpl; rewrite H; simpl; [reflexivity|].
  unfold Job._pull_message at 1.
  call_step env json_loads
            (pull (Job.job_status_subscription self) 1 false
                  Job.POLLING_INTERVAL_SECONDS) self w msgs E;
    rewrite (bind_run _ _ E); simpl.
  - unfold Job.POLLING_INTERVAL_SECONDS in Hanswer. rewrite Hpull in Hanswer.
    injection Hanswer as <-. simpl. apply IH.
  - unfold Job.POLLING_INTERVAL_SECONDS in Hanswer. rewrite Hpull in Hanswer.
    discriminate.
Qed.

End ZeroTimeout.

(** ** Strings *)

Lemma string_app_assoc (a b c : string) : (a ++ b) ++ c = a ++ b ++ c.
Proof. induction a as [|x a IH]; simpl; [reflexivity|now rewrite IH]. Qed.

Lemma truthy_with_dash (a b : string) : truthy (Some (a ++ "-" ++ b)) = true.
Proof. destruct a; reflexivity. Qed.

(** ** Steps that need no case analysis *)

Lemma bind_get {S B : Type} (k : S -> M S B) s w : bind get k s w = k s s w.
Proof. reflexivity. Qed.

Lemma bind_ret {S A B : Type} (a : A) (k : A -> M S B) s w :
  bind (ret a) k s w = k a s w.
Proof. reflexivity. Qed.

Lemma bind_raise {S A B : Type} (e : exn) (k : A -> M S B) s w :
  bind (raise e) k s w = (Raise e, s, w).
Proof. reflexivity. Qed.

Lemma bind_time_time {S B : Type} (k : Z -> M S B) s w :
  bind time_time k s w = k (now w) s w.
Proof. reflexivity. Qed.

Lemma bind_read_list {S B : Type} r (k : list json -> M S B) s w :
  bind (read_list r) k s w = k (nth r (lists w) []) s w.
Proof. reflexivity. Qed.

Lemma bind_bind {S A B C : Type} (m : M S A) (k : A -> M S B) (k' : B -> M S C) s w :
  bind (bind m k) k' s w = bind m (fun a => bind (k a) k') s w.
Proof.
  unfold bind. destruct (m s w) as [[[a| |] s1] w1]; reflexivity.
Qed.

Ltac msimpl :=
  repeat first
    [ rewrite bind_get | rewrite bind_ret | rewrite bind_raise
    | rewrite bind_time_time | rewrite bind_read_list ].

(** What [on_object] returns, from the run of the method. *)
Lemma on_object_run {S O A : Type} (o : O) (m : M O A) (s : S) w :
  on_object o m s w
  = (match fst (fst (m o w)) with
     | Ok a => Ok (a, snd (fst (m o w)))
     | Raise e => Raise e
     | OutOfFuel => OutOfFuel
     end, s, snd (m o w)).
Proof.
  unfold on_object. destruct (m o w) as [[[a| |] o'] w']; reflexivity.
Qed.

(** ** The constructor of [Job] under a name prefix *)

Section JobNames.

Variable env : environment.
Variable json_loads : string -> option json.

Lemma create_spec (S : Type) (f : JobFactory.t) (p : string) (s : S) (w : world) :
  truthy (Some p) = true ->
  let r := JobFactory.create env json_loads f p s w in
  snd (fst r) = s
  /\ forall j, fst (fst r) = Ok j ->
               exists uuid, Job.name j = p ++ "-clash-job-" ++ substring 0 16 uuid.
Proof.
  intros Hp. unfold JobFactory.create, Job.init. simpl negb. cbv iota zeta.
  rewrite bind_bind.
  call_step env json_loads uuid1 s w u E; rewrite (bind_run _ _ E); cbv iota beta.
  - rewrite Hp. msimpl. simpl. split; [reflexivity|].
    intros j [= <-]. exists u. simpl. now rewrite string_app_assoc.
  - simpl. split; [reflexivity|]. discriminate.
Qed.

End JobNames.

(** ** The fields of a [JobGroup] that [run] never assigns *)

Section GroupRun.

Variable env : environment.
Variable json_loads : string -> option json.

Lemma bind_set_running_jobs (B : Type) v (k : unit -> M JobGroup.t B) g w :
  bind (JobGroup.set_running_jobs v) k g w
  = k tt (snd (fst (JobGroup.set_running_jobs v g w))) w.
Proof. reflexivity. Qed.

Lemma run_loop_spec fuel specs : forall first g w,
  let r := JobGroup.run_loop env json_loads fuel first specs g w in
  same_group g (snd (fst r))
  /\ exists launched,
       JobGroup.running_jobs (snd (fst r))
       = (JobGroup.running_jobs g ++ launched)%list
       /\ (forall i j, nth_error launched i = Some j ->
                       exists uuid,
                         Job.name j = launched_name (JobGroup.name g) (first + i) uuid)
       /\ (fst (fst r) = Ok tt -> List.length launched = List.length specs).
Proof.
  induction specs as [|spec specs IH]; intros first g w; simpl.
  - split; [now repeat split|]. exists []. rewrite app_nil_r.
    repeat split; try reflexivity. intros [|i] j; discriminate.
  - pose (stop := fun (o : outcome unit) (w' : world) =>
        same_group g g /\ exists launched : list Job.t,
          JobGroup.running_jobs g = (JobGroup.running_jobs g ++ launched)%list
          /\ (forall i j, nth_error launched i = Some j ->
               exists uuid,
                 Job.name j = launched_name (JobGroup.name g) (first + i) uuid)
          /\ (o = Ok tt -> List.length launched = S (List.length specs))).
    assert (Hstop : forall e, stop (Raise e) w /\ stop OutOfFuel w).
    { intros e; split; (split; [now repeat split|]); exists [];
        rewrite app_nil_r; repeat split; try discriminate;
        intros [|i] j; discriminate. }
    msimpl.
    pose proof (@create_spec env json_loads _ (JobGroup.job_factory g) _ g w
                  (truthy_with_dash (JobGroup.name g) (str_nat first))) as Hc.
    cbv zeta in Hc.
    destruct (JobFactory.create env json_loads (JobGroup.job_factory g)
                (JobGroup.name g ++ "-" ++ str_nat first) g w)
      as [[o1 g1] w1] eqn:E1.
    simpl in Hc. destruct Hc as [-> Hname].
    rewrite (bind_run _ _ E1).
    destruct o1 as [job| |]; [|apply (Hstop e)|apply (Hstop (External ""))].
    destruct (Hname job eq_refl) as [uuid Hjob].
    rewrite bind_run with (1 := on_object_run _ _ _ _).
    pose proof (run_behaves env json_loads fuel (args spec) (Some (env_vars spec))
                  (Some (gcs_target spec)) (Some (gcs_mounts spec)) false job w1)
      as [(Hn & _) _].
    destruct (Job.run env json_loads fuel (args spec) (Some (env_vars spec))
                (Some (gcs_target spec)) (Some (gcs_mounts spec)) false job w1)
      as [[o2 job2] w2].
    simpl in Hn |- *.
    destruct o2 as [res| |]; [|apply (Hstop e)|apply (Hstop (External ""))].
    simpl.
    rewrite bind_run with (1 := on_object_run _ _ _ _).
    pose proof (on_finish_behaves env json_loads
                  (list_append (JobGroup.jobs_status_codes g)) job2 w2)
      as [Hsame _].
    destruct (Job.on_finish env json_loads
                (list_append (JobGroup.jobs_status_codes g)) job2 w2)
      as [[o3 job3] w3].
    simpl in Hsame |- *. subst job3.
    destruct o3 as [[]| |]; [|apply (Hstop e)|apply (Hstop (External ""))].
    simpl. msimpl.
    rewrite bind_set_running_jobs.
    match goal with
    | |- context [JobGroup.run_loop env json_loads fuel (S first) specs ?g' ?w'] =>
        destruct (IH (S first) g' w') as (Hg & launched & Hrun & Hnames & Hlen);
        destruct (JobGroup.run_loop env json_loads fuel (S first) specs g' w')
          as [[o4 g4] w4]
    end.
    simpl in Hg, Hrun, Hnames, Hlen |- *.
    split; [exact Hg|].
    exists (job2 :: launched). split; [|split].
    + rewrite Hrun, <- app_assoc. reflexivity.
    + intros [|i] j Hj; simpl in Hj.
      * injection Hj as <-. exists uuid. rewrite Nat.add_0_r.
        unfold launched_name. rewrite Hn, Hjob, string_app_assoc. reflexivity.
      * destruct (Hnames i j Hj) as [uuid' Hu]. exists uuid'.
        now rewrite Nat.add_succ_r.
    + intros Ho. simpl. now rewrite Hlen.
Qed.

Lemma run_spec fuel g w :
  let r := JobGroup.run env json_loads fuel g w in
  same_group g (snd (fst r))
  /\ exists launched,
       JobGroup.running_jobs (snd (fst r))
       = (JobGroup.running_jobs g ++ launched)%list
       /\ (forall i j, nth_error launched i = Some j ->
                       exists uuid,
                         Job.name j = launched_name (JobGroup.name g) i uuid)
       /\ (fst (fst r) = Ok tt ->
           List.length launched = List.length (JobGroup.job_specs g)).
Proof.
  unfold JobGroup.run. rewrite bind_get.
  apply (run_loop_spec fuel (JobGroup.job_specs g) 0 g w).
Qed.

End GroupRun.

(** ** The names of the jobs of the group ["batch"] *)

Example batch_group_built :
  exists g0,
    JobGroup.init "batch" Fake.factory tt empty_world = (Ok g0, tt, batch_world)
    /\ add_jobs Fake.batch_specs g0 batch_world = (Ok tt, batch_group, batch_world).
Proof. eexists; split; reflexivity. Qed.

(** The jobs of the group ["batch"] are not named ["batch-0"] and
    ["batch-1"]. *)
Lemma batch_jobs_carry_generated_names : ~ jobs_named_group_dash_index.
Proof.
  intros H.
  specialize (H Fake.cloud Fake.decode 5%nat batch_group batch_world 0%nat).
  vm_compute in H.
  specialize (H _ eq_refl eq_refl). discriminate H.
Qed.

Example batch_job_names :
  map Job.name
      (JobGroup.running_jobs
         (snd (fst (JobGroup.run Fake.cloud Fake.decode 5 batch_group batch_world))))
  = ["batch-0-clash-job-123e4567-e89b-12"; "batch-1-clash-job-123e4567-e89b-12"].
Proof. vm_compute. reflexivity. Qed.

(** * C10 and the polling loop of [wait] *)

Section GroupWait.

Variable env : environment.
Variable json_loads : string -> option json.

(** The polling loop returns only on a poll that finds as many codes as
    launched jobs; until then it sleeps one second per poll. *)
Lemma wait_loop_spec fuel : forall g w,
  let r := JobGroup.wait_loop env json_loads fuel g w in
  snd (fst r) = g
  /\ (exists evs, trace (snd r) = (trace w ++ evs)%list
                  /\ Forall (is_sleep_of 1) evs
                  /\ (fst (fst r) = OutOfFuel -> List.length evs = fuel))
  /\ match fst (fst r) with
     | Ok _ => List.length (recorded g (snd r)) = List.length (JobGroup.running_jobs g)
     | OutOfFuel =>
         List.length (recorded g (snd r)) <> List.length (JobGroup.running_jobs g)
     | Raise e => exists what, e = External what
     end.
Proof.
  induction fuel as [|fuel IH]; intros g w.
  - simpl. msimpl. fold (recorded g w).
    destruct (Nat.eqb_spec (List.length (recorded g w))
                           (List.length (JobGroup.running_jobs g))) as [Heq|Hne];
      simpl; (split; [reflexivity|]);
      (split; [exists []; rewrite app_nil_r; repeat split; try constructor;
               try discriminate|]); assumption.
  - simpl. msimpl. fold (recorded g w).
    destruct (Nat.eqb_spec (List.length (recorded g w))
                           (List.length (JobGroup.running_jobs g))) as [Heq|Hne];
      simpl.
    + split; [reflexivity|].
      split; [exists []; rewrite app_nil_r; repeat split; try constructor;
              discriminate|assumption].
    + call_step env json_loads (time_sleep 1) g w u E; rewrite (bind_run _ _ E).
      * specialize (IH g (after_call env json_loads w (time_sleep 1))).
        destruct (JobGroup.wait_loop env json_loads fuel g
                    (after_call env json_loads w (time_sleep 1)))
          as [[o g'] w'].
        simpl in IH |- *. destruct IH as (Hg & (evs & Ht & Hs & Hn) & Ho).
        split; [exact Hg|]. split; [|exact Ho].
        exists (Event (env w (time_sleep 1)) (now w) :: evs).
        rewrite Ht, trace_after_call, <- app_assoc. repeat split.
        -- constructor; [reflexivity|exact Hs].
        -- intros H. simpl. now rewrite Hn.
      * simpl. split; [reflexivity|]. split; [|now exists u].
        exists [Event (env w (time_sleep 1)) (now w)].
        rewrite trace_after_call. repeat split; try discriminate.
        constructor; [reflexivity|constructor].
Qed.

Lemma wait_spec fuel g w :
  let r := JobGroup.wait env json_loads fuel g w in
  snd (fst r) = g
  /\ (exists evs, trace (snd r) = (trace w ++ evs)%list
                  /\ Forall (is_sleep_of 1) evs
                  /\ (fst (fst r) = OutOfFuel -> List.length evs = fuel))
  /\ match fst (fst r) with
     | Ok b =>
         List.length (recorded g (snd r)) = List.length (JobGroup.running_jobs g)
         /\ b = forallb py_eq_zero (recorded g (snd r))
     | OutOfFuel =>
         List.length (recorded g (snd r)) <> List.length (JobGroup.running_jobs g)
     | Raise e => exists what, e = External what
     end.
Proof.
  unfold JobGroup.wait.
  pose proof (wait_loop_spec fuel g w) as H. cbv zeta in H.
  destruct (JobGroup.wait_loop env json_loads fuel g w) as [[o g'] w'] eqn:E.
  rewrite (bind_run _ _ E). simpl in H. destruct H as (-> & Hev & Ho).
  destruct Hev as (evs & Ht & Hs & Hn).
  destruct o as [[]| |]; msimpl; simpl.
  - split; [reflexivity|]. split; [|split; [exact Ho|reflexivity]].
    exists evs. split; [exact Ht|]. split; [exact Hs|]. intros X; discriminate X.
  - split; [reflexivity|]. split; [|exact Ho].
    exists evs. split; [exact Ht|]. split; [exact Hs|]. intros X; discriminate X.
  - split; [reflexivity|]. split; [|exact Ho].
    exists evs. split; [exact Ht|]. split; [exact Hs|]. intros _. now apply Hn.
Qed.

Lemma add_jobs_spec specs : forall g w,
  exists g', add_jobs specs g w = (Ok tt, g', w)
             /\ JobGroup.running_jobs g' = JobGroup.running_jobs g
             /\ JobGroup.jobs_status_codes g' = JobGroup.jobs_status_codes g
             /\ JobGroup.job_specs g' = (JobGroup.job_specs g ++ specs)%list
             /\ JobGroup.name g' = JobGroup.name g.
Proof.
  induction specs as [|spec specs IH]; intros g w; simpl.
  - exists g. rewrite app_nil_r. now repeat split.
  - unfold JobGroup.add_job. rewrite bind_bind, bind_get.
    unfold JobGroup.set_job_specs at 1. unfold bind at 1.
    match goal with
    | |- context [add_jobs specs ?g1 w] => destruct (IH g1 w) as (g' & E & H)
    end.
    exists g'. split; [exact E|]. simpl in H.
    destruct H as (H1 & H2 & H3 & H4). rewrite <- app_assoc in H3.
    now repeat split.
Qed.

End GroupWait.

Section GroupClaims.

Variable env : environment.
Variable json_loads : string -> option json.

Lemma wait_at_once fuel g w :
  recorded g w = [] -> JobGroup.running_jobs g = [] ->
  JobGroup.wait env json_loads fuel g w = (Ok true, g, w).
Proof.
  intros Hc Hr. unfold JobGroup.wait.
  assert (E : JobGroup.wait_loop env json_loads fuel g w = (Ok tt, g, w)).
  { destruct fuel; simpl; msimpl; fold (recorded g w); rewrite Hc, Hr; reflexivity. }
  rewrite (bind_run _ _ E). msimpl. fold (recorded g w). now rewrite Hc.
Qed.

(** C10: a group on which no job has been launched, whether [run] was
    not called yet (with any specs added) or was called on an empty spec
    list, is done waiting at once: [wait] returns true, issues no call
    and leaves the group and the world as they are. *)
Theorem wait_without_launched_jobs (fuel fuel' : nat) (group_name : string)
        (factory : JobFactory.t) (specs : list JobRuntimeSpec) (w0 : world) :
  exists g0 w1 g,
    JobGroup.init group_name factory tt w0 = (Ok g0, tt, w1)
    /\ add_jobs specs g0 w1 = (Ok tt, g, w1)
    /\ JobGroup.wait env json_loads fuel g w1 = (Ok true, g, w1)
    /\ JobGroup.run env json_loads fuel' g0 w1 = (Ok tt, g0, w1)
    /\ JobGroup.wait env json_loads fuel g0 w1 = (Ok true, g0, w1).
Proof.
  unfold JobGroup.init. unfold new_list, bind, ret.
  eexists. eexists.
  match goal with
  | |- exists g, (_, _, ?w1) = (Ok ?g0, _, _) /\ _ =>
      destruct (add_jobs_spec specs g0 w1) as (g & E & Hr & Hc & _)
  end.
  exists g. split; [reflexivity|]. split; [exact E|].
  assert (Hnil : forall l : list (list json), nth (List.length l) (l ++ [[]]) [] = []).
  { intros l. induction l; simpl; auto. }
  split; [|split].
  - apply wait_at_once; [|now rewrite Hr].
    unfold recorded. rewrite Hc. simpl. apply Hnil.
  - reflexivity.
  - apply wait_at_once; [|reflexivity]. unfold recorded. simpl. apply Hnil.
Qed.

End GroupClaims.

Example batch_succeeds :
  let r := JobGroup.run (batch_cloud "status 0") Fake.decode 5 batch_group batch_world in
  fst (fst (JobGroup.wait (batch_cloud "status 0") Fake.decode 5 (snd (fst r)) (snd r)))
  = Ok true.
Proof. vm_compute. reflexivity. Qed.

Example batch_fails :
  let r := JobGroup.run (batch_cloud "status 1") Fake.decode 5 batch_group batch_world in
  fst (fst (JobGroup.wait (batch_cloud "status 1") Fake.decode 5 (snd (fst r)) (snd r)))
  = Ok false.
Proof. vm_compute. reflexivity. Qed.

(** ** What [clean_up] lists, sleeps and deletes *)

Lemma prefix_of_refl {A : Type} (xs : list A) : prefix_of xs xs.
Proof. exists []. now rewrite app_nil_r. Qed.

Lemma prefix_of_app {A : Type} (xs ys zs : list A) :
  prefix_of ys zs -> prefix_of (xs ++ ys) (xs ++ zs).
Proof. intros [rest ->]. exists rest. now rewrite app_assoc. Qed.

Lemma prefix_of_nil {A : Type} (xs : list A) : prefix_of [] xs.
Proof. now exists xs. Qed.

(** Polling an operation shows in the view as one-second sleeps only. *)
Lemma operation_poll_view (n : string) (evs : list event) :
  Forall (fun e => operation_poll (call_of e)) evs ->
  exists m, cleanup_view n evs = repeat (Slept 1) m.
Proof.
  induction 1 as [|e evs He _ [m IH]]; [now exists 0%nat|].
  destruct e as [c r t]. simpl in He |- *.
  destruct c; simpl in He; try contradiction; simpl; try (now exists m).
  subst seconds. exists (S m). simpl. now rewrite IH.
Qed.

Section CleanUp.

Variable env : environment.
Variable json_loads : string -> option json.

Lemma retrieve_spec self w :
  let r := Job._retrieve_active_instance_groups env json_loads self w in
  snd (fst r) = self
  /\ exists evs, trace (snd r) = (trace w ++ evs)%list
                 /\ forall n, cleanup_view n evs
                              = match fst (fst r) with
                                | Ok groups => [Listed (Job.name_in n groups)]
                                | _ => []
                                end.
Proof.
  unfold Job._retrieve_active_instance_groups. msimpl.
  call_step env json_loads get_compute_client self w u E; rewrite (bind_run _ _ E).
  - set (w1 := after_call env json_loads w get_compute_client).
    set (c := instanceGroups_list (project_id (Job.job_config self))
                                  (zone (Job.job_config self))).
    assert (Ht : trace (after_call env json_loads w1 c)
                 = (trace w ++ [Event (env w get_compute_client) (now w);
                                Event (env w1 c) (now w1)])%list).
    { rewrite trace_after_call. unfold w1. rewrite trace_after_call.
      now rewrite <- app_assoc. }
    call_step env json_loads c self w1 listing E2; rewrite (bind_run _ _ E2);
      subst c.
    + destruct (listed_groups listing) as [e|groups] eqn:Hl; simpl;
        (split; [reflexivity|]); eexists; (split; [exact Ht|]);
        intros n; simpl; rewrite Hanswer0, Hl; reflexivity.
    + simpl. split; [reflexivity|]. eexists. split; [exact Ht|].
      intros n; simpl. now rewrite Hanswer0.
  - simpl. split; [reflexivity|]. eexists.
    split; [apply trace_after_call|]. reflexivity.
Qed.

Lemma wait_for_removal_spec fuel : forall self w,
  let r := Job._wait_for_instance_group_removal env json_loads fuel self w in
  snd (fst r) = self
  /\ exists evs k, trace (snd r) = (trace w ++ evs)%list
                   /\ cleanup_view (Job.name self) evs
                      = (polling_rounds k
                           ++ match fst (fst r) with
                              | Ok _ => [Listed false]
                              | _ => []
                              end)%list.
Proof.
  induction fuel as [|fuel IH]; intros self w; simpl.
  - split; [reflexivity|]. exists [], 0%nat. now rewrite app_nil_r.
  - msimpl.
    destruct (retrieve_spec self w) as (Hs & evs & Ht & Hv).
    destruct (Job._retrieve_active_instance_groups env json_loads self w)
      as [[o s1] w1] eqn:E.
    simpl in Hs, Ht, Hv. subst s1. rewrite (bind_run _ _ E).
    destruct o as [groups| |].
    + destruct (Job.name_in (Job.name self) groups) eqn:Hin.
      * call_step env json_loads (time_sleep Job.POLLING_INTERVAL_SECONDS) self w1
                  u E2; rewrite (bind_run _ _ E2).
        -- specialize (IH self (after_call env json_loads w1
                                  (time_sleep Job.POLLING_INTERVAL_SECONDS))).
           destruct (Job._wait_for_instance_group_removal env json_loads fuel self
                       (after_call env json_loads w1
                          (time_sleep Job.POLLING_INTERVAL_SECONDS)))
             as [[o2 s2] w2].
           simpl in IH |- *. destruct IH as (Hs2 & evs2 & k & Ht2 & Hv2).
           split; [exact Hs2|].
           exists (evs ++ Event (env w1 (time_sleep 30)) (now w1) :: evs2)%list,
                  (S k).
           split.
           ++ rewrite Ht2, trace_after_call, Ht, <- !app_assoc. reflexivity.
           ++ rewrite cleanup_view_app, Hv, Hin. simpl. now rewrite Hv2.
        -- simpl. split; [reflexivity|].
           exists (evs ++ [Event (env w1 (time_sleep 30)) (now w1)])%list, 1%nat.
           split.
           ++ rewrite trace_after_call, Ht, <- app_assoc. reflexivity.
           ++ rewrite cleanup_view_app, Hv, Hin. reflexivity.
      * simpl. split; [reflexivity|]. exists evs, 0%nat.
        split; [exact Ht|]. now rewrite Hv, Hin.
    + simpl. split; [reflexivity|]. exists evs, 0%nat.
      split; [exact Ht|]. now rewrite Hv.
    + simpl. split; [reflexivity|]. exists evs, 0%nat.
      split; [exact Ht|]. now rewrite Hv.
Qed.

Lemma remove_template_spec fuel self w :
  Job.started self = true ->
  let r := Job._remove_instance_template env json_loads fuel self w in
  snd (fst r) = self
  /\ exists evs m, trace (snd r) = (trace w ++ evs)%list
                   /\ prefix_of (cleanup_view (Job.name self) evs)
                                (TemplateDeleted :: repeat (Slept 1) m)
                   /\ (fst (fst r) = Ok tt ->
                       cleanup_view (Job.name self) evs
                       = TemplateDeleted :: repeat (Slept 1) m).
Proof.
  intros Hst. unfold Job._remove_instance_template. msimpl. rewrite Hst.
  cbv [negb].
  call_step env json_loads get_compute_client self w u E; rewrite (bind_run _ _ E).
  - set (w1 := after_call env json_loads w get_compute_client).
    set (c := instanceTemplates_delete (project_id (Job.job_config self))
                                       (Job.name self)).
    assert (Ht : trace (after_call env json_loads w1 c)
                 = (trace w ++ [Event (env w get_compute_client) (now w);
                                Event (env w1 c) (now w1)])%list).
    { rewrite trace_after_call. unfold w1. rewrite trace_after_call.
      now rewrite <- app_assoc. }
    call_step env json_loads c self w1 op E2; rewrite (bind_run _ _ E2);
      subst c.
    + match type of E2 with
      | _ = (_, _, ?w') => set (w2 := w') in *
      end.
      destruct (subscript op "name" self w2) as [[o3 s3] w3] eqn:E3.
      assert (H3 : s3 = self /\ w3 = w2).
      { revert E3. unfold subscript. destruct op; try (now intros [= _ <- <-]).
        destruct (assoc_get "name" fields); now intros [= _ <- <-]. }
      destruct H3 as [-> ->]. rewrite (bind_run _ _ E3).
      destruct o3 as [op_name| |].
      * destruct (wait_for_operation_behaves env json_loads fuel op_name true
                    self w2) as (Hs4 & evs4 & Ht4 & Hp4).
        destruct (Job._wait_for_operation env json_loads fuel op_name true self w2)
          as [[o4 s4] w4] eqn:E4.
        simpl in Hs4, Ht4. subst s4. rewrite (bind_run _ _ E4).
        destruct (operation_poll_view (Job.name self) Hp4) as [m Hm].
        match type of Ht with
        | _ = (_ ++ ?two)%list =>
            assert (Hview : cleanup_view (Job.name self) (two ++ evs4)
                            = TemplateDeleted :: repeat (Slept 1) m)
              by (rewrite cleanup_view_app, Hm; reflexivity);
            assert (Htrace : trace w4 = (trace w ++ two ++ evs4)%list)
              by (rewrite Ht4, Ht, <- app_assoc; reflexivity)
        end.
        destruct o4 as [res| |]; simpl; (split; [reflexivity|]);
          eexists; exists m; (split; [exact Htrace|]);
          (split; [rewrite Hview; apply prefix_of_refl|intros _; exact Hview]).
      * simpl. split; [reflexivity|]. eexists; exists 0%nat.
        split; [exact Ht|]. split; [apply prefix_of_refl|discriminate].
      * simpl. split; [reflexivity|]. eexists; exists 0%nat.
        split; [exact Ht|]. split; [apply prefix_of_refl|discriminate].
    + simpl. split; [reflexivity|]. eexists; exists 0%nat.
      split; [exact Ht|]. split; [apply prefix_of_refl|discriminate].
  - simpl. split; [reflexivity|]. eexists; exists 0%nat.
    split; [apply trace_after_call|]. split; [apply prefix_of_nil|discriminate].
Qed.

End CleanUp.

(** The group of the started Job lingers for two listings. *)
Example clean_up_after_two_rounds :
  let r := Job.clean_up (Fake.reporting [] (Fake.lingering 2 "job" Fake.cloud))
                        Fake.decode 5 Fake.started_job empty_world in
  fst (fst r) = Ok tt
  /\ cleanup_view "job" (trace (snd r))
     = [Listed true; Slept 30; Listed true; Slept 30; Listed false; TemplateDeleted]
  /\ now (snd r) = 60.
Proof. vm_compute. repeat split. Qed.

(** ** The removals of the handler of [run] *)

(** Polling an operation removes nothing. *)
Lemma operation_poll_removals (evs : list event) :
  Forall (fun e => operation_poll (call_of e)) evs -> removals evs = [].
Proof.
  induction 1 as [|e evs He _ IH]; [reflexivity|].
  simpl. destruct (call_of e); simpl in He; try contradiction; exact IH.
Qed.

Lemma subscript_run (S : Type) (d : json) (key : string) (s : S) (w : world) :
  snd (fst (subscript d key s w)) = s /\ snd (subscript d key s w) = w.
Proof.
  unfold subscript. destruct d; try (now split).
  destruct (assoc_get key fields); now split.
Qed.

Section Rollback.

Variable env : environment.
Variable json_loads : string -> option json.

(** The guarded removal of the instance group: at most one deletion of
    the group, never an exception. *)
Lemma remove_group_attempt fuel self w :
  let r := try_except (Job._remove_instance_group env json_loads fuel)
                      (fun _ => ret tt) self w in
  snd (fst r) = self
  /\ (forall e, fst (fst r) <> Raise e)
  /\ exists evs b, trace (snd r) = (trace w ++ evs)%list
                   /\ removals evs = optional b Group.
Proof.
  unfold try_except, Job._remove_instance_group. rewrite bind_get.
  destruct (Job.started self); cbv [negb].
  - call_step env json_loads get_compute_client self w u E; rewrite (bind_run _ _ E).
    + set (w1 := after_call env json_loads w get_compute_client).
      set (c := instanceGroupManagers_delete (project_id (Job.job_config self))
                  (zone (Job.job_config self)) (Job.name self)).
      assert (Ht : trace (after_call env json_loads w1 c)
                   = (trace w ++ [Event (env w get_compute_client) (now w);
                                  Event (env w1 c) (now w1)])%list).
      { rewrite trace_after_call. unfold w1. rewrite trace_after_call.
        now rewrite <- app_assoc. }
      call_step env json_loads c self w1 op E2; rewrite (bind_run _ _ E2);
        subst c.
      * match type of E2 with
        | _ = (_, _, ?w') => set (w2 := w') in *
        end.
        destruct (subscript_run op "name" self w2) as [Hs3 Hw3].
        destruct (subscript op "name" self w2) as [[o3 s3] w3] eqn:E3.
        simpl in Hs3, Hw3. subst s3 w3. rewrite (bind_run _ _ E3).
        destruct o3 as [op_name| |].
        -- destruct (wait_for_operation_behaves env json_loads fuel op_name false
                       self w2) as (Hs4 & evs4 & Ht4 & Hp4).
           destruct (Job._wait_for_operation env json_loads fuel op_name false
                                             self w2)
             as [[o4 s4] w4] eqn:E4.
           simpl in Hs4, Ht4. subst s4. rewrite (bind_run _ _ E4).
           match type of Ht with
           | _ = (_ ++ ?two)%list =>
               assert (Hrem : removals (two ++ evs4) = [Group])
                 by (rewrite removals_app, (operation_poll_removals Hp4);
                     reflexivity);
               assert (Htrace : trace w4 = (trace w ++ two ++ evs4)%list)
                 by (rewrite Ht4, Ht, <- app_assoc; reflexivity)
           end.
           destruct o4 as [res| |]; simpl; (split; [reflexivity|]);
             (split; [discriminate|]); eexists; exists true;
             (split; [exact Htrace|exact Hrem]).
        -- simpl. split; [reflexivity|]. split; [discriminate|].
           eexists; exists true. split; [exact Ht|reflexivity].
        -- simpl. split; [reflexivity|]. split; [discriminate|].
           eexists; exists true. split; [exact Ht|reflexivity].
      * simpl. split; [reflexivity|]. split; [discriminate|].
        eexists; exists true. split; [exact Ht|reflexivity].
    + simpl. split; [reflexivity|]. split; [discriminate|].
      eexists; exists false. split; [apply trace_after_call|reflexivity].
  - simpl. split; [reflexivity|]. split; [discriminate|].
    exists [], false. now rewrite app_nil_r.
Qed.

(** A guarded call whose failure is logged and swallowed. *)
Lemma swallowed_delete_topic topic (self : Job.t) w :
  try_except (invoke env json_loads (delete_topic topic)) (fun _ => ret tt) self w
  = (Ok tt, self, after_call env json_loads w (delete_topic topic)).
Proof.
  unfold try_except.
  call_step env json_loads (delete_topic topic) self w a E; rewrite E;
    [now destruct a|reflexivity].
Qed.

Lemma swallowed_delete_subscription sub (self : Job.t) w :
  try_except (invoke env json_loads (delete_subscription sub)) (fun _ => ret tt)
             self w
  = (Ok tt, self, after_call env json_loads w (delete_subscription sub)).
Proof.
  unfold try_except.
  call_step env json_loads (delete_subscription sub) self w a E; rewrite E;
    [now destruct a|reflexivity].
Qed.

(** The two message-bus removals of the handler and its [raise ex],
    from the point where the guarded group removal is over. *)
Lemma rollback_tail (A : Type) (ex : exn) self w :
  let r := bind (if truthy (Job.job_status_topic self)
                 then try_except
                        (invoke env json_loads (delete_topic (Job.job_status_topic self)))
                        (fun _ => ret tt)
                 else ret tt)
                (fun _ =>
                   bind get (fun self' =>
                   bind (if truthy (Job.job_status_subscription self')
                         then try_except
                                (invoke env json_loads
                                   (delete_subscription
                                      (Job.job_status_subscription self')))
                                (fun _ => ret tt)
                         else ret tt)
                        (fun _ => @raise Job.t A ex))) self w in
  fst r = (Raise ex, self)
  /\ exists evs, trace (snd r) = (trace w ++ evs)%list
                 /\ removals evs
                    = (optional (truthy (Job.job_status_topic self)) Topic
                         ++ optional (truthy (Job.job_status_subscription self))
                                     Subscription)%list
                 /\ calls evs
                    = ((if truthy (Job.job_status_topic self)
                        then [delete_topic (Job.job_status_topic self)] else [])
                         ++ (if truthy (Job.job_status_subscription self)
                             then [delete_subscription
                                     (Job.job_status_subscription self)]
                             else []))%list.
Proof.
  destruct (truthy (Job.job_status_topic self));
    destruct (truthy (Job.job_status_subscription self)) eqn:Hsub.
  - rewrite bind_run with (1 := swallowed_delete_topic _ _ _).
    rewrite bind_get, Hsub.
    rewrite bind_run with (1 := swallowed_delete_subscription _ _ _).
    simpl. split; [reflexivity|]. eexists.
    split; [rewrite !trace_after_call, <- app_assoc; reflexivity|].
    split; reflexivity.
  - rewrite bind_run with (1 := swallowed_delete_topic _ _ _).
    rewrite bind_get, Hsub. simpl. split; [reflexivity|].
    eexists. split; [now rewrite trace_after_call|]. split; reflexivity.
  - rewrite bind_ret, bind_get, Hsub.
    rewrite bind_run with (1 := swallowed_delete_subscription _ _ _).
    simpl. split; [reflexivity|]. eexists.
    split; [now rewrite trace_after_call|]. split; reflexivity.
  - rewrite bind_ret, bind_get, Hsub. simpl. split; [reflexivity|].
    exists []. split; [now rewrite app_nil_r|]. split; reflexivity.
Qed.

(** What the [except] handler of [run] does, from any state. *)
Lemma run_rollback_spec (A : Type) fuel (ex : exn) self w :
  let r := @Job.run_rollback env json_loads A fuel ex self w in
  snd (fst r) = self
  /\ (fst (fst r) = Raise ex \/ fst (fst r) = OutOfFuel)
  /\ exists evs b_group b_topic b_sub,
       trace (snd r) = (trace w ++ evs)%list
       /\ removals evs
          = (optional b_group Group ++ optional b_topic Topic
                      ++ optional b_sub Subscription)%list
       /\ (b_group = true -> Job.started self = true)
       /\ (fst (fst r) = Raise ex ->
           b_topic = truthy (Job.job_status_topic self)
           /\ b_sub = truthy (Job.job_status_subscription self)).
Proof.
  unfold Job.run_rollback. rewrite bind_get.
  destruct (Job.started self) eqn:Hst.
  - destruct (remove_group_attempt fuel self w) as (Hs & Hne & evs & b & Ht & Hr).
    destruct (try_except (Job._remove_instance_group env json_loads fuel)
                         (fun _ => ret tt) self w) as [[o s1] w1] eqn:E.
    simpl in Hs, Hne, Ht. subst s1. rewrite (bind_run _ _ E).
    destruct o as [[]|e|].
    + rewrite bind_get.
      destruct (rollback_tail A ex self w1) as (Hf & evs2 & Ht2 & Hr2 & _).
      match goal with
      | |- context [snd (fst ?x)] => destruct x as [[o2 s2] w2]
      end.
      simpl in Hf, Ht2 |- *. injection Hf as -> ->.
      split; [reflexivity|]. split; [now left|].
      exists (evs ++ evs2)%list, b, (truthy (Job.job_status_topic self)),
             (truthy (Job.job_status_subscription self)).
      split; [now rewrite Ht2, Ht, app_assoc|].
      split; [now rewrite removals_app, Hr, Hr2|].
      split; [reflexivity|]. now split.
    + now destruct (Hne e).
    + simpl. split; [reflexivity|]. split; [now right|].
      exists evs, b, false, false. split; [exact Ht|].
      split; [now rewrite Hr, app_nil_r|]. split; [reflexivity|discriminate].
  - rewrite bind_ret, bind_get.
    destruct (rollback_tail A ex self w) as (Hf & evs2 & Ht2 & Hr2 & _).
    match goal with
    | |- context [snd (fst ?x)] => destruct x as [[o2 s2] w2]
    end.
    simpl in Hf, Ht2 |- *. injection Hf as -> ->.
    split; [reflexivity|]. split; [now left|].
    exists evs2, false, (truthy (Job.job_status_topic self)),
           (truthy (Job.job_status_subscription self)).
    split; [exact Ht2|]. split; [exact Hr2|]. split; [discriminate|]. now split.
Qed.

End Rollback.

Example rollback_after_timeout :
  let r := Job.run silent_cloud Fake.decode 5 ["echo"] None None None true
                   impatient_job empty_world in
  fst (fst r) = Raise (TimeoutError "The job took longer than 5 seconds")
  /\ removals (trace (snd r)) = [Group; Topic; Subscription].
Proof. vm_compute. split; reflexivity. Qed.

(** * C1: what the rollback removes after a failed creation step *)

Lemma bind_ext {S A B : Type} (m : M S A) (k k' : A -> M S B) s w :
  (forall a s' w', k a s' w' = k' a s' w') -> bind m k s w = bind m k' s w.
Proof.
  intros H. unfold bind. destruct (m s w) as [[[a| |] s1] w1]; auto.
Qed.

Section FailedStep.

Variable env : environment.
Variable json_loads : string -> option json.

(** The [try] block is the creation steps 2 to 5 followed by the marking
    of the Job as started and the optional [attach]. *)
Lemma run_try_steps fuel machine_config wait_for_result s w :
  Job.run_try env json_loads fuel machine_config wait_for_result s w
  = bind (Job.creation_steps env json_loads fuel machine_config [2; 3; 4; 5]%nat)
         (fun _ =>
            bind (Job.set_started true)
                 (fun _ =>
                    if wait_for_result
                    then bind get (fun self =>
                         bind (Job.attach env json_loads fuel (Job.timeout_seconds self))
                              (fun status => ret (Some status)))
                    else ret None)) s w.
Proof.
  unfold Job.run_try. simpl Job.creation_steps. unfold Job.creation_step.
  rewrite ?bind_bind. apply bind_ext; intros topic s1 w1.
  rewrite ?bind_bind. apply bind_ext; intros [] s2 w2.
  rewrite ?bind_bind. apply bind_ext; intros sub s3 w3.
  rewrite ?bind_bind. apply bind_ext; intros [] s4 w4.
  rewrite ?bind_bind. apply bind_ext; intros [] s5 w5.
  rewrite ?bind_bind. apply bind_ext; intros [] s6 w6.
  rewrite bind_ret. reflexivity.
Qed.

Lemma creation_steps_app fuel machine_config ks ks' s w :
  Job.creation_steps env json_loads fuel machine_config (ks ++ ks') s w
  = bind (Job.creation_steps env json_loads fuel machine_config ks)
         (fun _ => Job.creation_steps env json_loads fuel machine_config ks') s w.
Proof.
  revert s w. induction ks as [|k ks IH]; intros s w; simpl.
  - now rewrite bind_ret.
  - rewrite bind_bind. apply bind_ext. intros [] s' w'. apply IH.
Qed.

(** A creation step sets the field of the resource it created, and only
    when it succeeds. *)
Lemma creation_step_marks fuel machine_config k s w :
  let r := Job.creation_step env json_loads fuel machine_config k s w in
  marks (snd (fst r))
  = match fst (fst r) with
    | Ok _ => (Job.started s,
               truthy (Job.job_status_topic s) || Nat.eqb k 2,
               truthy (Job.job_status_subscription s) || Nat.eqb k 3)
    | _ => marks s
    end.
Proof.
  destruct k as [|[|[|[|[|[|k]]]]]]; simpl;
    try (unfold marks; now rewrite !orb_false_r).
  - (* step 2: the topic *)
    unfold Job._create_status_topic. rewrite bind_bind, bind_get. cbv zeta.
    rewrite bind_bind.
    match goal with
    | |- context [invoke env json_loads ?c] =>
        call_step env json_loads c s w u E; rewrite (bind_run _ _ E)
    end; [|reflexivity].
    rewrite bind_ret. unfold marks; simpl. now rewrite orb_true_r, orb_false_r.
  - (* step 3: the subscription *)
    unfold Job._create_status_subscription. rewrite bind_bind, bind_get. cbv zeta.
    rewrite bind_bind.
    match goal with
    | |- context [invoke env json_loads ?c] =>
        call_step env json_loads c s w topics E; rewrite (bind_run _ _ E)
    end; [|reflexivity].
    match goal with
    | |- context [if ?b then _ else _] => destruct b
    end; [reflexivity|].
    rewrite bind_bind.
    match goal with
    | |- context [bind (invoke env json_loads ?c) _ _ ?w'] =>
        call_step env json_loads c s w' u E2; rewrite (bind_run _ _ E2)
    end; [|reflexivity].
    rewrite bind_ret. unfold marks; simpl. now rewrite orb_true_r, orb_false_r.
  - (* step 4: the template *)
    destruct (create_instance_template_behaves env json_loads fuel machine_config s w)
      as [Hs _].
    destruct (Job._create_instance_template env json_loads fuel machine_config s w)
      as [[o s'] w'].
    simpl in Hs |- *. subst s'. unfold marks.
    destruct o; now rewrite ?orb_false_r.
  - (* step 5: the group *)
    destruct (create_managed_instance_group_behaves env json_loads fuel 1 s w)
      as [Hs _].
    destruct (Job._create_managed_instance_group env json_loads fuel 1 s w)
      as [[o s'] w'].
    simpl in Hs |- *. subst s'. unfold marks.
    destruct o; now rewrite ?orb_false_r.
Qed.

Lemma creation_steps_marks fuel machine_config ks : forall s w s' w',
  Job.creation_steps env json_loads fuel machine_config ks s w = (Ok tt, s', w') ->
  marks s' = (Job.started s,
              truthy (Job.job_status_topic s) || existsb (Nat.eqb 2) ks,
              truthy (Job.job_status_subscription s) || existsb (Nat.eqb 3) ks).
Proof.
  induction ks as [|k ks IH]; intros s w s' w' H; simpl in H.
  - injection H as <- <-. unfold marks. simpl. now rewrite !orb_false_r.
  - pose proof (creation_step_marks fuel machine_config k s w) as Hk.
    cbv zeta in Hk.
    destruct (Job.creation_step env json_loads fuel machine_config k s w)
      as [[o s1] w1] eqn:E.
    rewrite (bind_run _ _ E) in H. simpl in Hk.
    destruct o as [[]| |]; try discriminate H.
    rewrite (IH _ _ _ _ H). unfold marks in Hk. injection Hk as -> -> ->.
    cbn [existsb].
    rewrite (Nat.eqb_sym 2 k), (Nat.eqb_sym 3 k), !orb_assoc. reflexivity.
Qed.

(** The prologue of [run] resets the two channel fields and keeps the
    rest of the Job. *)
Lemma run_prepare_marks args_ e t m self w machine_config s0 w0 :
  Job.run_prepare env json_loads args_ e t m self w = (Ok machine_config, s0, w0) ->
  marks s0 = (Job.started self, false, false).
Proof.
  unfold Job.run_prepare. intros H.
  call_step env json_loads get_subscriber self w u E;
    rewrite (bind_run _ _ E) in H; [|discriminate H].
  match type of H with
  | context [bind (invoke env json_loads get_publisher) _ _ ?w'] =>
      call_step env json_loads get_publisher self w' u1 E1;
        rewrite (bind_run _ _ E1) in H; [|discriminate H]
  end.
  cbv zeta in H.
  match type of H with
  | context [bind (Job._create_machine_config env json_loads ?a ?b ?c ?d) _ _ ?w'] =>
      destruct (create_machine_config_behaves env json_loads a b c d self w')
        as [Hs _];
      destruct (Job._create_machine_config env json_loads a b c d self w')
        as [[o s1] w1] eqn:E2
  end.
  simpl in Hs. subst s1. rewrite (bind_run _ _ E2) in H.
  destruct o as [mc| |]; try discriminate H.
  unfold Job.set_job_status_topic, Job.set_job_status_subscription, bind, ret in H.
  injection H as _ <- _. reflexivity.
Qed.

(** C1 (amended): when the creation sequence of a Job that was not
    started before fails at step [k] of 2 (topic), 3 (subscription),
    4 (template) or 5 (group), the rollback issues, after the failure,
    exactly these calls: the deletion of the status topic if [k > 2], then
    the deletion of the status subscription if [k > 3].  It asks for no
    other removal: the instance template created by step 4 is left in
    place when step 5 fails.  The exception [run] raises is the one the
    failed step raised, and the Job is left as the failed step left it. *)
Theorem rollback_after_failed_step (fuel : nat) (args_ : list string)
        (e t m : option (list (string * string))) (wait_for_result : bool)
        (self s0 s1 s2 : Job.t) (w w0 w1 w2 : world) (machine_config : json)
        (k : nat) (ex : exn) :
  Job.started self = false ->
  Job.run_prepare env json_loads args_ e t m self w = (Ok machine_config, s0, w0) ->
  (2 <= k <= 5)%nat ->
  Job.steps_before env json_loads fuel machine_config k s0 w0 = (Ok tt, s1, w1) ->
  Job.creation_step env json_loads fuel machine_config k s1 w1 = (Raise ex, s2, w2) ->
  let r := Job.run env json_loads fuel args_ e t m wait_for_result self w in
  fst r = (Raise ex, s2)
  /\ exists evs, trace (snd r) = (trace w2 ++ evs)%list
                 /\ removals evs = rolled_back k
                 /\ calls evs
                    = ((if Nat.ltb 2 k
                        then [delete_topic (Job.job_status_topic s2)] else [])
                         ++ (if Nat.ltb 3 k
                             then [delete_subscription (Job.job_status_subscription s2)]
                             else []))%list.
Proof.
  intros Hst Hp Hk Hsteps Hfail.
  pose proof (run_prepare_marks _ _ _ _ _ _ Hp) as Hm0. rewrite Hst in Hm0.
  unfold marks in Hm0. injection Hm0 as Hst0 Ht0 Hs0.
  pose proof (creation_steps_marks _ _ _ _ _ Hsteps) as Hm1.
  rewrite Hst0, Ht0, Hs0 in Hm1. simpl orb in Hm1.
  pose proof (creation_step_marks fuel machine_config k s1 w1) as Hm2.
  cbv zeta in Hm2. rewrite Hfail in Hm2. simpl in Hm2. rewrite Hm1 in Hm2.
  assert (Hlist : [2; 3; 4; 5]%nat = (seq 2 (k - 2) ++ k :: seq (S k) (5 - k))%list).
  { destruct Hk as [H2 H5].
    do 2 (destruct k as [|k]; [lia|]).
    do 4 (destruct k as [|k]; [reflexivity|]). lia. }
  assert (Htry : Job.run_try env json_loads fuel machine_config wait_for_result s0 w0
                 = (Raise ex, s2, w2)).
  { rewrite run_try_steps, Hlist.
    rewrite bind_run with (o := Raise ex) (s1 := s2) (w1 := w2); [reflexivity|].
    rewrite creation_steps_app. unfold Job.steps_before in Hsteps.
    rewrite (bind_run _ _ Hsteps). simpl. now rewrite (bind_run _ _ Hfail). }
  intros r. unfold r, Job.run. rewrite (bind_run _ _ Hp).
  rewrite (try_except_run _ _ Htry).
  unfold Job.run_rollback. rewrite bind_get.
  unfold marks in Hm2. injection Hm2 as Hst2 Ht2 Hs2. rewrite Hst2.
  rewrite bind_ret, bind_get.
  destruct (rollback_tail env json_loads (option json) ex s2 w2)
    as (Hf & evs & Htr & Hrem & Hcalls).
  split; [exact Hf|]. exists evs. split; [exact Htr|].
  rewrite Hrem, Hcalls, Ht2, Hs2.
  clear - Hk. destruct Hk as [H2 H5].
  do 2 (destruct k as [|k]; [lia|]).
  do 4 (destruct k as [|k]; [split; reflexivity|]). lia.
Qed.

End FailedStep.

Example rollback_after_refused_group :
  let r := Job.run no_group_cloud Fake.decode 5 ["echo"] None None None false
                   Fake.job empty_world in
  fst (fst r) = Raise (External "quota exceeded")
  /\ filter Fake.is_template_insert (calls (trace (snd r)))
     = [instanceTemplates_insert "my-gcp-project" "job" rendered_machine_config]
  /\ removals (trace (snd r)) = [Topic; Subscription].
Proof. vm_compute. repeat split. Qed.

(** The scenario of the specification: the provider refuses the template
    (step 4) after the topic and the subscription were created. *)
Example rollback_after_refused_template :
  let r := Job.run (Fake.breaking Fake.is_template_insert "provider error" Fake.cloud)
                   Fake.decode 5 ["echo"] None None None false Fake.job empty_world in
  fst (fst r) = Raise (External "provider error")
  /\ removals (trace (snd r)) = [Topic; Subscription].
Proof. vm_compute. repeat split. Qed.

(** With the group refused, the template of step 4 is among the created
    resources and is not among the removals. *)
Lemma template_is_left_behind :
  ~ rollback_removes_what_was_created no_group_cloud Fake.decode.
Proof.
  intros H.
  set (prepared := Job.run_prepare no_group_cloud Fake.decode ["echo"] None None None
                                   Fake.job empty_world).
  set (before := Job.steps_before no_group_cloud Fake.decode 5 rendered_machine_config
                                  5 (snd (fst prepared)) (snd prepared)).
  set (failed := Job.creation_step no_group_cloud Fake.decode 5 rendered_machine_config
                                   5 (snd (fst before)) (snd before)).
  destruct (H 5%nat ["echo"] None None None false Fake.job (snd (fst prepared))
              (snd (fst before)) (snd (fst failed)) empty_world (snd prepared)
              (snd before) (snd failed) rendered_machine_config 5%nat
              (External "quota exceeded"))
    as (_ & evs & Ht & Hx);
    [reflexivity|vm_compute; reflexivity|lia|vm_compute; reflexivity
    |vm_compute; reflexivity|].
  apply (f_equal removals) in Ht. rewrite removals_app in Ht.
  remember (removals evs) as removed eqn:Hr. clear Hr.
  vm_compute in Ht. subst removed.
  destruct (proj2 (Hx Template)) as [H1|[H1|[]]]; try discriminate H1.
  vm_compute. auto.
Qed.

Lemma rollback_after_failed_step_witness :
  let prepared := Job.run_prepare no_group_cloud Fake.decode ["echo"] None None None
                                  Fake.job empty_world in
  let before := Job.steps_before no_group_cloud Fake.decode 5 rendered_machine_config
                                 5 (snd (fst prepared)) (snd prepared) in
  let failed := Job.creation_step no_group_cloud Fake.decode 5 rendered_machine_config
                                  5 (snd (fst before)) (snd before) in
  let r := Job.run no_group_cloud Fake.decode 5 ["echo"] None None None false
                   Fake.job empty_world in
  fst r = (Raise (External "quota exceeded"), snd (fst failed))
  /\ exists evs, trace (snd r) = (trace (snd failed) ++ evs)%list
                 /\ removals evs = rolled_back 5
                 /\ calls evs
                    = ((if Nat.ltb 2 5
                        then [delete_topic (Job.job_status_topic (snd (fst failed)))]
                        else [])
                         ++ (if Nat.ltb 3 5
                             then [delete_subscription
                                     (Job.job_status_subscription (snd (fst failed)))]
                             else []))%list.
Proof.
  intros prepared before failed r.
  apply (@rollback_after_failed_step no_group_cloud Fake.decode 5 ["echo"] None None
           None false Fake.job (snd (fst prepared)) (snd (fst before))
           (snd (fst failed)) empty_world (snd prepared) (snd before) (snd failed)
           rendered_machine_config 5 (External "quota exceeded")).
  - reflexivity.
  - vm_compute. reflexivity.
  - lia.
  - vm_compute. reflexivity.
  - vm_compute. reflexivity.
Defined.

(** ** [attach]: a status that comes late *)

Example attach_returns_after_the_timeout :
  let r := Job.attach late_cloud Fake.decode 5 (Some 10) Fake.started_job empty_world in
  fst (fst r) = Ok (JObj [("status", JInt 0)])
  /\ pulls (trace (snd r))
     = [{| pull_began := 0; pull_ended := 25;
           pull_messages := [{| ack_id := "ack-1"; message_data := "status 0" |}] |}].
Proof. vm_compute. split; reflexivity. Qed.

Example attach_times_out :
  let r := Job.attach silent_cloud Fake.decode 5 (Some 10) Fake.started_job
                      empty_world in
  fst (fst r) = Raise (TimeoutError "The job took longer than 10 seconds")
  /\ now (snd r) = 30.
Proof. vm_compute. split; reflexivity. Qed.

(** With a timeout of 10 seconds, the status received after 25 seconds is
    returned. *)
Lemma attach_returns_late_message :
  ~ attach_returns_only_timely_messages late_cloud Fake.decode.
Proof.
  intros H.
  specialize (H 5%nat 10 Fake.started_job empty_world eq_refl
                (JObj [("status", JInt 0)])).
  cbv zeta in H.
  set (r := Job.attach late_cloud Fake.decode 5 (Some 10) Fake.started_job
                       empty_world) in H.
  specialize (H ltac:(vm_compute; reflexivity) (trace (snd r)) eq_refl
                {| pull_began := 0; pull_ended := 25;
                   pull_messages := [{| ack_id := "ack-1";
                                        message_data := "status 0" |}] |}).
  assert (Hin : In {| pull_began := 0; pull_ended := 25;
                      pull_messages := [{| ack_id := "ack-1";
                                           message_data := "status 0" |}] |}
                   (pulls (trace (snd r)))).
  { vm_compute. now left. }
  specialize (H Hin ltac:(discriminate)). simpl in H. lia.
Qed.

(** * C6: the command line of [translate_args_to_script] *)

Lemma translate_loop_quotes (args res : list string) :
  translate_loop args res = (res ++ map quoted args)%list.
Proof.
  revert res. induction args as [|arg args IH]; intros res; simpl.
  - now rewrite app_nil_r.
  - unfold quoted at 1. destruct (has_space arg); rewrite IH, <- app_assoc; reflexivity.
Qed.

Lemma string_app_nil (a : string) : a ++ "" = a.
Proof. induction a as [|c a IH]; simpl; [reflexivity|now rewrite IH]. Qed.

Lemma is_safe_plain (c : ascii) :
  is_safe c = true -> is_blank c = false /\ Ascii.eqb c squote = false.
Proof.
  destruct c as [[] [] [] [] [] [] [] []]; vm_compute; intros H;
    try discriminate H; now split.
Qed.

(** An unquoted run of characters that need no quoting is added to the
    current word. *)
Lemma shell_words_bare (a : string) : forall x tail words,
  all_chars is_safe a = true ->
  shell_words (a ++ tail) Unquoted (Some x) words
  = shell_words tail Unquoted (Some (x ++ a)) words.
Proof.
  induction a as [|c a IH]; intros x tail words Hs; simpl.
  - now rewrite string_app_nil.
  - simpl in Hs. apply andb_prop in Hs. destruct Hs as [Hc Hs].
    destruct (is_safe_plain c Hc) as [Hb Hq]. rewrite Hb, Hq, Hc. simpl.
    rewrite (IH _ tail words Hs), string_app_assoc. reflexivity.
Qed.

(** Inside single quotes everything up to the closing quote is added to the
    current word. *)
Lemma shell_words_single_quoted (a : string) : forall x rest words,
  all_chars is_literal a = true ->
  shell_words (a ++ String squote rest) SingleQuoted (Some x) words
  = shell_words rest Unquoted (Some (x ++ a)) words.
Proof.
  induction a as [|c a IH]; intros x rest words Hs; simpl.
  - now rewrite string_app_nil.
  - simpl in Hs. apply andb_prop in Hs. destruct Hs as [Hc Hs].
    unfold is_literal in Hc. apply andb_prop in Hc. destruct Hc as [H1 H2].
    apply negb_true_iff in H1, H2. rewrite H1, H2. simpl.
    rewrite (IH _ rest words Hs), string_app_assoc. reflexivity.
Qed.

(** One argument as written by [translate_args_to_script] reads back as
    that argument. *)
Lemma shell_words_quoted (a tail : string) (words : list string) :
  plain_arg a ->
  shell_words (quoted a ++ tail) Unquoted None words
  = shell_words tail Unquoted (Some a) words.
Proof.
  unfold plain_arg, quoted. destruct (has_space a) eqn:Hb.
  - intros Hs.
    change (("'" ++ a ++ "'") ++ tail) with (String squote ((a ++ "'") ++ tail)).
    rewrite string_app_assoc. simpl.
    change (String "'" tail) with (String squote tail).
    now rewrite shell_words_single_quoted.
  - intros [Hne Hs]. destruct a as [|c a]; [now destruct Hne|].
    simpl in Hs |- *. apply andb_prop in Hs. destruct Hs as [Hc Hs].
    destruct (is_safe_plain c Hc) as [Hbl Hq]. rewrite Hbl, Hq, Hc. simpl.
    now rewrite shell_words_bare.
Qed.

Lemma shell_words_line (args : list string) : forall words,
  Forall plain_arg args ->
  shell_words (String.concat " " (map quoted args)) Unquoted None words
  = Some (words ++ args)%list.
Proof.
  induction args as [|a args IH]; intros words H; simpl.
  - now rewrite app_nil_r.
  - inversion H as [|? ? Ha Hargs]; subst.
    destruct args as [|b args].
    + simpl. rewrite <- (string_app_nil (quoted a)).
      rewrite shell_words_quoted by assumption. reflexivity.
    + change (map quoted (b :: args)) with (quoted b :: map quoted args).
      cbv iota. rewrite shell_words_quoted by assumption.
      simpl shell_words at 1.
      change (quoted b :: map quoted args) with (map quoted (b :: args)).
      rewrite IH by assumption. simpl. now rewrite <- app_assoc.
Qed.

(** An empty argument leaves no trace in the command line. *)
Lemma empty_argument_is_lost : ~ command_line_round_trips.
Proof.
  intros H. destruct (H [""]) as [_ H2]. vm_compute in H2. discriminate H2.
Qed.

(** An argument with a quote in it does not read back either: the quote
    that the argument holds closes the quotes put around it. *)
Example quote_in_argument :
  translate_args_to_script ["echo"; "it's here"] = "echo 'it's here'"
  /\ shell_split (translate_args_to_script ["echo"; "it's here"]) = None.
Proof. vm_compute. split; reflexivity. Qed.

(** Arguments without a space are written as they are, whatever their
    characters mean to a shell: these lines are not plain lists of
    words. *)
Example bare_arguments_are_not_protected :
  translate_args_to_script ["echo"; "$HOME"; "a;b"; "*"] = "echo $HOME a;b *"
  /\ shell_split (translate_args_to_script ["echo"; "$HOME"]) = None
  /\ shell_split (translate_args_to_script ["echo"; "a;b"]) = None
  /\ shell_split (translate_args_to_script ["echo"; "*"]) = None
  /\ shell_split (translate_args_to_script ["echo"; "#x"]) = None.
Proof. vm_compute. repeat split. Qed.

(** C6 (amended): the command line is the arguments separated by single
    spaces, an argument with a space in it written between single quotes
    and any other argument written as it is.  Splitting the line into
    shell words gives back the argument vector when every argument with a
    space in it holds no single quote (and no NUL), and every argument
    without a space is not empty and made only of characters that need no
    quoting: ASCII letters, digits and [@ % + = : , . / - _]. *)
Theorem command_line_of_plain_arguments (args : list string) :
  translate_args_to_script args = String.concat " " (map quoted args)
  /\ (Forall plain_arg args ->
      shell_split (translate_args_to_script args) = Some args).
Proof.
  assert (H : translate_args_to_script args = String.concat " " (map quoted args)).
  { unfold translate_args_to_script. now rewrite translate_loop_quotes. }
  split; [exact H|]. intros Hp. rewrite H. unfold shell_split.
  now rewrite shell_words_line.
Qed.

Lemma command_line_witness :
  shell_split (translate_args_to_script ["echo"; "hi $USER, there"; "a-b_c.d/e:f"])
  = Some ["echo"; "hi $USER, there"; "a-b_c.d/e:f"].
Proof.
  apply (command_line_of_plain_arguments ["echo"; "hi $USER, there"; "a-b_c.d/e:f"]).
  repeat constructor; discriminate.
Defined.

(** * Further properties of the code *)

(** ** Dicts: writing and reading a key *)

Lemma assoc_get_set_same {A : Type} (key : string) (v : A) (d : list (string * A)) :
  assoc_get key (assoc_set key v d) = Some v.
Proof.
  induction d as [|[k v'] d IH]; simpl.
  - now rewrite String.eqb_refl.
  - destruct (String.eqb k key) eqn:E; simpl; rewrite E; [reflexivity|exact IH].
Qed.

Lemma assoc_get_set_other {A : Type} (key key' : string) (v : A)
      (d : list (string * A)) :
  key' <> key -> assoc_get key' (assoc_set key v d) = assoc_get key' d.
Proof.
  intros Hne. induction d as [|[k v'] d IH]; simpl.
  - destruct (String.eqb key key') eqn:E; [|reflexivity].
    apply String.eqb_eq in E. now destruct Hne.
  - destruct (String.eqb k key) eqn:E; simpl.
    + apply String.eqb_eq in E. subst k.
      destruct (String.eqb key key') eqn:E'; [|reflexivity].
      apply String.eqb_eq in E'. now destruct Hne.
    + now rewrite IH.
Qed.

(** ** class MemoryCache *)

(** X1: what one instance of [MemoryCache] stores under a url, every
    instance reads back under that url; the other urls keep what they had;
    a url never stored reads as [None]. *)
Theorem memory_cache_is_shared (a b : MemoryCache.t) (url url' content : string)
        (c : MemoryCache.cache) :
  MemoryCache.get b url (MemoryCache.set a url content c) = Some content
  /\ (url' <> url ->
      MemoryCache.get b url' (MemoryCache.set a url content c) = MemoryCache.get b url' c)
  /\ MemoryCache.get b url [] = None.
Proof.
  unfold MemoryCache.get, MemoryCache.set. split; [apply assoc_get_set_same|].
  split; [apply assoc_get_set_other|reflexivity].
Qed.

(** ** class JobConfigBuilder *)

Lemma nth_middle_len {A : Type} (l : list A) (x d : A) :
  nth (List.length l) (l ++ [x]) d = x.
Proof. now rewrite nth_middle. Qed.

Section BuilderFacts.

Import JobConfigBuilder.

Lemma call_setter_sets (m : setter) (v : json) (b : t) (h : store) :
  call_setter m v b h = (b, setitem (config b) (key_of m) v h).
Proof. destruct m; reflexivity. Qed.

Lemma nth_update_nth_same {A : Type} (f : A -> A) (d : A) (l : list A) : forall n,
  (n < List.length l)%nat -> nth n (update_nth n f l) d = f (nth n l d).
Proof.
  induction l as [|x l IH]; intros [|n] H; simpl in *; try lia; [reflexivity|].
  apply IH. lia.
Qed.

Lemma nth_update_nth_other {A : Type} (f : A -> A) (d : A) (l : list A) : forall n m,
  m <> n -> nth m (update_nth n f l) d = nth m l d.
Proof.
  induction l as [|x l IH]; intros [|n] [|m] H; simpl; try reflexivity;
    try (now destruct H). apply IH. congruence.
Qed.

Lemma length_update_nth {A : Type} (f : A -> A) (l : list A) : forall n,
  List.length (update_nth n f l) = List.length l.
Proof.
  induction l as [|x l IH]; intros [|n]; simpl; try reflexivity. now rewrite IH.
Qed.

Lemma chain_spec (calls : list (setter * json)) (n : nat) : forall (b : t) (h : store),
  config b = object n -> (n < List.length (objects h))%nat ->
  fst (chain calls b h) = b
  /\ default_job_config (snd (chain calls b h)) = default_job_config h
  /\ List.length (objects (snd (chain calls b h))) = List.length (objects h)
  /\ nth n (objects (snd (chain calls b h))) [] = written calls (nth n (objects h) [])
  /\ forall m, m <> n ->
               nth m (objects (snd (chain calls b h))) [] = nth m (objects h) [].
Proof.
  induction calls as [|[m v] calls IH]; intros b h Hb Hn; simpl.
  - repeat split; reflexivity.
  - rewrite call_setter_sets, Hb.
    set (h' := setitem (object n) (key_of m) v h).
    assert (Hn' : (n < List.length (objects h'))%nat)
      by (unfold h'; simpl; now rewrite length_update_nth).
    destruct (IH b h' Hb Hn') as (H1 & H2 & H3 & H4 & H5).
    split; [exact H1|]. split; [now rewrite H2|].
    split; [rewrite H3; unfold h'; simpl; apply length_update_nth|].
    split.
    + rewrite H4. unfold h'. simpl. now rewrite nth_update_nth_same.
    + intros k Hk. rewrite (H5 k Hk). unfold h'. simpl.
      now apply nth_update_nth_other.
Qed.

Lemma written_app calls calls' d :
  written (calls ++ calls') d = written calls' (written calls d).
Proof. unfold written. apply fold_left_app. Qed.

Lemma last_given_app key calls m v :
  last_given key (calls ++ [(m, v)])
  = if String.eqb (key_of m) key then Some v else last_given key calls.
Proof.
  induction calls as [|[m' v'] calls IH]; simpl.
  - reflexivity.
  - rewrite IH. destruct (String.eqb (key_of m) key); [reflexivity|].
    reflexivity.
Qed.

Lemma written_last (key : string) (calls : list (setter * json)) : forall d,
  assoc_get key (written calls d)
  = match last_given key calls with
    | Some v => Some v
    | None => assoc_get key d
    end.
Proof.
  induction calls as [|[m v] calls IH] using rev_ind; intros d.
  - reflexivity.
  - rewrite written_app, last_given_app. simpl.
    destruct (String.eqb (key_of m) key) eqn:E.
    + apply String.eqb_eq in E. subst key. apply assoc_get_set_same.
    + rewrite assoc_get_set_other; [apply IH|].
      intros ->. now rewrite String.eqb_refl in E.
Qed.

Lemma no_setter_for_regions (calls : list (setter * json)) :
  last_given "allowed_persistence_regions" calls = None.
Proof.
  induction calls as [|[m v] calls IH]; simpl; [reflexivity|].
  rewrite IH. now destruct m.
Qed.

Lemma init_spec (base_config : option address) (h : store) :
  config (fst (init base_config h)) = object (List.length (objects h))
  /\ default_job_config (snd (init base_config h)) = default_job_config h
  /\ objects (snd (init base_config h)) = (objects h ++ [start_of base_config h])%list.
Proof.
  unfold init, start_of, deepcopy.
  destruct base_config as [a|]; [destruct (lookup a h) eqn:E|]; simpl;
    rewrite ?E; repeat split; reflexivity.
Qed.



(** X2: the configuration [build] returns holds, under every key, the
    value given to the last call of that key's setter, and where the setter
    was never called what the builder started from: the base
    configuration, or [DEFAULT_JOB_CONFIG] when no base or an empty base
    was given.  No setter writes [allowed_persistence_regions], so that
    entry always comes from where the builder started. *)
Theorem build_holds_last_values (base_config : option address)
        (calls : list (setter * json)) (h : store) (key : string) :
  let (b, h1) := init base_config h in
  let (b', h2) := chain calls b h1 in
  let (c, h3) := build b' h2 in
  assoc_get key (lookup c h3)
  = match last_given key calls with
    | Some v => Some v
    | None => assoc_get key (start_of base_config h)
    end
  /\ assoc_get "allowed_persistence_regions" (lookup c h3)
     = assoc_get "allowed_persistence_regions" (start_of base_config h)
  /\ (start_of base_config h
      = match base_config with
        | None => default_job_config h
        | Some a => if Nat.eqb (List.length (lookup a h)) 0
                    then default_job_config h else lookup a h
        end).
Proof.
  destruct (init_spec base_config h) as (Hc & Hd & Ho).
  destruct (init base_config h) as [b h1]. simpl in Hc, Hd, Ho.
  assert (Hn : (List.length (objects h) < List.length (objects h1))%nat)
    by (rewrite Ho, length_app; simpl; lia).
  destruct (chain_spec calls b h1 Hc Hn) as (H1 & H2 & H3 & H4 & H5).
  destruct (chain calls b h1) as [b' h2]. simpl in H1, H2, H3, H4, H5. subst b'.
  unfold build, deepcopy. rewrite Hc. simpl.
  rewrite !nth_middle_len, H4, Ho, nth_middle, !written_last,
    no_setter_for_regions.
  repeat split.
  unfold start_of. destruct base_config as [a|]; [|reflexivity].
  now destruct (lookup a h).
Qed.

(** X3: a builder writes to a dict of its own, and [build] hands out a new
    dict.  Whatever setters are called after a [build], the configuration
    built keeps the content it was built with; and no dict that existed
    before the builder was created (the base configuration,
    [DEFAULT_JOB_CONFIG]) is ever changed by the builder. *)
Theorem built_config_is_detached (base_config : option address)
        (calls calls' : list (setter * json)) (h : store) :
  let (b, h1) := init base_config h in
  let (b1, h2) := chain calls b h1 in
  let (c, h3) := build b1 h2 in
  let (b2, h4) := chain calls' b1 h3 in
  b2 = b /\ c <> config b
  /\ lookup c h4 = written calls (start_of base_config h)
  /\ default_job_config h4 = default_job_config h
  /\ (forall n, (n < List.length (objects h))%nat ->
                lookup (object n) h4 = lookup (object n) h).
Proof.
  destruct (init_spec base_config h) as (Hc & Hd & Ho).
  destruct (init base_config h) as [b h1]. simpl in Hc, Hd, Ho.
  assert (Hn : (List.length (objects h) < List.length (objects h1))%nat)
    by (rewrite Ho, length_app; simpl; lia).
  destruct (chain_spec calls b h1 Hc Hn) as (H1 & H2 & H3 & H4 & H5).
  destruct (chain calls b h1) as [b1 h2]. simpl in H1, H2, H3, H4, H5. subst b1.
  unfold build, deepcopy. rewrite Hc.
  set (h3 := {| default_job_config := default_job_config h2;
                objects := (objects h2 ++ [lookup (object (List.length (objects h))) h2])%list |}).
  assert (Hn3 : (List.length (objects h) < List.length (objects h3))%nat)
    by (unfold h3; simpl; rewrite length_app, H3; lia).
  destruct (chain_spec calls' b h3 Hc Hn3) as (G1 & G2 & G3 & G4 & G5).
  destruct (chain calls' b h3) as [b2 h4]. simpl in G1, G2, G3, G4, G5.
  assert (Hlen1 : List.length (objects h1) = S (List.length (objects h)))
    by (rewrite Ho, length_app; simpl; lia).
  split; [exact G1|]. split; [rewrite H3, Hlen1; intros [= E]; lia|].
  split; [|split].
  - simpl. rewrite G5 by lia. unfold h3. simpl.
    rewrite nth_middle_len, H4, Ho, nth_middle. reflexivity.
  - rewrite G2. unfold h3. simpl. now rewrite H2.
  - intros n Hlt. simpl. rewrite G5 by lia. unfold h3. simpl.
    rewrite app_nth1 by lia. rewrite H5 by lia. rewrite Ho.
    now rewrite app_nth1 by lia.
Qed.

End BuilderFacts.

(** ** The constructor of [Job] *)

Section JobInit.

Variable env : environment.
Variable json_loads : string -> option json.

(** X4: [Job(job_config, name, name_prefix, gcloud, timeout_seconds)] builds
    a Job that is not started and has no status topic or subscription.  A
    non-empty [name] is taken as it is and no uuid is drawn.  Without a
    name (or with an empty one) exactly one uuid is drawn and the name is
    ["clash-job-"] followed by the first 16 characters of the uuid, with
    the prefix and a dash in front when a non-empty prefix is given. *)
Theorem job_init_names (S : Type) (cfg : JobConfig) (name_ name_prefix : option string)
        (gcloud_ : option CloudSdk) (timeout : option Z) (s : S) (w : world) :
  let r := Job.init env json_loads cfg name_ name_prefix gcloud_ timeout s w in
  snd (fst r) = s
  /\ (forall j, fst (fst r) = Ok j ->
                Job.started j = false /\ Job.job_status_topic j = None
                /\ Job.job_status_subscription j = None
                /\ Job.timeout_seconds j = timeout /\ Job.job_config j = cfg)
  /\ (truthy name_ = true ->
      snd r = w /\ exists j, fst (fst r) = Ok j /\ name_ = Some (Job.name j))
  /\ (truthy name_ = false ->
      trace (snd r) = (trace w ++ [Event (env w uuid1) (now w)])%list
      /\ match answered (env w uuid1) with
         | Returns u =>
             exists j, fst (fst r) = Ok j
                       /\ Job.name j
                          = (match name_prefix with
                             | Some p => if truthy name_prefix then p ++ "-" else ""
                             | None => ""
                             end) ++ "clash-job-" ++ substring 0 16 u
         | Raises what => fst (fst r) = Raise (External what)
         end).
Proof.
  unfold Job.init. destruct (truthy name_) eqn:Hname; cbv [negb].
  - rewrite bind_ret. simpl. split; [reflexivity|].
    split; [intros j [= <-]; now repeat split|].
    split; [|discriminate]. intros _. split; [reflexivity|].
    eexists; split; [reflexivity|]. simpl.
    destruct name_ as [n|]; [reflexivity|discriminate Hname].
  - rewrite bind_bind.
    call_step env json_loads uuid1 s w u E; rewrite (bind_run _ _ E); cbv iota beta.
    + assert (Hk : forall p : string,
                 bind (S := S) (ret p)
                      (fun the_name =>
                         ret {| Job.gcloud := match gcloud_ with
                                              | Some g => g
                                              | None => cloud_sdk
                                              end;
                                Job.job_config := cfg; Job.started := false;
                                Job.job_status_topic := None;
                                Job.job_status_subscription := None;
                                Job.timeout_seconds := timeout;
                                Job.name := the_name |})
                      s (after_call env json_loads w uuid1)
                 = (Ok {| Job.gcloud := match gcloud_ with
                                        | Some g => g
                                        | None => cloud_sdk
                                        end;
                          Job.job_config := cfg; Job.started := false;
                          Job.job_status_topic := None;
                          Job.job_status_subscription := None;
                          Job.timeout_seconds := timeout;
                          Job.name := p |}, s, after_call env json_loads w uuid1))
        by reflexivity.
      assert (Hgoal : exists p,
                 bind (S := S)
                      (match name_prefix with
                       | Some p => if truthy name_prefix
                                   then ret ((p ++ "-") ++ "clash-job-" ++ substring 0 16 u)
                                   else ret ("clash-job-" ++ substring 0 16 u)
                       | None => ret ("clash-job-" ++ substring 0 16 u)
                       end)
                      (fun the_name =>
                         ret {| Job.gcloud := match gcloud_ with
                                              | Some g => g
                                              | None => cloud_sdk
                                              end;
                                Job.job_config := cfg; Job.started := false;
                                Job.job_status_topic := None;
                                Job.job_status_subscription := None;
                                Job.timeout_seconds := timeout;
                                Job.name := the_name |})
                      s (after_call env json_loads w uuid1)
                 = (Ok {| Job.gcloud := match gcloud_ with
                                        | Some g => g
                                        | None => cloud_sdk
                                        end;
                          Job.job_config := cfg; Job.started := false;
                          Job.job_status_topic := None;
                          Job.job_status_subscription := None;
                          Job.timeout_seconds := timeout;
                          Job.name := p |}, s, after_call env json_loads w uuid1)
                 /\ p = (match name_prefix with
                         | Some p => if truthy name_prefix then p ++ "-" else ""
                         | None => ""
                         end) ++ "clash-job-" ++ substring 0 16 u).
      { destruct name_prefix as [p|]; [destruct (truthy (Some p))|];
          eexists; (split; [apply Hk|]); reflexivity. }
      destruct Hgoal as (p & Hrun & Hp). cbv zeta. rewrite Hrun. simpl.
      split; [reflexivity|]. split; [intros j [= <-]; now repeat split|].
      split; [discriminate|]. intros _. split; [apply trace_after_call|].
      rewrite Hanswer. eexists; split; [reflexivity|exact Hp].
    + simpl. split; [reflexivity|]. split; [discriminate|].
      split; [discriminate|]. intros _. split; [apply trace_after_call|].
      now rewrite Hanswer.
Qed.

End JobInit.

(** ** Polling an operation *)

Lemma polled_app (xs ys : list event) :
  polled (xs ++ ys) = (polled xs ++ polled ys)%list.
Proof.
  induction xs as [|e xs IH]; simpl; [reflexivity|].
  destruct (polled_of e); simpl; now rewrite IH.
Qed.

Section OperationPolling.

Variable env : environment.
Variable json_loads : string -> option json.

Lemma polled_sleep (w : world) seconds :
  polled [Event (env w (time_sleep seconds)) (now w)] = [].
Proof. reflexivity. Qed.

Lemma is_done_status (result status : json) :
  json_get "status" result = Some status ->
  is_done result = py_eq_str status "DONE".
Proof. unfold is_done. now intros ->. Qed.

Lemma subscript_ok (S : Type) (d : json) (key : string) (s : S) (w : world) :
  subscript d key s w
  = match json_get key d with
    | Some v => (Ok v, s, w)
    | None => (Raise (match d with JObj _ => KeyError key | _ => TypeError end), s, w)
    end.
Proof.
  unfold subscript, json_get. destruct d; try reflexivity.
  now destruct (assoc_get key fields).
Qed.

Lemma wait_for_operation_loop_spec operation is_global_op (self : Job.t) :
  forall fuel w,
    let r := Job._wait_for_operation_loop env json_loads fuel operation is_global_op
                                          self w in
    snd (fst r) = self
    /\ exists evs, trace (snd r) = (trace w ++ evs)%list
                   /\ operation_observed fuel
                        (operation_get self operation is_global_op) (fst (fst r)) evs.
Proof.
  set (poll := operation_get self operation is_global_op).
  induction fuel as [|fuel IH]; intros w; simpl.
  - split; [reflexivity|]. exists []. rewrite app_nil_r. split; [reflexivity|].
    simpl. repeat split. constructor.
  - rewrite bind_get.
    assert (Hcases :
              (exists result,
                  polled [Event (env w poll) (now w)] = [result]
                  /\ (if is_global_op
                      then invoke env json_loads
                             (globalOperations_get (project_id (Job.job_config self))
                                                   operation)
                      else invoke env json_loads
                             (zoneOperations_get (project_id (Job.job_config self))
                                                 (zone (Job.job_config self)) operation))
                       self w
                     = (Ok result, self, after_call env json_loads w poll))
              \/ (exists what,
                     (if is_global_op
                      then invoke env json_loads
                             (globalOperations_get (project_id (Job.job_config self))
                                                   operation)
                      else invoke env json_loads
                             (zoneOperations_get (project_id (Job.job_config self))
                                                 (zone (Job.job_config self)) operation))
                       self w
                     = (Raise (External what), self, after_call env json_loads w poll))).
    { unfold poll, operation_get. destruct is_global_op;
        match goal with
        | |- context [invoke env json_loads ?c self w] =>
            call_step env json_loads c self w a E;
              [left; exists a; split; [simpl; now rewrite Hanswer|exact E]
              |right; exists a; exact E]
        end. }
    destruct Hcases as [(result & Hres & E0)|(what & E0)]; rewrite (bind_run _ _ E0).
    +
      set (w1 := after_call env json_loads w poll).
      pose proof (subscript_ok result "status" self w1) as Hsub.
      destruct (json_get "status" result) as [status|] eqn:Hstatus;
        rewrite (bind_run _ _ Hsub); clear Hsub.
      * cbv iota beta. destruct (py_eq_str status "DONE") eqn:Hdone.
        -- unfold has_key.
           pose proof (subscript_ok result "error" self w1) as Hsub.
           destruct (json_get "error" result) as [err|] eqn:Herr.
           ++ rewrite (bind_run _ _ Hsub).
              simpl. split; [reflexivity|]. exists [Event (env w poll) (now w)].
              split; [apply trace_after_call|].
              exists [], result. rewrite Hres. repeat split; try constructor.
              ** now rewrite (is_done_status _ Hstatus).
              ** exact Herr.
           ++ simpl. split; [reflexivity|]. exists [Event (env w poll) (now w)].
              split; [apply trace_after_call|].
              exists []. rewrite Hres. repeat split; try constructor.
              ** now rewrite (is_done_status _ Hstatus).
              ** unfold has_key. now rewrite Herr.
        -- call_step env json_loads (time_sleep 1) self w1 u E;
             rewrite (bind_run _ _ E).
           ++ set (w2 := after_call env json_loads w1 (time_sleep 1)).
              destruct (IH w2) as (Hs & evs & Ht & Ho).
              destruct (Job._wait_for_operation_loop env json_loads fuel operation
                                                     is_global_op self w2)
                as [[o s'] w'].
              simpl in Hs, Ht, Ho |- *. split; [exact Hs|].
              remember ([Event (env w poll) (now w)]
                          ++ [Event (env w1 (time_sleep 1)) (now w1)] ++ evs)%list
                as whole eqn:Hwhole.
              assert (Hpol : polled whole = result :: polled evs)
                by (subst whole; rewrite !polled_app, Hres; reflexivity).
              assert (Hcalls : calls whole = poll :: time_sleep 1 :: calls evs)
                by (subst whole; reflexivity).
              exists whole.
              split.
              { rewrite Ht. subst whole. unfold w2. rewrite trace_after_call.
                unfold w1. rewrite trace_after_call, <- !app_assoc. reflexivity. }
              assert (Hnd : is_done result = false)
                by now rewrite (is_done_status _ Hstatus).
              clear Hwhole.
              destruct o as [res|e|].
              ** destruct Ho as (pending & Hp & Hf & Hd & He & Hc).
                 exists (result :: pending). rewrite Hpol, Hcalls, Hp, Hc.
                 repeat split; try assumption. now constructor.
              ** destruct e; try exact I.
                 destruct Ho as (pending & res & Hp & Hf & Hd & He & Hc).
                 exists (result :: pending), res. rewrite Hpol, Hcalls, Hp, Hc.
                 repeat split; try assumption. now constructor.
              ** destruct Ho as (Hf & Hl & Hc).
                 unfold operation_observed. rewrite Hpol, Hcalls, Hc. simpl.
                 repeat split; [now constructor|now rewrite Hl].
           ++ simpl. split; [reflexivity|]. eexists.
              split; [rewrite trace_after_call; unfold w1;
                      rewrite trace_after_call, <- app_assoc; reflexivity|].
              exact I.
      * simpl. split; [reflexivity|]. exists [Event (env w poll) (now w)].
        split; [apply trace_after_call|]. now destruct result.
    + simpl. split; [reflexivity|]. exists [Event (env w poll) (now w)].
      split; [apply trace_after_call|exact I].
Qed.


End OperationPolling.

(** ** The creation sequence of [run] *)

Lemma creations_app (xs ys : list event) :
  creations (xs ++ ys) = (creations xs ++ creations ys)%list.
Proof.
  induction xs as [|e xs IH]; simpl; [reflexivity|].
  destruct (creation (call_of e)); simpl; now rewrite IH.
Qed.

Lemma builds_nothing_events (evs : list event) :
  Forall (fun e => builds_nothing (call_of e)) evs ->
  creations evs = [] /\ removals evs = [].
Proof.
  induction 1 as [|e evs He _ [IH1 IH2]]; [now split|].
  simpl. unfold builds_nothing in He.
  destruct (creation (call_of e)); [contradiction|].
  destruct (removal (call_of e)); [contradiction|]. now split.
Qed.

Lemma operation_poll_builds_nothing (c : call) : operation_poll c -> builds_nothing c.
Proof. destruct c; simpl; try contradiction; intros; exact I. Qed.

Lemma creates_nothing {S A : Type} (R : S -> S -> Prop) (m : M S A) :
  behaves R builds_nothing m -> creates [] m.
Proof.
  intros H s w. destruct (H s w) as (Hs & evs & Ht & Hf).
  destruct (builds_nothing_events Hf) as [Hc Hr].
  exists evs. rewrite Hc.
  repeat split; try assumption. apply prefix_of_refl.
Qed.

Lemma creates_silent {S A : Type} (m : M S A) :
  (forall s w, snd (m s w) = w) -> creates [] m.
Proof.
  intros H s w. exists []. rewrite H, app_nil_r.
  repeat split. apply prefix_of_refl.
Qed.

Lemma creates_bind {S A B : Type} (l1 l2 : list resource) (m : M S A)
      (k : A -> M S B) :
  creates l1 m -> (forall a, creates l2 (k a)) -> creates (l1 ++ l2) (bind m k).
Proof.
  intros Hm Hk s w. destruct (Hm s w) as (evs & Ht & Hr & Hp & Hok).
  destruct (m s w) as [[o s1] w1] eqn:E. rewrite (bind_run m k E).
  simpl in Ht, Hok.
  destruct o as [a| |]; simpl.
  - destruct (Hk a s1 w1) as (evs2 & Ht2 & Hr2 & Hp2 & Hok2).
    exists (evs ++ evs2)%list.
    rewrite Ht2, Ht, app_assoc, removals_app, creations_app, Hr, Hr2,
      (Hok a eq_refl).
    repeat split.
    + now apply prefix_of_app.
    + intros b Hb. now rewrite (Hok2 b Hb).
  - exists evs. repeat split; try assumption; [|discriminate].
    destruct Hp as [rest ->]. exists (rest ++ l2)%list. now rewrite app_assoc.
  - exists evs. repeat split; try assumption; [|discriminate].
    destruct Hp as [rest ->]. exists (rest ++ l2)%list. now rewrite app_assoc.
Qed.

Lemma creates_bind_nothing {S A B : Type} (l : list resource) (m : M S A)
      (k : A -> M S B) :
  creates [] m -> (forall a, creates l (k a)) -> creates l (bind m k).
Proof. apply (creates_bind (l1 := [])). Qed.

Lemma creates_then_nothing {S A B : Type} (l : list resource) (m : M S A)
      (k : A -> M S B) :
  creates l m -> (forall a, creates [] (k a)) -> creates l (bind m k).
Proof.
  intros Hm Hk. rewrite <- (app_nil_r l). now apply creates_bind.
Qed.

Section CreationSequence.

Variable env : environment.
Variable json_loads : string -> option json.

Lemma creates_one (S : Type) (c : call) (r : resource) :
  creation c = Some r -> removal c = None ->
  creates [r] (@invoke env json_loads S c).
Proof.
  intros Hc Hr s w.
  destruct (invoke_spec env json_loads c s w) as (_ & Hs & Ht & _).
  exists [Event (env w c) (now w)].
  split; [exact Ht|]. simpl. rewrite Hc, Hr.
  repeat split. apply prefix_of_refl.
Qed.

Lemma wait_for_operation_creates fuel operation is_global_op :
  creates [] (Job._wait_for_operation env json_loads fuel operation is_global_op).
Proof.
  apply (creates_nothing (R := eq)).
  eapply behaves_weaken; [| |apply wait_for_operation_behaves]; [auto|].
  apply operation_poll_builds_nothing.
Qed.

Lemma create_status_topic_creates :
  creates [Topic] (Job._create_status_topic env json_loads).
Proof.
  unfold Job._create_status_topic.
  apply creates_bind_nothing; [apply (creates_nothing (R := eq)); behave|intros self].
  cbv zeta. apply creates_then_nothing; [now apply creates_one|].
  intros _. apply (creates_nothing (R := eq)). behave.
Qed.

Lemma create_status_subscription_creates :
  creates [Subscription] (Job._create_status_subscription env json_loads).
Proof.
  unfold Job._create_status_subscription.
  apply creates_bind_nothing; [apply (creates_nothing (R := eq)); behave|intros self].
  cbv zeta. apply creates_bind_nothing; [apply (creates_nothing (R := eq)); behave|intros topics].
  match goal with
  | |- creates _ (if ?b then _ else _) => destruct b
  end.
  - intros s w. simpl. exists []. rewrite app_nil_r.
    repeat split; [apply prefix_of_nil|discriminate].
  - apply creates_then_nothing; [now apply creates_one|].
    intros _. apply (creates_nothing (R := eq)). behave.
Qed.

Lemma create_instance_template_creates fuel machine_config :
  creates [Template] (Job._create_instance_template env json_loads fuel machine_config).
Proof.
  unfold Job._create_instance_template.
  apply creates_bind_nothing; [apply (creates_nothing (R := eq)); behave|intros self].
  apply creates_bind_nothing; [apply (creates_nothing (R := eq)); behave|intros _].
  apply creates_then_nothing; [now apply creates_one|intros op].
  apply creates_bind_nothing; [apply (creates_nothing (R := eq)); behave|intros op_name].
  apply creates_bind_nothing; [apply wait_for_operation_creates|intros _].
  apply (creates_nothing (R := eq)). behave.
Qed.

Lemma create_managed_instance_group_creates fuel size :
  creates [Group] (Job._create_managed_instance_group env json_loads fuel size).
Proof.
  unfold Job._create_managed_instance_group.
  apply creates_bind_nothing; [apply (creates_nothing (R := eq)); behave|intros self].
  apply creates_bind_nothing; [apply (creates_nothing (R := eq)); behave|intros _].
  apply creates_then_nothing; [now apply creates_one|intros op].
  apply creates_bind_nothing; [apply (creates_nothing (R := eq)); behave|intros op_name].
  apply creates_bind_nothing; [apply wait_for_operation_creates|intros _].
  apply (creates_nothing (R := eq)). behave.
Qed.

Lemma attach_builds_nothing fuel timeout :
  behaves eq builds_nothing (Job.attach env json_loads fuel timeout).
Proof.
  assert (Hloop : forall start,
             behaves eq builds_nothing
                     (Job.attach_loop env json_loads fuel timeout start)).
  { induction fuel as [|fuel' IH]; intros start; simpl; unfold Job._pull_message;
      behave. apply IH. }
  unfold Job.attach. behave. apply Hloop.
Qed.

Lemma create_machine_config_builds_nothing script e t m :
  behaves eq builds_nothing (Job._create_machine_config env json_loads script e t m).
Proof.
  unfold Job._create_machine_config, MachineConfig_to_dict, CloudInitConfig_render,
    set_startup_payload.
  behave.
Qed.

Lemma run_try_creates fuel machine_config wait_for_result :
  creates [Topic; Subscription; Template; Group]
          (Job.run_try env json_loads fuel machine_config wait_for_result).
Proof.
  unfold Job.run_try.
  apply (creates_bind (l1 := [Topic]) (l2 := [Subscription; Template; Group]));
    [apply create_status_topic_creates|intros topic].
  apply creates_bind_nothing; [now apply creates_silent|intros _].
  apply (creates_bind (l1 := [Subscription]) (l2 := [Template; Group]));
    [apply create_status_subscription_creates|intros subscription].
  apply creates_bind_nothing; [now apply creates_silent|intros _].
  apply (creates_bind (l1 := [Template]) (l2 := [Group]));
    [apply create_instance_template_creates|intros _].
  apply creates_then_nothing; [apply create_managed_instance_group_creates|intros _].
  apply creates_bind_nothing; [now apply creates_silent|intros _].
  destruct wait_for_result.
  - apply creates_bind_nothing; [now apply creates_silent|intros self].
    apply creates_bind_nothing;
      [apply (creates_nothing (R := eq)), attach_builds_nothing|intros status].
    now apply creates_silent.
  - now apply creates_silent.
Qed.

Lemma run_prepare_creates args_ e t m :
  creates [] (Job.run_prepare env json_loads args_ e t m).
Proof.
  unfold Job.run_prepare.
  apply creates_bind_nothing; [apply (creates_nothing (R := eq)); behave|intros _].
  apply creates_bind_nothing; [apply (creates_nothing (R := eq)); behave|intros _].
  cbv zeta.
  apply creates_bind_nothing;
    [apply (creates_nothing (R := eq)), create_machine_config_builds_nothing
    |intros machine_config].
  apply creates_bind_nothing; [now apply creates_silent|intros _].
  apply creates_bind_nothing; [now apply creates_silent|intros _].
  now apply creates_silent.
Qed.

(** The calls of the handler of [run] create nothing. *)
Lemma run_rollback_creates_nothing (A : Type) fuel ex self w :
  let r := @Job.run_rollback env json_loads A fuel ex self w in
  (forall a, fst (fst r) <> Ok a)
  /\ exists evs, trace (snd r) = (trace w ++ evs)%list /\ creations evs = [].
Proof.
  destruct (run_rollback_spec env json_loads A fuel ex self w)
    as (_ & Ho & _).
  split; [intros a Ha; destruct Ho as [Ho|Ho]; rewrite Ho in Ha; discriminate|].
  assert (H : behaves eq (fun c => creation c = None)
                      (@Job.run_rollback env json_loads A fuel ex)).
  { unfold Job.run_rollback, Job._remove_instance_group. behave.
    eapply behaves_weaken; [| |apply wait_for_operation_behaves]; [auto|].
    intros c Hc. destruct c; simpl in Hc; try contradiction; reflexivity. }
  destruct (H self w) as (_ & evs & Ht & Hf). exists evs. split; [exact Ht|].
  clear Ht. induction Hf as [|e evs He _ IH]; [reflexivity|].
  simpl. now rewrite He.
Qed.

End CreationSequence.

Section RunSucceeds.

Variable env : environment.
Variable json_loads : string -> option json.

Lemma create_status_topic_ok s w topic s' w' :
  Job._create_status_topic env json_loads s w = (Ok topic, s', w') ->
  topic = topic_path (project_id (Job.job_config s)) (Job.name s) /\ s' = s.
Proof.
  unfold Job._create_status_topic. rewrite bind_get. cbv zeta.
  match goal with
  | |- context [invoke env json_loads ?c] =>
      call_step env json_loads c s w u E; rewrite (bind_run _ _ E)
  end; [|discriminate].
  unfold ret. intros [= <- <- _]. now split.
Qed.

Lemma create_status_subscription_ok s w sub s' w' :
  Job._create_status_subscription env json_loads s w = (Ok sub, s', w') ->
  sub = subscription_path (project_id (Job.job_config s)) (Job.name s) /\ s' = s.
Proof.
  unfold Job._create_status_subscription. rewrite bind_get. cbv zeta.
  match goal with
  | |- context [invoke env json_loads ?c] =>
      call_step env json_loads c s w topics E; rewrite (bind_run _ _ E)
  end; [|discriminate].
  match goal with
  | |- context [if ?b then _ else _] => destruct b
  end; [discriminate|].
  match goal with
  | |- context [bind (invoke env json_loads ?c) _ _ ?w'] =>
      call_step env json_loads c s w' u E2; rewrite (bind_run _ _ E2)
  end; [|discriminate].
  unfold ret. intros [= <- <- _]. now split.
Qed.

(** The Job a successful [try] block leaves. *)
Lemma run_try_ok fuel machine_config wait_for_result s w res s' w' :
  Job.run_try env json_loads fuel machine_config wait_for_result s w = (Ok res, s', w') ->
  s' = {| Job.gcloud := Job.gcloud s; Job.job_config := Job.job_config s;
          Job.started := true;
          Job.job_status_topic :=
            Some (topic_path (project_id (Job.job_config s)) (Job.name s));
          Job.job_status_subscription :=
            Some (subscription_path (project_id (Job.job_config s)) (Job.name s));
          Job.timeout_seconds := Job.timeout_seconds s; Job.name := Job.name s |}
  /\ (wait_for_result = false -> res = None).
Proof.
  unfold Job.run_try. intros H.
  destruct (Job._create_status_topic env json_loads s w) as [[o1 s1] w1] eqn:E1.
  rewrite (bind_run _ _ E1) in H. destruct o1 as [topic| |]; try discriminate H.
  destruct (create_status_topic_ok _ _ E1) as [-> ->].
  rewrite bind_run with (1 := eq_refl (Job.set_job_status_topic _ s w1)) in H.
  cbv [Job.set_job_status_topic] in H.
  match type of H with
  | context [bind (Job._create_status_subscription env json_loads) _ ?x _] =>
      set (s2 := x) in *;
      destruct (Job._create_status_subscription env json_loads s2 w1)
        as [[o3 s3] w3] eqn:E3
  end.
  rewrite (bind_run _ _ E3) in H. destruct o3 as [sub| |]; try discriminate H.
  destruct (create_status_subscription_ok _ _ E3) as [-> ->].
  rewrite bind_run with (1 := eq_refl (Job.set_job_status_subscription _ s2 w3)) in H.
  cbv [Job.set_job_status_subscription] in H.
  match type of H with
  | context [bind (Job._create_instance_template env json_loads fuel machine_config)
                  _ ?x _] =>
      set (s4 := x) in *;
      destruct (create_instance_template_behaves env json_loads fuel machine_config
                                                 s4 w3) as [Hs5 _];
      destruct (Job._create_instance_template env json_loads fuel machine_config s4 w3)
        as [[o5 s5] w5] eqn:E5
  end.
  simpl in Hs5. subst s5. rewrite (bind_run _ _ E5) in H.
  destruct o5 as [[]| |]; try discriminate H.
  destruct (create_managed_instance_group_behaves env json_loads fuel 1 s4 w5)
    as [Hs6 _].
  destruct (Job._create_managed_instance_group env json_loads fuel 1 s4 w5)
    as [[o6 s6] w6] eqn:E6.
  simpl in Hs6. subst s6. rewrite (bind_run _ _ E6) in H.
  destruct o6 as [[]| |]; try discriminate H.
  rewrite bind_run with (1 := eq_refl (Job.set_started true s4 w6)) in H.
  cbv [Job.set_started] in H.
  destruct wait_for_result.
  - rewrite bind_get in H.
    match type of H with
    | context [bind (Job.attach env json_loads fuel ?tmo) _ ?s7 _] =>
        destruct (attach_behaves env json_loads fuel tmo s7 w6) as [Hs8 _];
        destruct (Job.attach env json_loads fuel tmo s7 w6) as [[o8 s8] w8] eqn:E8
    end.
    simpl in Hs8. subst s8. rewrite (bind_run _ _ E8) in H.
    destruct o8 as [status| |]; try discriminate H.
    unfold ret in H. injection H as <- <- _. split; [reflexivity|discriminate].
  - unfold ret in H. injection H as <- <- _. split; reflexivity.
Qed.

(** X6: whatever happens, [run] asks for the creation of the status
    topic, the status subscription, the instance template and the managed
    instance group in this order, each at most once and none before the
    ones in front of it.  When [run] returns, it has asked for all four and
    for no removal; the Job is marked started and holds the paths of its
    topic and its subscription, built from the project and the name of the
    Job; and without [wait_for_result] the value returned is [None]. *)
Theorem run_creates_in_order (fuel : nat) (args_ : list string)
        (e t m : option (list (string * string))) (wait_for_result : bool)
        (self : Job.t) (w : world) :
  let r := Job.run env json_loads fuel args_ e t m wait_for_result self w in
  exists evs,
    trace (snd r) = (trace w ++ evs)%list
    /\ prefix_of (creations evs) [Topic; Subscription; Template; Group]
    /\ forall res, fst (fst r) = Ok res ->
         creations evs = [Topic; Subscription; Template; Group]
         /\ removals evs = []
         /\ Job.started (snd (fst r)) = true
         /\ Job.job_status_topic (snd (fst r))
            = Some (topic_path (project_id (Job.job_config self)) (Job.name self))
         /\ Job.job_status_subscription (snd (fst r))
            = Some (subscription_path (project_id (Job.job_config self))
                                      (Job.name self))
         /\ same_job self (snd (fst r))
         /\ (wait_for_result = false -> res = None).
Proof.
  unfold Job.run.
  destruct (run_prepare_creates env json_loads args_ e t m self w)
    as (evs0 & Ht0 & Hr0 & Hp0 & _).
  destruct (run_prepare_behaves env json_loads args_ e t m self w) as [Hsame0 _].
  destruct (Job.run_prepare env json_loads args_ e t m self w) as [[o0 s0] w0] eqn:E0.
  simpl in Ht0, Hsame0. rewrite (bind_run _ _ E0).
  assert (Hc0 : creations evs0 = [])
    by (destruct Hp0 as [rest Hrest]; now destruct (creations evs0)).
  destruct o0 as [machine_config| |];
    try (exists evs0; rewrite Hc0; split; [exact Ht0|];
         split; [apply prefix_of_nil|discriminate]).
  destruct (run_try_creates env json_loads fuel machine_config wait_for_result s0 w0)
    as (evs1 & Ht1 & Hr1 & Hp1 & Hok1).
  destruct (Job.run_try env json_loads fuel machine_config wait_for_result s0 w0)
    as [[o1 s1] w1] eqn:E1.
  simpl in Ht1, Hok1. rewrite (try_except_run _ _ E1).
  destruct o1 as [res|ex|].
  - exists (evs0 ++ evs1)%list. simpl.
    rewrite Ht1, Ht0, app_assoc, creations_app, removals_app, Hc0, Hr0, Hr1.
    split; [reflexivity|]. split; [exact Hp1|].
    intros res' [= <-]. destruct (run_try_ok _ _ _ _ _ E1) as [Hs1 Hres].
    destruct Hsame0 as (Hn & Hcfg & Htmo).
    rewrite (Hok1 res eq_refl), Hs1. simpl. rewrite Hn, Hcfg.
    repeat split; try assumption.
  - destruct (run_rollback_creates_nothing env json_loads (option json) fuel ex s1 w1)
      as (Hne & evs2 & Ht2 & Hc2).
    exists (evs0 ++ evs1 ++ evs2)%list.
    rewrite Ht2, Ht1, Ht0, <- !app_assoc, !creations_app, Hc0, Hc2, app_nil_r.
    split; [reflexivity|]. split; [exact Hp1|].
    intros res Hres. now destruct (Hne res).
  - exists (evs0 ++ evs1)%list. simpl.
    rewrite Ht1, Ht0, app_assoc, creations_app, Hc0.
    split; [reflexivity|]. split; [exact Hp1|discriminate].
Qed.

End RunSucceeds.

(** In the scripted cloud a run without waiting succeeds. *)
Example run_succeeds :
  let r := Job.run Fake.cloud Fake.decode 5 ["echo"; "hi"] None None None false
                   Fake.job empty_world in
  fst (fst r) = Ok None
  /\ creations (trace (snd r)) = [Topic; Subscription; Template; Group]
  /\ Job.started (snd (fst r)) = true.
Proof. vm_compute. repeat split. Qed.

(** ** [attach]: pulling, acknowledging, timing out *)

Lemma acknowledged_app (xs ys : list event) :
  acknowledged (xs ++ ys) = (acknowledged xs ++ acknowledged ys)%list.
Proof.
  induction xs as [|e xs IH]; simpl; [reflexivity|].
  destruct (acknowledged_of e); simpl; now rewrite IH.
Qed.

Lemma last_cons {A : Type} (l : list A) : forall x d : A,
  last (x :: l) d = last l x.
Proof.
  induction l as [|a l IH]; intros x d; [reflexivity|].
  change (last (x :: a :: l) d) with (last (a :: l) d).
  now rewrite !IH.
Qed.

Section AttachLoop.

Variable env : environment.
Variable json_loads : string -> option json.

Lemma attach_loop_unfold fuel timeout start self w :
  Job.attach_loop env json_loads fuel timeout start self w
  = if attach_goes_on timeout start (now w)
    then match fuel with
         | O => (OutOfFuel, self, w)
         | S fuel' =>
             bind (Job._pull_message env json_loads (Job.job_status_subscription self))
                  (fun message =>
                     match message with
                     | Some data =>
                         match json_loads data with
                         | Some payload => ret payload
                         | None => raise JSONDecodeError
                         end
                     | None => Job.attach_loop env json_loads fuel' timeout start
                     end) self w
         end
    else (Raise (TimeoutError (timeout_message timeout)), self, w).
Proof.
  unfold attach_goes_on.
  destruct fuel; simpl; rewrite bind_get; destruct (truthy_int timeout); cbv [negb];
    rewrite ?bind_ret, ?bind_bind, ?bind_time_time, ?bind_ret;
    try reflexivity;
    destruct timeout as [tmo|]; try reflexivity;
    destruct (Z.leb (now w - start) tmo); reflexivity.
Qed.

Lemma attach_loop_general timeout start : forall fuel self w,
  let r := Job.attach_loop env json_loads fuel timeout start self w in
  snd (fst r) = self
  /\ exists evs,
       trace (snd r) = (trace w ++ evs)%list
       /\ acknowledged evs
          = flat_map (to_acknowledge (Job.job_status_subscription self)) (pulls evs)
       /\ attach_loop_observed json_loads fuel (fst (fst r)) (pulls evs)
                               (now w) (now (snd r)).
Proof.
  induction fuel as [|fuel IH]; intros self w; rewrite attach_loop_unfold;
    destruct (attach_goes_on timeout start (now w)).
  - simpl. split; [reflexivity|]. exists []. rewrite app_nil_r.
    repeat split. constructor.
  - simpl. split; [reflexivity|]. exists []. rewrite app_nil_r.
    repeat split. constructor.
  - unfold Job._pull_message. rewrite bind_bind.
    set (sub := Job.job_status_subscription self).
    set (c := pull sub 1 false Job.POLLING_INTERVAL_SECONDS).
    call_step env json_loads c self w msgs E; rewrite (bind_run _ _ E).
    + assert (Hp : pulls [Event (env w c) (now w)]
                   = [{| pull_began := now w; pull_ended := now w + took (env w c);
                         pull_messages := msgs |}]).
      { unfold c in *. simpl. now rewrite Hanswer. }
      assert (Ha : acknowledged [Event (env w c) (now w)] = []) by reflexivity.
      destruct msgs as [|m rest].
      * rewrite bind_ret.
        destruct (IH self (after_call env json_loads w c))
          as (Hs & evs & Ht & Hack & Ho).
        destruct (Job.attach_loop env json_loads fuel timeout start self
                                  (after_call env json_loads w c))
          as [[o s'] w'].
        simpl in Hs, Ht, Hack, Ho |- *. split; [exact Hs|].
        remember ([Event (env w c) (now w)] ++ evs)%list as whole eqn:Hwhole.
        assert (Hpw : pulls whole
                      = {| pull_began := now w; pull_ended := now w + took (env w c);
                           pull_messages := [] |} :: pulls evs)
          by (subst whole; rewrite pulls_app, Hp; reflexivity).
        assert (Haw : acknowledged whole = acknowledged evs)
          by (subst whole; rewrite acknowledged_app, Ha; reflexivity).
        exists whole.
        split; [subst whole; rewrite Ht, trace_after_call, <- app_assoc; reflexivity|].
        rewrite Hpw, Haw. split; [exact Hack|].
        clear Hwhole Hpw Haw.
        destruct o as [payload|e|].
        -- destruct Ho as (idle & p & m' & rest' & Heq & Hidle & Hm & Hj).
           eexists (_ :: idle), p, m', rest'. rewrite Heq.
           split; [reflexivity|]. split; [|now split].
           constructor; [reflexivity|exact Hidle].
        -- destruct e; try exact I.
           ++ destruct Ho as [Hidle Hfin]. split.
              ** constructor; [reflexivity|exact Hidle].
              ** rewrite Hfin, now_after_call. cbn [map pull_ended].
                 now rewrite last_cons.
           ++ destruct Ho as (idle & p & m' & rest' & Heq & Hidle & Hm & Hj).
              eexists (_ :: idle), p, m', rest'. rewrite Heq.
              split; [reflexivity|]. split; [|now split].
              constructor; [reflexivity|exact Hidle].
        -- destruct Ho as [Hidle Hlen]. split.
           ++ constructor; [reflexivity|exact Hidle].
           ++ simpl. now rewrite Hlen.
      * rewrite bind_bind.
        set (w1 := after_call env json_loads w c).
        set (c2 := acknowledge sub [ack_id m]).
        assert (Hp2 : pulls [Event (env w c) (now w); Event (env w1 c2) (now w1)]
                      = [{| pull_began := now w;
                            pull_ended := now w + took (env w c);
                            pull_messages := m :: rest |}]).
        { unfold c, c2 in *. simpl. now rewrite Hanswer. }
        assert (Ha2 : acknowledged [Event (env w c) (now w);
                                    Event (env w1 c2) (now w1)]
                      = [(sub, [ack_id m])]) by reflexivity.
        assert (Htr : trace (after_call env json_loads w1 c2)
                      = (trace w ++ [Event (env w c) (now w);
                                     Event (env w1 c2) (now w1)])%list).
        { rewrite trace_after_call. unfold w1.
          rewrite trace_after_call, <- app_assoc. reflexivity. }
        call_step env json_loads c2 self w1 u E2; rewrite (bind_run _ _ E2).
        -- rewrite bind_ret.
           destruct (json_loads (message_data m)) as [payload|] eqn:Hj; simpl;
             (split; [reflexivity|]); eexists; (split; [exact Htr|]);
             rewrite Hp2, Ha2; (split; [reflexivity|]);
             exists [], {| pull_began := now w; pull_ended := now w + took (env w c);
                           pull_messages := m :: rest |}, m, rest;
             repeat split; try constructor; exact Hj.
        -- simpl. split; [reflexivity|]. eexists. split; [exact Htr|].
           rewrite Hp2, Ha2. split; [reflexivity|exact I].
    + simpl. split; [reflexivity|]. exists [Event (env w c) (now w)].
      split; [apply trace_after_call|].
      assert (Hp : pulls [Event (env w c) (now w)] = []).
      { unfold c in *. simpl. now rewrite Hanswer. }
      rewrite Hp. split; [reflexivity|exact I].
  - simpl. split; [reflexivity|]. exists []. rewrite app_nil_r.
    repeat split. constructor.
Qed.

(** The loop of [attach], by outcome: what it returns or raises, after
    which calls, and why. *)
Lemma attach_loop_total timeout start : forall fuel self w,
  let r := Job.attach_loop env json_loads fuel timeout start self w in
  snd (fst r) = self
  /\ exists evs,
       trace (snd r) = (trace w ++ evs)%list
       /\ attach_run json_loads fuel (Job.job_status_subscription self)
                     (attach_goes_on timeout start) (timeout_message timeout)
                     (fst (fst r)) evs (now (snd r)).
Proof.
  induction fuel as [|fuel IH]; intros self w; rewrite attach_loop_unfold;
    destruct (attach_goes_on timeout start (now w)) eqn:Hgo.
  - simpl. split; [reflexivity|]. exists []. rewrite app_nil_r.
    split; [reflexivity|]. split; [constructor|]. repeat split; try constructor.
    exact Hgo.
  - simpl. split; [reflexivity|]. exists []. rewrite app_nil_r.
    split; [reflexivity|]. split; [constructor|]. repeat split; try constructor.
    exact Hgo.
  - unfold Job._pull_message. rewrite bind_bind.
    set (sub := Job.job_status_subscription self).
    set (c := pull sub 1 false Job.POLLING_INTERVAL_SECONDS).
    assert (Hpt : pull_times [Event (env w c) (now w)] = [now w]) by reflexivity.
    call_step env json_loads c self w msgs E; rewrite (bind_run _ _ E).
    + assert (Hp : pulls [Event (env w c) (now w)]
                   = [{| pull_began := now w; pull_ended := now w + took (env w c);
                         pull_messages := msgs |}]).
      { unfold c in *. simpl. now rewrite Hanswer. }
      assert (Hf : failure_of (Event (env w c) (now w)) = None).
      { simpl. now rewrite Hanswer. }
      destruct msgs as [|m rest].
      * rewrite bind_ret.
        destruct (IH self (after_call env json_loads w c))
          as (Hs & evs & Ht & Hw & Ho).
        destruct (Job.attach_loop env json_loads fuel timeout start self
                                  (after_call env json_loads w c))
          as [[o s'] w'].
        simpl in Hs, Ht, Hw, Ho |- *. split; [exact Hs|].
        remember ([Event (env w c) (now w)] ++ evs)%list as whole eqn:Hwhole.
        assert (Hpw : pulls whole
                      = {| pull_began := now w; pull_ended := now w + took (env w c);
                           pull_messages := [] |} :: pulls evs)
          by (subst whole; rewrite pulls_app, Hp; reflexivity).
        assert (Hcw : calls whole = the_pull sub :: calls evs)
          by (subst whole; reflexivity).
        assert (Htw : pull_times whole = now w :: pull_times evs)
          by (subst whole; rewrite pull_times_app, Hpt; reflexivity).
        exists whole.
        split; [subst whole; rewrite Ht, trace_after_call, <- app_assoc; reflexivity|].
        split; [rewrite Htw; constructor; [exact Hgo|exact Hw]|].
        fold sub in Ho.
        destruct o as [payload|e|].
        -- destruct Ho as (idle & p & m' & rest' & Heq & Hidle & Hm & Hj & Hc).
           eexists (_ :: idle), p, m', rest'. rewrite Hpw, Heq.
           split; [reflexivity|]. split; [constructor; [reflexivity|exact Hidle]|].
           split; [exact Hm|]. split; [exact Hj|]. rewrite Hcw, Hc. reflexivity.
        -- destruct e; try contradiction.
           ++ destruct Ho as (Hidle & Hc & Hfin & Hmsg). rewrite Hpw.
              split; [constructor; [reflexivity|exact Hidle]|].
              split; [rewrite Hcw, Hc; reflexivity|]. now split.
           ++ destruct Ho as (idle & p & m' & rest' & Heq & Hidle & Hm & Hj & Hc).
              eexists (_ :: idle), p, m', rest'. rewrite Hpw, Heq.
              split; [reflexivity|]. split; [constructor; [reflexivity|exact Hidle]|].
              split; [exact Hm|]. split; [exact Hj|]. rewrite Hcw, Hc. reflexivity.
           ++ destruct Ho as (Hend & Hc).
              split; [subst whole; now apply ends_raising_cons|].
              rewrite Hpw, Hcw.
              destruct Hc as [[Hidle Hc]|(idle & p & m' & rest' & Heq & Hidle & Hm & Hc)].
              ** left. split; [constructor; [reflexivity|exact Hidle]|].
                 rewrite Hc. reflexivity.
              ** right. eexists (_ :: idle), p, m', rest'. rewrite Heq.
                 split; [reflexivity|].
                 split; [constructor; [reflexivity|exact Hidle]|].
                 split; [exact Hm|]. rewrite Hc. reflexivity.
        -- destruct Ho as (Hidle & Hlen & Hc & Hfin). rewrite Hpw.
           split; [constructor; [reflexivity|exact Hidle]|].
           split; [simpl; now rewrite Hlen|].
           split; [rewrite Hcw, Hc; reflexivity|exact Hfin].
      * rewrite bind_bind.
        set (w1 := after_call env json_loads w c).
        set (c2 := acknowledge sub [ack_id m]).
        assert (Hp2 : pulls [Event (env w c) (now w); Event (env w1 c2) (now w1)]
                      = [{| pull_began := now w;
                            pull_ended := now w + took (env w c);
                            pull_messages := m :: rest |}]).
        { unfold c, c2 in *. simpl. now rewrite Hanswer. }
        assert (Htr : trace (after_call env json_loads w1 c2)
                      = (trace w ++ [Event (env w c) (now w);
                                     Event (env w1 c2) (now w1)])%list).
        { rewrite trace_after_call. unfold w1.
          rewrite trace_after_call, <- app_assoc. reflexivity. }
        assert (Hpt2 : pull_times [Event (env w c) (now w); Event (env w1 c2) (now w1)]
                       = [now w]) by reflexivity.
        call_step env json_loads c2 self w1 u E2; rewrite (bind_run _ _ E2).
        -- rewrite bind_ret.
           destruct (json_loads (message_data m)) as [payload|] eqn:Hj; simpl;
             (split; [reflexivity|]); eexists; (split; [exact Htr|]);
             (split; [rewrite Hpt2; constructor; [exact Hgo|constructor]|]);
             exists [], {| pull_began := now w; pull_ended := now w + took (env w c);
                           pull_messages := m :: rest |}, m, rest;
             rewrite Hp2; repeat split; try constructor; exact Hj.
        -- simpl. split; [reflexivity|]. eexists. split; [exact Htr|].
           split; [rewrite Hpt2; constructor; [exact Hgo|constructor]|].
           split.
           ++ exists [Event (env w c) (now w)], (Event (env w1 c2) (now w1)).
              split; [reflexivity|]. split; [constructor; [exact Hf|constructor]|].
              simpl. now rewrite Hanswer0.
           ++ right.
              exists [], {| pull_began := now w; pull_ended := now w + took (env w c);
                            pull_messages := m :: rest |}, m, rest.
              rewrite Hp2. repeat split; constructor.
    + simpl. split; [reflexivity|]. exists [Event (env w c) (now w)].
      split; [apply trace_after_call|].
      split; [rewrite Hpt; constructor; [exact Hgo|constructor]|].
      split; [apply ends_raising_one; simpl; now rewrite Hanswer|].
      assert (Hp : pulls [Event (env w c) (now w)] = []).
      { unfold c in *. simpl. now rewrite Hanswer. }
      left. rewrite Hp. split; [constructor|reflexivity].
  - simpl. split; [reflexivity|]. exists []. rewrite app_nil_r.
    split; [reflexivity|]. split; [constructor|]. repeat split; try constructor.
    exact Hgo.
Qed.

End AttachLoop.

Section AttachFacts.

Variable env : environment.
Variable json_loads : string -> option json.

(** [attach] on a started Job: the client is asked for, the clock is read,
    the loop runs. *)
Lemma attach_started fuel timeout self w :
  Job.started self = true ->
  Job.attach env json_loads fuel timeout self w
  = match answered (env w get_subscriber) with
    | Returns _ =>
        Job.attach_loop env json_loads fuel timeout
                        (now (after_call env json_loads w get_subscriber)) self
                        (after_call env json_loads w get_subscriber)
    | Raises what =>
        (Raise (External what), self, after_call env json_loads w get_subscriber)
    end.
Proof.
  intros Hst. unfold Job.attach. rewrite bind_get, Hst. cbv [negb].
  call_step env json_loads get_subscriber self w u E; rewrite (bind_run _ _ E),
    Hanswer; [now rewrite bind_time_time|reflexivity].
Qed.

(** X7: on a started Job, [attach] acknowledges the first message of every
    pull that returned messages, on the Job's subscription, and nothing
    else.  At most one pull of a call carries messages, the last one.
    The message is acknowledged before its payload is decoded: when
    [attach] fails because the payload is not valid JSON, the message has
    been acknowledged all the same. *)
Theorem attach_acknowledges_before_decoding (fuel : nat) (timeout : option Z)
        (self : Job.t) (w : world) :
  Job.started self = true ->
  let r := Job.attach env json_loads fuel timeout self w in
  exists evs,
    trace (snd r) = (trace w ++ evs)%list
    /\ acknowledged evs
       = flat_map (to_acknowledge (Job.job_status_subscription self)) (pulls evs)
    /\ (forall decoded,
          match fst (fst r) with
          | Ok payload => decoded = Some payload
          | Raise JSONDecodeError => decoded = None
          | _ => False
          end ->
          exists idle p m rest,
            pulls evs = (idle ++ [p])%list /\ Forall idle_pull idle
            /\ pull_messages p = m :: rest
            /\ json_loads (message_data m) = decoded
            /\ acknowledged evs = [(Job.job_status_subscription self, [ack_id m])]).
Proof.
  intros Hst. rewrite (attach_started fuel timeout self w Hst).
  destruct (answered (env w get_subscriber)) as [u|what].
  - set (w1 := after_call env json_loads w get_subscriber).
    destruct (attach_loop_general env json_loads timeout (now w1) fuel self w1)
      as (_ & evs & Ht & Hack & Ho).
    cbv zeta. exists (Event (env w get_subscriber) (now w) :: evs).
    split; [rewrite Ht; unfold w1; rewrite trace_after_call, <- app_assoc;
            reflexivity|].
    change (Event (env w get_subscriber) (now w) :: evs)
      with ([Event (env w get_subscriber) (now w)] ++ evs)%list.
    rewrite acknowledged_app, pulls_app. simpl app. split; [exact Hack|].
    intros decoded Hd.
    assert (Hshape : exists idle p m rest,
               pulls evs = (idle ++ [p])%list /\ Forall idle_pull idle
               /\ pull_messages p = m :: rest
               /\ json_loads (message_data m) = decoded).
    { destruct (fst (fst (Job.attach_loop env json_loads fuel timeout (now w1) self w1)))
        as [payload|e|]; [|destruct e|]; try contradiction; subst decoded;
        exact Ho. }
    destruct Hshape as (idle & p & m & rest & Hp & Hidle & Hm & Hj).
    exists idle, p, m, rest. repeat split; try assumption.
    rewrite Hack, Hp, flat_map_app. simpl. unfold to_acknowledge at 2.
    rewrite Hm, app_nil_r.
    assert (Hnone : flat_map (to_acknowledge (Job.job_status_subscription self)) idle
                    = []).
    { clear - Hidle. induction Hidle as [|q idle Hq _ IH]; [reflexivity|].
      simpl. unfold to_acknowledge at 1. unfold idle_pull in Hq. now rewrite Hq. }
    now rewrite Hnone.
  - cbv zeta. exists [Event (env w get_subscriber) (now w)].
    split; [apply trace_after_call|]. split; [reflexivity|].
    intros decoded []. 
Qed.

(** X8: with a negative timeout [attach] fails at once: on a started Job it
    asks for the subscriber client and raises the job-timeout error
    without a single pull, whatever the fuel. *)
Theorem attach_negative_timeout (fuel : nat) (T : Z) (self : Job.t) (w : world) :
  T < 0 ->
  Job.started self = true ->
  Job.attach env json_loads fuel (Some T) self w
  = (match answered (env w get_subscriber) with
     | Returns _ =>
         Raise (TimeoutError ("The job took longer than " ++ str_int T ++ " seconds"))
     | Raises what => Raise (External what)
     end, self, after_call env json_loads w get_subscriber).
Proof.
  intros HT Hst. rewrite (attach_started fuel (Some T) self w Hst).
  destruct (answered (env w get_subscriber)) as [u|what]; [|reflexivity].
  rewrite attach_loop_unfold. unfold attach_goes_on, truthy_int.
  destruct (Z.eqb_spec T 0) as [->|_]; [lia|]. cbv [negb].
  rewrite Z.sub_diag. destruct (Z.leb_spec 0 T); [lia|reflexivity].
Qed.

(** X9: with a positive timeout [T], the job-timeout error of [attach] is
    raised at the moment a pull returns: at least one pull was made, no
    pull carried a message, the last pull began no later than [T] seconds
    after the start and ended later than that, and the error is raised
    when it ended.  So the error comes later than asked by at most the
    time one pull takes. *)
Theorem attach_times_out_after_a_pull (fuel : nat) (T : Z) (self : Job.t)
        (w : world) (msg : string) :
  0 < T ->
  Job.started self = true ->
  let r := Job.attach env json_loads fuel (Some T) self w in
  let start := now (after_call env json_loads w get_subscriber) in
  fst (fst r) = Raise (TimeoutError msg) ->
  exists evs idle p,
    trace (snd r) = (trace w ++ evs)%list
    /\ pulls evs = (idle ++ [p])%list
    /\ Forall idle_pull (pulls evs)
    /\ pull_began p - start <= T < pull_ended p - start
    /\ now (snd r) = pull_ended p.
Proof.
  intros HT Hst. rewrite (attach_started fuel (Some T) self w Hst).
  destruct (answered (env w get_subscriber)) as [u|what]; [|discriminate].
  set (w1 := after_call env json_loads w get_subscriber). cbv zeta.
  assert (Htruthy : truthy_int (Some T) = true).
  { unfold truthy_int. destruct (Z.eqb_spec T 0); [lia|reflexivity]. }
  assert (Hgo : forall t, attach_goes_on (Some T) (now w1) t = Z.leb (t - now w1) T).
  { intros t. unfold attach_goes_on. now rewrite Htruthy. }
  destruct (attach_loop_general env json_loads (Some T) (now w1) fuel self w1)
    as (_ & evs & Ht & _ & Ho).
  destruct (attach_loop_total env json_loads (Some T) (now w1) fuel self w1)
    as (_ & evs' & Ht' & Hbegan & Ho').
  intros Hout. rewrite Hout in Ho, Ho'. simpl in Ho, Ho'.
  rewrite Ht in Ht'. apply app_inv_head in Ht'. subst evs'.
  destruct Ho as [Hidle Hfin]. destruct Ho' as (_ & _ & Hlate & _).
  rewrite Hgo in Hlate. apply Z.leb_gt in Hlate.
  apply pulls_began_within in Hbegan.
  destruct (pulls evs) as [|p0 ps0] eqn:Hps0.
  - simpl in Hfin. lia.
  - destruct (@exists_last _ (p0 :: ps0) ltac:(discriminate)) as (ps & p & Hps).
    rewrite Hps in *. clear Hps p0 ps0. rename Hps0 into Hps.
    rewrite map_app in Hfin. cbn [map] in Hfin. rewrite last_last in Hfin.
    exists (Event (env w get_subscriber) (now w) :: evs), ps, p.
    split; [rewrite Ht; unfold w1; rewrite trace_after_call, <- app_assoc;
            reflexivity|].
    change (Event (env w get_subscriber) (now w) :: evs)
      with ([Event (env w get_subscriber) (now w)] ++ evs)%list.
    rewrite pulls_app. simpl app. rewrite Hps.
    split; [reflexivity|]. split; [exact Hidle|].
    apply Forall_app in Hbegan. destruct Hbegan as [_ Hp].
    inversion Hp as [|? ? Hle _]; subst. rewrite Hgo in Hle. apply Z.leb_le in Hle.
    simpl in Hfin. split; [|exact Hfin].
    split; [exact Hle|]. rewrite <- Hfin. lia.
Qed.

End AttachFacts.

Lemma attach_negative_timeout_witness :
  Job.attach Fake.cloud Fake.decode 5 (Some (-1)) Fake.started_job empty_world
  = (Raise (TimeoutError "The job took longer than -1 seconds"), Fake.started_job,
     after_call Fake.cloud Fake.decode empty_world get_subscriber).
Proof.
  apply (@attach_negative_timeout Fake.cloud Fake.decode 5 (-1) Fake.started_job
           empty_world); [lia|reflexivity].
Defined.

Lemma attach_acknowledges_witness :
  let r := Job.attach late_cloud Fake.decode 5 (Some 10) Fake.started_job empty_world in
  exists evs,
    trace (snd r) = (trace empty_world ++ evs)%list
    /\ acknowledged evs
       = flat_map (to_acknowledge (Job.job_status_subscription Fake.started_job))
                  (pulls evs)
    /\ (forall decoded,
          match fst (fst r) with
          | Ok payload => decoded = Some payload
          | Raise JSONDecodeError => decoded = None
          | _ => False
          end ->
          exists idle p m rest,
            pulls evs = (idle ++ [p])%list /\ Forall idle_pull idle
            /\ pull_messages p = m :: rest
            /\ Fake.decode (message_data m) = decoded
            /\ acknowledged evs
               = [(Job.job_status_subscription Fake.started_job, [ack_id m])]).
Proof.
  apply (@attach_acknowledges_before_decoding late_cloud Fake.decode 5 (Some 10)
           Fake.started_job empty_world).
  reflexivity.
Defined.

Lemma attach_times_out_witness :
  let r := Job.attach silent_cloud Fake.decode 5 (Some 10) Fake.started_job
                      empty_world in
  let start := now (after_call silent_cloud Fake.decode empty_world get_subscriber) in
  exists evs idle p,
    trace (snd r) = (trace empty_world ++ evs)%list
    /\ pulls evs = (idle ++ [p])%list
    /\ Forall idle_pull (pulls evs)
    /\ pull_began p - start <= 10 < pull_ended p - start
    /\ now (snd r) = pull_ended p.
Proof.
  apply (@attach_times_out_after_a_pull silent_cloud Fake.decode 5 10 Fake.started_job
           empty_world "The job took longer than 10 seconds").
  - lia.
  - reflexivity.
  - vm_compute. reflexivity.
Defined.

(** ** What a call does to the listeners and to the shared lists *)

Section ListenersAndLists.

Variable env : environment.
Variable json_loads : string -> option json.

Lemma heap_append_length h : forall r x i,
  List.length (heap_append h r x) = List.length h
  /\ (List.length (nth i h []) <= List.length (nth i (heap_append h r x) []))%nat.
Proof.
  induction h as [|l h IH]; intros r x i; simpl; [split; [reflexivity|lia]|].
  destruct r as [|r]; simpl.
  - split; [reflexivity|]. destruct i; [rewrite length_app; lia|lia].
  - destruct (IH r x (pred i)) as [H1 H2]. split; [now rewrite H1|].
    destruct i; [lia|exact H2].
Qed.

Lemma grown_refl w : grown w w.
Proof. repeat split; auto. Qed.

Lemma grown_trans a b c : grown a b -> grown b c -> grown a c.
Proof.
  intros (H1 & H2 & H3) (G1 & G2 & G3). repeat split; try congruence.
  intros i. specialize (H3 i). specialize (G3 i). lia.
Qed.

Lemma pubsub_callback_grown cb data w : grown w (pubsub_callback json_loads cb data w).
Proof.
  unfold pubsub_callback.
  destruct (json_loads data) as [d|]; [|apply grown_refl].
  destruct (json_get "status" d) as [code|]; [|apply grown_refl].
  destruct cb as [r]. unfold grown. simpl. split; [reflexivity|].
  split; [apply (heap_append_length (lists w) r code 0)
         |intros i; apply (heap_append_length (lists w) r code i)].
Qed.

Lemma notify_grown ls path data : forall w, grown w (notify json_loads ls path data w).
Proof.
  induction ls as [|[s cb] ls IH]; intros w; simpl; [apply grown_refl|].
  eapply grown_trans; [|apply IH].
  destruct (same_subscription path s); [apply pubsub_callback_grown|apply grown_refl].
Qed.

Lemma deliver_grown msgs : forall w, grown w (deliver json_loads msgs w).
Proof.
  induction msgs as [|[path data] msgs IH]; intros w; simpl; [apply grown_refl|].
  eapply grown_trans; [apply notify_grown|apply IH].
Qed.

Transparent invoke after_call.

Lemma after_call_grown w c : grown w (after_call env json_loads w c).
Proof.
  unfold after_call, invoke. simpl.
  eapply grown_trans; [|apply deliver_grown]. repeat split; auto.
Qed.

Opaque invoke after_call.

Lemma steady_silent (S A : Type) (m : M S A) :
  (forall s w, snd (m s w) = w) -> steady m.
Proof. intros H s w. rewrite H. apply grown_refl. Qed.

Lemma steady_invoke (S : Type) (c : call) : steady (@invoke env json_loads S c).
Proof.
  intros s w. destruct (invoke_cases env json_loads c s w) as [(a & _ & E)|(a & _ & E)];
    rewrite E; apply after_call_grown.
Qed.

End ListenersAndLists.

Lemma steady_bind {S A B : Type} (m : M S A) (k : A -> M S B) :
  steady m -> (forall a, steady (k a)) -> steady (bind m k).
Proof.
  intros Hm Hk s w. specialize (Hm s w).
  destruct (m s w) as [[o s1] w1] eqn:E. rewrite (bind_run m k E). simpl in Hm.
  destruct o as [a| |]; simpl; try exact Hm.
  eapply grown_trans; [exact Hm|apply Hk].
Qed.

Lemma steady_try_except {S A : Type} (m : M S A) (h : exn -> M S A) :
  steady m -> (forall e, steady (h e)) -> steady (try_except m h).
Proof.
  intros Hm Hh s w. specialize (Hm s w).
  destruct (m s w) as [[o s1] w1] eqn:E. rewrite (try_except_run m h E). simpl in Hm.
  destruct o as [a|e|]; simpl; try exact Hm.
  eapply grown_trans; [exact Hm|apply Hh].
Qed.

Lemma steady_on_object {S O A : Type} (o : O) (m : M O A) :
  steady m -> steady (@on_object S O A o m).
Proof.
  intros H s w. specialize (H o w). unfold on_object.
  destruct (m o w) as [[[a| |] o'] w']; exact H.
Qed.

Lemma steady_subscript (S : Type) d key : steady (@subscript S d key).
Proof.
  apply steady_silent. intros s w. apply subscript_run.
Qed.

Ltac steady_step :=
  match goal with
  | |- steady (ret _) => now apply steady_silent
  | |- steady (raise _) => now apply steady_silent
  | |- steady out_of_fuel => now apply steady_silent
  | |- steady get => now apply steady_silent
  | |- steady time_time => now apply steady_silent
  | |- steady (read_list _) => now apply steady_silent
  | |- steady (Job.set_started _) => now apply steady_silent
  | |- steady (Job.set_job_status_topic _) => now apply steady_silent
  | |- steady (Job.set_job_status_subscription _) => now apply steady_silent
  | |- steady (subscript _ _) => apply steady_subscript
  | |- steady (invoke _ _ _) => apply steady_invoke
  | |- steady (bind _ _) => apply steady_bind; [|intro]
  | |- steady (try_except _ _) => apply steady_try_except; [|intro]
  | |- steady (on_object _ _) => apply steady_on_object
  | |- steady (if ?b then _ else _) => destruct b
  | |- steady (match ?x with _ => _ end) => destruct x
  end.

Ltac steady := repeat steady_step.

Section SteadyJob.

Variable env : environment.
Variable json_loads : string -> option json.

Lemma wait_for_operation_steady fuel operation is_global_op :
  steady (Job._wait_for_operation env json_loads fuel operation is_global_op).
Proof.
  unfold Job._wait_for_operation. steady.
  induction fuel as [|fuel IH]; simpl; steady. exact IH.
Qed.

Lemma attach_steady fuel timeout :
  steady (Job.attach env json_loads fuel timeout).
Proof.
  unfold Job.attach. steady.
  match goal with
  | |- steady (Job.attach_loop _ _ _ _ ?start) => generalize start
  end.
  induction fuel as [|fuel IH]; intros start; simpl; unfold Job._pull_message;
    steady. apply IH.
Qed.

Lemma run_steady fuel args_ e t m wait_for_result :
  steady (Job.run env json_loads fuel args_ e t m wait_for_result).
Proof.
  unfold Job.run, Job.run_prepare, Job.run_try, Job.run_rollback,
    Job._create_machine_config, MachineConfig_to_dict, CloudInitConfig_render,
    set_startup_payload, Job._create_status_topic, Job._create_status_subscription,
    Job._create_instance_template, Job._create_managed_instance_group,
    Job._remove_instance_group.
  steady; first [apply wait_for_operation_steady | apply attach_steady].
Qed.

Lemma clean_up_steady fuel : steady (Job.clean_up env json_loads fuel).
Proof.
  unfold Job.clean_up, Job._remove_instance_template. steady;
    try apply wait_for_operation_steady.
  induction fuel as [|fuel IH]; simpl; unfold Job._retrieve_active_instance_groups;
    steady. exact IH.
Qed.

Lemma wait_loop_steady fuel : steady (JobGroup.wait_loop env json_loads fuel).
Proof.
  induction fuel as [|fuel IH]; simpl; steady. exact IH.
Qed.

Lemma wait_steady fuel : steady (JobGroup.wait env json_loads fuel).
Proof.
  unfold JobGroup.wait. steady. apply wait_loop_steady.
Qed.

End SteadyJob.

(** ** [JobGroup.wait] with more codes than jobs *)

Section GroupWaitSurplus.

Variable env : environment.
Variable json_loads : string -> option json.

(** X10: the shared code list only grows, and [wait] returns only when it
    finds exactly as many codes as there are launched jobs.  So once more
    codes than launched jobs are recorded (a status message delivered
    twice, say), [wait] never returns: whatever the fuel, the run is still
    sleeping when the fuel is spent, unless a sleep raises. *)
Theorem wait_blocks_on_surplus_codes (fuel : nat) (g : JobGroup.t) (w : world) :
  (List.length (JobGroup.running_jobs g) < List.length (recorded g w))%nat ->
  let r := JobGroup.wait env json_loads fuel g w in
  (forall b, fst (fst r) <> Ok b)
  /\ (List.length (recorded g w) <= List.length (recorded g (snd r)))%nat
  /\ (fst (fst r) = OutOfFuel ->
      exists sleeps, trace (snd r) = (trace w ++ sleeps)%list
                     /\ Forall (is_sleep_of 1) sleeps
                     /\ List.length sleeps = fuel).
Proof.
  intros Hsurplus r.
  destruct (wait_spec env json_loads fuel g w) as (_ & (evs & Ht & Hs & Hn) & Ho).
  destruct (wait_steady env json_loads fuel g w) as (_ & _ & Hgrow).
  specialize (Hgrow (JobGroup.jobs_status_codes g)).
  fold r in Ht, Hn, Ho, Hgrow. fold (recorded g w) in Hgrow.
  fold (recorded g (snd r)) in Hgrow.
  split; [|split; [exact Hgrow|]].
  - intros b Hb. rewrite Hb in Ho. destruct Ho as [Hlen _]. lia.
  - intros Hout. exists evs. repeat split; try assumption. now apply Hn.
Qed.

End GroupWaitSurplus.

Lemma wait_blocks_on_surplus_codes_witness :
  let r := JobGroup.wait Fake.cloud Fake.decode 3 batch_group surplus_world in
  (forall b, fst (fst r) <> Ok b)
  /\ (List.length (recorded batch_group surplus_world)
      <= List.length (recorded batch_group (snd r)))%nat
  /\ (fst (fst r) = OutOfFuel ->
      exists sleeps, trace (snd r) = (trace surplus_world ++ sleeps)%list
                     /\ Forall (is_sleep_of 1) sleeps
                     /\ List.length sleeps = 3%nat).
Proof.
  apply (@wait_blocks_on_surplus_codes Fake.cloud Fake.decode 3 batch_group
           surplus_world).
  simpl. lia.
Defined.

(** ** [JobGroup.run]: the jobs launched and their listeners *)

Section GroupRunWiring.

Variable env : environment.
Variable json_loads : string -> option json.

Lemma run_ok fuel args_ e t m wait_for_result self w res s' w' :
  Job.run env json_loads fuel args_ e t m wait_for_result self w = (Ok res, s', w') ->
  Job.started s' = true
  /\ Job.job_status_subscription s'
     = Some (subscription_path (project_id (Job.job_config self)) (Job.name self))
  /\ same_job self s'.
Proof.
  unfold Job.run. intros H.
  destruct (run_prepare_behaves env json_loads args_ e t m self w) as [Hsame0 _].
  destruct (Job.run_prepare env json_loads args_ e t m self w) as [[o0 s0] w0] eqn:E0.
  simpl in Hsame0. rewrite (bind_run _ _ E0) in H.
  destruct o0 as [machine_config| |]; try discriminate H.
  destruct (Job.run_try env json_loads fuel machine_config wait_for_result s0 w0)
    as [[o1 s1] w1] eqn:E1.
  rewrite (try_except_run _ _ E1) in H.
  destruct o1 as [res1|ex|]; try discriminate H.
  - injection H as _ <- _. pose proof E1 as X. apply run_try_ok in X.
    destruct X as [-> _].
    destruct Hsame0 as (Hn & Hcfg & Htmo). simpl. rewrite Hn, Hcfg.
    repeat split; assumption.
  - destruct (run_rollback_spec env json_loads (option json) fuel ex s1 w1)
      as (_ & Ho & _).
    rewrite H in Ho. simpl in Ho. destruct Ho; discriminate.
Qed.

Lemma create_ok (S : Type) (f : JobFactory.t) (p : string) (s : S) (w : world) :
  let r := JobFactory.create env json_loads f p s w in
  snd (fst r) = s /\ grown w (snd r)
  /\ forall j, fst (fst r) = Ok j -> Job.job_config j = JobFactory.job_config f.
Proof.
  unfold JobFactory.create, Job.init. simpl negb. cbv iota zeta.
  rewrite bind_bind.
  call_step env json_loads uuid1 s w u E; rewrite (bind_run _ _ E); cbv iota beta.
  - destruct (truthy (Some p)); rewrite !bind_ret; simpl;
      (split; [reflexivity|]); (split; [apply after_call_grown|]);
      intros j [= <-]; reflexivity.
  - simpl. split; [reflexivity|]. split; [apply after_call_grown|discriminate].
Qed.

Lemma on_finish_listens cb self w :
  let r := Job.on_finish env json_loads cb self w in
  snd (fst r) = self
  /\ listeners (snd r)
     = (listeners w ++ match fst (fst r) with
                       | Ok _ => [(Job.job_status_subscription self, cb)]
                       | _ => []
                       end)%list.
Proof.
  unfold Job.on_finish. rewrite bind_get. destruct (Job.started self); cbv [negb].
  - call_step env json_loads get_subscriber self w u E; rewrite (bind_run _ _ E).
    + set (w1 := after_call env json_loads w get_subscriber).
      destruct (after_call_grown env json_loads w get_subscriber) as (Hl1 & _).
      call_step env json_loads (subscribe (Job.job_status_subscription self) cb)
                self w1 u2 E2; rewrite (bind_run _ _ E2);
        destruct (after_call_grown env json_loads w1
                    (subscribe (Job.job_status_subscription self) cb)) as (Hl2 & _);
        simpl; (split; [reflexivity|]); rewrite Hl2; unfold w1; rewrite Hl1;
        [reflexivity|now rewrite app_nil_r].
    + simpl. split; [reflexivity|].
      destruct (after_call_grown env json_loads w get_subscriber) as (Hl1 & _).
      now rewrite Hl1, app_nil_r.
  - simpl. split; [reflexivity|]. now rewrite app_nil_r.
Qed.

Lemma run_loop_wires fuel specs : forall first g w,
  let r := JobGroup.run_loop env json_loads fuel first specs g w in
  exists launched,
    JobGroup.running_jobs (snd (fst r)) = (JobGroup.running_jobs g ++ launched)%list
    /\ listeners (snd r) = (listeners w ++ map (group_listener g) launched)%list
    /\ Forall (launched_by g) launched
    /\ (fst (fst r) = Ok tt <-> List.length launched = List.length specs)
    /\ (List.length launched <= List.length specs)%nat.
Proof.
  induction specs as [|spec specs IH]; intros first g w; simpl.
  - exists []. rewrite !app_nil_r. repeat split; constructor.
  - assert (Hstop : forall (o : outcome unit) w',
               listeners w' = listeners w -> o <> Ok tt ->
               exists launched : list Job.t,
                 JobGroup.running_jobs g = (JobGroup.running_jobs g ++ launched)%list
                 /\ listeners w' = (listeners w ++ map (group_listener g) launched)%list
                 /\ Forall (launched_by g) launched
                 /\ (o = Ok tt <-> List.length launched = S (List.length specs))
                 /\ (List.length launched <= S (List.length specs))%nat).
    { intros o w' Hl Ho. exists []. rewrite !app_nil_r.
      split; [reflexivity|]. split; [exact Hl|]. split; [constructor|].
      split; [split; [intros X; now destruct Ho|intros X; discriminate X]
             |simpl; lia]. }
    msimpl.
    pose proof (@create_ok _ (JobGroup.job_factory g)
                  (JobGroup.name g ++ "-" ++ str_nat first) g w) as Hc.
    cbv zeta in Hc.
    destruct (JobFactory.create env json_loads (JobGroup.job_factory g)
                (JobGroup.name g ++ "-" ++ str_nat first) g w)
      as [[o1 g1] w1] eqn:E1.
    simpl in Hc. destruct Hc as (-> & (Hl1 & _) & Hcfg).
    rewrite (bind_run _ _ E1).
    destruct o1 as [job| |]; [|apply Hstop; [exact Hl1|discriminate]
                              |apply Hstop; [exact Hl1|discriminate]].
    specialize (Hcfg job eq_refl).
    rewrite bind_run with (1 := on_object_run _ _ _ _).
    pose proof (run_steady env json_loads fuel (args spec) (Some (env_vars spec))
                  (Some (gcs_target spec)) (Some (gcs_mounts spec)) false job w1)
      as (Hl2 & _).
    destruct (Job.run env json_loads fuel (args spec) (Some (env_vars spec))
                (Some (gcs_target spec)) (Some (gcs_mounts spec)) false job w1)
      as [[o2 job2] w2] eqn:E2.
    simpl in Hl2 |- *.
    destruct o2 as [res| |];
      [|apply Hstop; [simpl; congruence|discriminate]
       |apply Hstop; [simpl; congruence|discriminate]].
    pose proof E2 as X. apply run_ok in X. destruct X as (Hst & Hsub & Hn & Hjc & _).
    simpl.
    rewrite bind_run with (1 := on_object_run _ _ _ _).
    pose proof (on_finish_listens (list_append (JobGroup.jobs_status_codes g)) job2 w2)
      as [Hsame Hl3].
    destruct (Job.on_finish env json_loads
                (list_append (JobGroup.jobs_status_codes g)) job2 w2)
      as [[o3 job3] w3].
    simpl in Hsame, Hl3 |- *. subst job3.
    destruct o3 as [[]| |];
      [|apply Hstop; [simpl; rewrite Hl3, app_nil_r; congruence|discriminate]
       |apply Hstop; [simpl; rewrite Hl3, app_nil_r; congruence|discriminate]].
    simpl. msimpl.
    rewrite bind_set_running_jobs.
    match goal with
    | |- context [JobGroup.run_loop env json_loads fuel (S first) specs ?g' ?w'] =>
        destruct (IH (S first) g' w') as (launched & Hrun & Hlis & Hall & Hiff & Hle);
        destruct (JobGroup.run_loop env json_loads fuel (S first) specs g' w')
          as [[o4 g4] w4]
    end.
    simpl in Hrun, Hlis, Hall, Hiff, Hle |- *.
    exists (job2 :: launched). split; [|split; [|split; [|split]]].
    + rewrite Hrun, <- app_assoc. reflexivity.
    + rewrite Hlis, Hl3, Hl2, Hl1, <- app_assoc. reflexivity.
    + constructor; [|exact Hall].
      unfold launched_by. rewrite Hst, Hsub, Hjc, Hn. repeat split. exact Hcfg.
    + simpl. rewrite Hiff. split; [congruence|intros [= X]; exact X].
    + simpl. lia.
Qed.

(** X11: [JobGroup.run] appends to [running_jobs] the jobs it launched, in
    launch order, and opens one listener for each of them and no other:
    on the job's own status subscription, appending to the group's code
    list.  Every job in the list is started and carries the factory's
    configuration.  A job counts as launched only after its [run] and its
    [on_finish] both returned; [run] returns exactly when all the specs
    were launched, and stops at the first job that fails. *)
Theorem group_run_wires_jobs (fuel : nat) (g : JobGroup.t) (w : world) :
  let r := JobGroup.run env json_loads fuel g w in
  exists launched,
    JobGroup.running_jobs (snd (fst r)) = (JobGroup.running_jobs g ++ launched)%list
    /\ listeners (snd r) = (listeners w ++ map (group_listener g) launched)%list
    /\ Forall (launched_by g) launched
    /\ (fst (fst r) = Ok tt <->
        List.length launched = List.length (JobGroup.job_specs g))
    /\ (List.length launched <= List.length (JobGroup.job_specs g))%nat.
Proof.
  unfold JobGroup.run. rewrite bind_get.
  apply (run_loop_wires fuel (JobGroup.job_specs g) 0 g w).
Qed.

End GroupRunWiring.

Example batch_listeners :
  listeners (snd (JobGroup.run Fake.cloud Fake.decode 5 batch_group batch_world))
  = [(Some (subscription_path "my-gcp-project" "batch-0-clash-job-123e4567-e89b-12"),
      list_append 0%nat);
     (Some (subscription_path "my-gcp-project" "batch-1-clash-job-123e4567-e89b-12"),
      list_append 0%nat)].
Proof. vm_compute. reflexivity. Qed.

(** ** Cleaning up a group *)

Lemma template_deletions_app (xs ys : list event) :
  template_deletions (xs ++ ys) = (template_deletions xs ++ template_deletions ys)%list.
Proof.
  induction xs as [|e xs IH]; simpl; [reflexivity|].
  destruct (template_deletion (call_of e)); simpl; now rewrite IH.
Qed.

Lemma no_template_deletions (evs : list event) :
  Forall (fun e => template_deletion (call_of e) = None) evs ->
  template_deletions evs = [].
Proof.
  induction 1 as [|e evs He _ IH]; [reflexivity|]. simpl. now rewrite He.
Qed.

Section GroupCleanUp.

Variable env : environment.
Variable json_loads : string -> option json.

Lemma wait_for_operation_deletes_nothing fuel operation is_global_op :
  behaves eq (fun c => template_deletion c = None)
          (Job._wait_for_operation env json_loads fuel operation is_global_op).
Proof.
  eapply behaves_weaken; [| |apply wait_for_operation_behaves]; [auto|].
  intros c Hc. destruct c; simpl in Hc; try contradiction; reflexivity.
Qed.

Lemma wait_for_removal_deletes_nothing fuel :
  behaves eq (fun c => template_deletion c = None)
          (Job._wait_for_instance_group_removal env json_loads fuel).
Proof.
  induction fuel as [|fuel IH]; simpl; unfold Job._retrieve_active_instance_groups;
    behave. exact IH.
Qed.

Lemma remove_instance_template_deletes fuel self w :
  Job.started self = true ->
  let r := Job._remove_instance_template env json_loads fuel self w in
  snd (fst r) = self
  /\ exists evs, trace (snd r) = (trace w ++ evs)%list
                 /\ prefix_of (template_deletions evs) [Job.name self]
                 /\ (fst (fst r) = Ok tt -> template_deletions evs = [Job.name self]).
Proof.
  intros Hst. unfold Job._remove_instance_template. rewrite bind_get, Hst.
  cbv [negb].
  call_step env json_loads get_compute_client self w u E; rewrite (bind_run _ _ E).
  - set (w1 := after_call env json_loads w get_compute_client).
    set (c := instanceTemplates_delete (project_id (Job.job_config self))
                                       (Job.name self)).
    assert (Ht : trace (after_call env json_loads w1 c)
                 = (trace w ++ [Event (env w get_compute_client) (now w);
                                Event (env w1 c) (now w1)])%list).
    { rewrite trace_after_call. unfold w1. rewrite trace_after_call.
      now rewrite <- app_assoc. }
    assert (Hd : template_deletions [Event (env w get_compute_client) (now w);
                                     Event (env w1 c) (now w1)] = [Job.name self])
      by reflexivity.
    call_step env json_loads c self w1 op E2; rewrite (bind_run _ _ E2).
    + set (w2 := after_call env json_loads w1 c) in *.
      destruct (subscript_run op "name" self w2) as [Hs3 Hw3].
      destruct (subscript op "name" self w2) as [[o3 s3] w3] eqn:E3.
      simpl in Hs3, Hw3. subst s3 w3. rewrite (bind_run _ _ E3).
      destruct o3 as [op_name| |].
      * destruct (wait_for_operation_deletes_nothing fuel op_name true self w2)
          as (Hs4 & evs4 & Ht4 & Hp4).
        destruct (Job._wait_for_operation env json_loads fuel op_name true self w2)
          as [[o4 s4] w4] eqn:E4.
        simpl in Hs4, Ht4. subst s4. rewrite (bind_run _ _ E4).
        assert (Htrace : trace w4
                         = (trace w ++ [Event (env w get_compute_client) (now w);
                                        Event (env w1 c) (now w1)] ++ evs4)%list)
          by (rewrite Ht4, Ht, <- app_assoc; reflexivity).
        assert (Hdel : template_deletions
                         ([Event (env w get_compute_client) (now w);
                           Event (env w1 c) (now w1)] ++ evs4) = [Job.name self])
          by (rewrite template_deletions_app, Hd, (no_template_deletions Hp4);
              reflexivity).
        destruct o4 as [res| |]; simpl; (split; [reflexivity|]);
          eexists; (split; [exact Htrace|]); rewrite Hdel;
          (split; [apply prefix_of_refl|reflexivity]).
      * simpl. split; [reflexivity|]. eexists. split; [exact Ht|].
        rewrite Hd. split; [apply prefix_of_refl|reflexivity].
      * simpl. split; [reflexivity|]. eexists. split; [exact Ht|].
        rewrite Hd. split; [apply prefix_of_refl|reflexivity].
    + simpl. split; [reflexivity|]. eexists. split; [exact Ht|].
      rewrite Hd. split; [apply prefix_of_refl|reflexivity].
  - simpl. split; [reflexivity|]. eexists. split; [apply trace_after_call|].
    simpl. split; [apply prefix_of_nil|discriminate].
Qed.

Lemma job_clean_up_deletes fuel self w :
  let r := Job.clean_up env json_loads fuel self w in
  snd (fst r) = self
  /\ exists evs, trace (snd r) = (trace w ++ evs)%list
                 /\ prefix_of (template_deletions evs) (templates_of [self])
                 /\ (fst (fst r) = Ok tt ->
                     template_deletions evs = templates_of [self]).
Proof.
  unfold Job.clean_up, templates_of. rewrite bind_get. simpl filter.
  destruct (Job.started self) eqn:Hst.
  - destruct (wait_for_removal_deletes_nothing fuel self w) as (Hs & evs & Ht & Hp).
    destruct (Job._wait_for_instance_group_removal env json_loads fuel self w)
      as [[o s1] w1] eqn:E.
    simpl in Hs, Ht. subst s1. rewrite (bind_run _ _ E).
    pose proof (no_template_deletions Hp) as Hnone.
    destruct o as [[]| |].
    + destruct (remove_instance_template_deletes fuel self w1 Hst)
        as (Hs2 & evs2 & Ht2 & Hp2 & Hok2).
      destruct (Job._remove_instance_template env json_loads fuel self w1)
        as [[o2 s2] w2].
      simpl in Hs2, Ht2, Hp2, Hok2 |- *. split; [exact Hs2|].
      exists (evs ++ evs2)%list.
      rewrite Ht2, Ht, <- app_assoc, template_deletions_app, Hnone.
      split; [reflexivity|]. split; [exact Hp2|exact Hok2].
    + simpl. split; [reflexivity|]. exists evs. rewrite Hnone.
      split; [exact Ht|]. split; [apply prefix_of_nil|discriminate].
    + simpl. split; [reflexivity|]. exists evs. rewrite Hnone.
      split; [exact Ht|]. split; [apply prefix_of_nil|discriminate].
  - simpl. split; [reflexivity|]. exists []. rewrite app_nil_r.
    split; [reflexivity|]. split; [apply prefix_of_nil|reflexivity].
Qed.

Lemma clean_up_loop_deletes fuel (g : JobGroup.t) (jobs : list Job.t) : forall w,
  let r := JobGroup.clean_up_loop env json_loads fuel jobs g w in
  snd (fst r) = g
  /\ exists evs, trace (snd r) = (trace w ++ evs)%list
                 /\ prefix_of (template_deletions evs) (templates_of jobs)
                 /\ (fst (fst r) = Ok tt -> template_deletions evs = templates_of jobs).
Proof.
  induction jobs as [|job jobs IH]; intros w; simpl.
  - split; [reflexivity|]. exists []. rewrite app_nil_r.
    split; [reflexivity|]. split; [apply prefix_of_nil|reflexivity].
  - rewrite bind_run with (1 := on_object_run _ _ _ _).
    destruct (job_clean_up_deletes fuel job w) as (_ & evs & Ht & Hp & Hok).
    assert (Happ : templates_of (job :: jobs)
                   = (templates_of [job] ++ templates_of jobs)%list).
    { unfold templates_of. simpl. destruct (Job.started job); reflexivity. }
    destruct (Job.clean_up env json_loads fuel job w) as [[o job'] w1].
    simpl in Ht, Hp, Hok |- *.
    destruct o as [[]| |]; simpl.
    + destruct (IH w1) as (Hg & evs2 & Ht2 & Hp2 & Hok2).
      destruct (JobGroup.clean_up_loop env json_loads fuel jobs g w1)
        as [[o2 g2] w2].
      simpl in Hg, Ht2, Hp2, Hok2 |- *. split; [exact Hg|].
      exists (evs ++ evs2)%list.
      rewrite Ht2, Ht, <- app_assoc, template_deletions_app, (Hok eq_refl), Happ.
      split; [reflexivity|]. split; [now apply prefix_of_app|].
      intros Ho. now rewrite (Hok2 Ho).
    + split; [reflexivity|]. exists evs. split; [exact Ht|]. rewrite Happ.
      split; [|discriminate]. destruct Hp as [rest ->].
      exists (rest ++ templates_of jobs)%list. now rewrite app_assoc.
    + split; [reflexivity|]. exists evs. split; [exact Ht|]. rewrite Happ.
      split; [|discriminate]. destruct Hp as [rest ->].
      exists (rest ++ templates_of jobs)%list. now rewrite app_assoc.
Qed.

(** X12: [JobGroup.clean_up] cleans up the launched jobs one after the
    other, in launch order: the instance templates it asks to delete are
    those of the started jobs of [running_jobs], by name, in that order.
    It stops at the first job whose clean-up fails, so the templates
    deleted are then only an initial part of that list and the jobs behind
    the failing one are not cleaned up; when it returns, all were asked to
    be deleted.  The group itself is not changed. *)
Theorem group_clean_up_in_launch_order (fuel : nat) (g : JobGroup.t) (w : world) :
  let r := JobGroup.clean_up env json_loads fuel g w in
  snd (fst r) = g
  /\ exists evs,
       trace (snd r) = (trace w ++ evs)%list
       /\ prefix_of (template_deletions evs) (templates_of (JobGroup.running_jobs g))
       /\ (fst (fst r) = Ok tt ->
           template_deletions evs = templates_of (JobGroup.running_jobs g)).
Proof.
  unfold JobGroup.clean_up. rewrite bind_get. apply clean_up_loop_deletes.
Qed.

End GroupCleanUp.

(** The group of two jobs, launched and cleaned up in the scripted cloud. *)
Example batch_clean_up :
  let launched := JobGroup.run Fake.cloud Fake.decode 5 batch_group batch_world in
  let r := JobGroup.clean_up Fake.cloud Fake.decode 5 (snd (fst launched))
                             (snd launched) in
  fst (fst r) = Ok tt
  /\ filter (fun c => match template_deletion c with Some _ => true | None => false end)
            (calls (trace (snd r)))
     = [instanceTemplates_delete "my-gcp-project" "batch-0-clash-job-123e4567-e89b-12";
        instanceTemplates_delete "my-gcp-project" "batch-1-clash-job-123e4567-e89b-12"].
Proof. vm_compute. split; reflexivity. Qed.

(** ** The listing of the instance groups *)

Lemma group_names_spec (items : list json) : forall (res names : list json),
  group_names items res = inr names
  <-> exists found, names = (res ++ found)%list
                    /\ Forall2 (fun item n => json_get "name" item = Some n) items found.
Proof.
  induction items as [|item items IH]; intros res names; simpl.
  - split.
    + intros [= <-]. exists []. rewrite app_nil_r. split; [reflexivity|constructor].
    + intros (found & -> & H). inversion H. now rewrite app_nil_r.
  - destruct item as [| | | | |fields];
      try (split; [discriminate|intros (found & _ & H); inversion H; discriminate]).
    destruct (assoc_get "name" fields) as [n|] eqn:Hn.
    + rewrite IH. split.
      * intros (found & -> & H). exists (n :: found).
        rewrite <- app_assoc. split; [reflexivity|]. constructor; [exact Hn|exact H].
      * intros (found & -> & H). inversion H as [|? n' ? found' Hn' H']; subst.
        simpl in Hn'. rewrite Hn in Hn'. injection Hn' as <-.
        exists found'. rewrite <- app_assoc. split; [reflexivity|exact H'].
    + split; [discriminate|].
      intros (found & _ & H). inversion H as [|? n' ? found' Hn' H']; subst.
      simpl in Hn'. rewrite Hn in Hn'. discriminate.
Qed.

(** X13: the active instance groups [_retrieve_active_instance_groups]
    gets from a listing whose ["items"] entry is a list are the values
    under ["name"] of the items, in the order of the listing; this
    succeeds exactly when every item is a dict with a ["name"] entry. *)
Theorem active_groups_are_the_listed_names (fields : list (string * json))
        (items names : list json) :
  assoc_get "items" fields = Some (JList items) ->
  listed_groups (JObj fields) = inr names
  <-> Forall2 (fun item n => json_get "name" item = Some n) items names.
Proof.
  intros Hitems. unfold listed_groups. rewrite Hitems, group_names_spec. simpl.
  split; [intros (found & -> & H); exact H|intros H; now exists names].
Qed.

Lemma active_groups_witness :
  listed_groups (JObj [("items", JList [JObj [("name", JStr "a")];
                                        JObj [("name", JStr "b")]])])
  = inr [JStr "a"; JStr "b"]
  <-> Forall2 (fun item n => json_get "name" item = Some n)
              [JObj [("name", JStr "a")]; JObj [("name", JStr "b")]]
              [JStr "a"; JStr "b"].
Proof.
  apply (@active_groups_are_the_listed_names
           [("items", JList [JObj [("name", JStr "a")]; JObj [("name", JStr "b")]])]
           [JObj [("name", JStr "a")]; JObj [("name", JStr "b")]]
           [JStr "a"; JStr "b"]).
  reflexivity.
Defined.

Section ListingWithoutItems.

Variable env : environment.
Variable json_loads : string -> option json.

(** X14: [clean_up] reads the ["items"] entry of the listing of instance
    groups without checking that it is there.  On a started Job, when the
    listing is a dict without that entry, [clean_up] fails with
    [KeyError] right after the listing: it does not sleep, and it does not
    delete the instance template. *)
Theorem clean_up_needs_items_entry (fuel : nat) (self : Job.t) (w : world)
        (fields : list (string * json)) :
  let w1 := after_call env json_loads w get_compute_client in
  let listing := instanceGroups_list (project_id (Job.job_config self))
                                     (zone (Job.job_config self)) in
  Job.started self = true ->
  answered (env w get_compute_client) = Returns tt ->
  answered (env w1 listing) = Returns (JObj fields) ->
  assoc_get "items" fields = None ->
  Job.clean_up env json_loads (S fuel) self w
  = (Raise (KeyError "items"), self, after_call env json_loads w1 listing).
Proof.
  intros w1 listing Hst Hclient Hlisting Hitems.
  assert (Hretrieve :
            Job._retrieve_active_instance_groups env json_loads self w
            = (Raise (KeyError "items"), self, after_call env json_loads w1 listing)).
  { unfold Job._retrieve_active_instance_groups. rewrite bind_get.
    call_step env json_loads get_compute_client self w u E;
      [|rewrite Hclient in Hanswer; discriminate].
    rewrite (bind_run _ _ E). fold w1. fold listing.
    call_step env json_loads listing self w1 l E2;
      [|rewrite Hlisting in Hanswer0; discriminate].
    rewrite (bind_run _ _ E2).
    rewrite Hlisting in Hanswer0. injection Hanswer0 as <-.
    unfold listed_groups. rewrite Hitems. reflexivity. }
  unfold Job.clean_up. rewrite bind_get, Hst.
  rewrite bind_run with (o := Raise (KeyError "items")) (s1 := self)
                        (w1 := after_call env json_loads w1 listing);
    [reflexivity|].
  cbn [Job._wait_for_instance_group_removal]. rewrite bind_get.
  now rewrite (bind_run _ _ Hretrieve).
Qed.

End ListingWithoutItems.

Lemma clean_up_needs_items_entry_witness :
  Job.clean_up no_items_cloud Fake.decode 5 Fake.started_job empty_world
  = (Raise (KeyError "items"), Fake.started_job,
     after_call no_items_cloud Fake.decode
       (after_call no_items_cloud Fake.decode empty_world get_compute_client)
       (instanceGroups_list (project_id (Job.job_config Fake.started_job))
                            (zone (Job.job_config Fake.started_job)))).
Proof.
  apply (@clean_up_needs_items_entry no_items_cloud Fake.decode 4 Fake.started_job
           empty_world [("kind", JStr "compute#instanceGroupList")]);
    reflexivity.
Defined.

(** ** A run that fails before the Job is started *)

Section FailedRun.

Variable env : environment.
Variable json_loads : string -> option json.

Lemma creation_steps_keep_started fuel machine_config ks : forall s w,
  Job.started (snd (fst (Job.creation_steps env json_loads fuel machine_config ks s w)))
  = Job.started s.
Proof.
  induction ks as [|k ks IH]; intros s w; simpl; [reflexivity|].
  pose proof (creation_step_marks env json_loads fuel machine_config k s w) as Hk.
  cbv zeta in Hk.
  destruct (Job.creation_step env json_loads fuel machine_config k s w)
    as [[o s1] w1] eqn:E.
  rewrite (bind_run _ _ E). simpl in Hk.
  assert (Hst : Job.started s1 = Job.started s)
    by (unfold marks in Hk; destruct o; now injection Hk).
  destruct o as [[]| |]; simpl; try exact Hst. now rewrite IH.
Qed.

Lemma run_try_failed fuel machine_config s w ex s' w' :
  Job.run_try env json_loads fuel machine_config false s w = (Raise ex, s', w') ->
  Job.started s' = Job.started s.
Proof.
  rewrite run_try_steps. intros H.
  pose proof (creation_steps_keep_started fuel machine_config [2; 3; 4; 5]%nat s w)
    as Hst.
  destruct (Job.creation_steps env json_loads fuel machine_config [2; 3; 4; 5]%nat s w)
    as [[o s1] w1] eqn:E.
  rewrite (bind_run _ _ E) in H. simpl in Hst.
  destruct o as [[]| |]; try discriminate H.
  injection H as _ <- _. exact Hst.
Qed.

Lemma run_prepare_keeps_started args_ e t m self w :
  Job.started (snd (fst (Job.run_prepare env json_loads args_ e t m self w)))
  = Job.started self.
Proof.
  unfold Job.run_prepare.
  call_step env json_loads get_subscriber self w u E;
    rewrite (bind_run _ _ E); [|reflexivity].
  match goal with
  | |- context [bind (invoke env json_loads get_publisher) _ _ ?w'] =>
      call_step env json_loads get_publisher self w' u1 E1;
        rewrite (bind_run _ _ E1); [|reflexivity]
  end.
  cbv zeta.
  match goal with
  | |- context [bind (Job._create_machine_config env json_loads ?a ?b ?c ?d) _ _ ?w'] =>
      destruct (create_machine_config_behaves env json_loads a b c d self w')
        as [Hs _];
      destruct (Job._create_machine_config env json_loads a b c d self w')
        as [[o s1] w1] eqn:E2
  end.
  simpl in Hs. subst s1. rewrite (bind_run _ _ E2).
  destruct o as [mc| |]; reflexivity.
Qed.

(** X15: when [run] without [wait_for_result] fails on a Job that was not
    started, the Job is still not started afterwards, whatever had been
    created by then.  So the clean-up of such a Job does nothing: a
    [with] block around the failing [run] makes no further call and
    raises the exception of [run]. *)
Theorem failed_run_is_left_unstarted (fuel fuel' : nat) (args_ : list string)
        (e t m : option (list (string * string))) (self s' : Job.t) (w w' : world)
        (ex : exn) :
  Job.started self = false ->
  Job.run env json_loads fuel args_ e t m false self w = (Raise ex, s', w') ->
  Job.started s' = false
  /\ Job.clean_up env json_loads fuel' s' w' = (Ok tt, s', w')
  /\ with_block Job.__enter__ (Job.__exit__ env json_loads fuel')
                (fun job => Job.run env json_loads fuel args_ e t m false) self w
     = (Raise ex, s', w').
Proof.
  intros Hst Hrun.
  assert (Hst' : Job.started s' = false).
  { revert Hrun. unfold Job.run.
    pose proof (run_prepare_keeps_started args_ e t m self w) as H0.
    destruct (Job.run_prepare env json_loads args_ e t m self w)
      as [[o0 s0] w0] eqn:E0.
    rewrite (bind_run _ _ E0). simpl in H0.
    destruct o0 as [machine_config| |]; try discriminate;
      [|intros [= _ <- _]; congruence].
    destruct (Job.run_try env json_loads fuel machine_config false s0 w0)
      as [[o1 s1] w1] eqn:E1.
    rewrite (try_except_run _ _ E1).
    destruct o1 as [res|ex1|]; try discriminate.
    pose proof (run_try_failed _ _ _ _ E1) as H1.
    destruct (run_rollback_spec env json_loads (option json) fuel ex1 s1 w1)
      as (Hs & _).
    intros Hroll. rewrite Hroll in Hs. simpl in Hs. congruence. }
  assert (Hclean : Job.clean_up env json_loads fuel' s' w' = (Ok tt, s', w')).
  { unfold Job.clean_up. now rewrite bind_get, Hst'. }
  split; [exact Hst'|]. split; [exact Hclean|].
  unfold with_block, Job.__enter__. rewrite bind_get, Hrun.
  unfold Job.__exit__. now rewrite (bind_run _ _ Hclean).
Qed.

End FailedRun.

Lemma failed_run_is_left_unstarted_witness :
  let r := Job.run no_group_cloud Fake.decode 5 ["echo"] None None None false
                   Fake.job empty_world in
  Job.started (snd (fst r)) = false
  /\ Job.clean_up no_group_cloud Fake.decode 5 (snd (fst r)) (snd r)
     = (Ok tt, snd (fst r), snd r)
  /\ with_block Job.__enter__ (Job.__exit__ no_group_cloud Fake.decode 5)
                (fun job => Job.run no_group_cloud Fake.decode 5 ["echo"] None None None
                                    false) Fake.job empty_world
     = (Raise (External "quota exceeded"), snd (fst r), snd r).
Proof.
  intros r.
  apply (@failed_run_is_left_unstarted no_group_cloud Fake.decode 5 5 ["echo"] None None
           None Fake.job (snd (fst r)) empty_world (snd r)
           (External "quota exceeded")).
  - reflexivity.
  - vm_compute. reflexivity.
Defined.

(** ** The machine configuration and the boot configuration *)

Lemma renderings_app (xs ys : list event) :
  renderings (xs ++ ys) = (renderings xs ++ renderings ys)%list.
Proof.
  induction xs as [|e xs IH]; simpl; [reflexivity|].
  destruct (rendering_of e); simpl; now rewrite IH.
Qed.

Lemma bind_ok {S A B : Type} (m : M S A) (k : A -> M S B) s w b s' w' :
  bind m k s w = (Ok b, s', w') ->
  exists a s1 w1, m s w = (Ok a, s1, w1) /\ k a s1 w1 = (Ok b, s', w').
Proof.
  unfold bind. destruct (m s w) as [[[a| |] s1] w1]; try discriminate.
  intros H. now exists a, s1, w1.
Qed.

Lemma subscript_inv (S : Type) (d : json) (key : string) (s : S) (w : world) v s' w' :
  subscript d key s w = (Ok v, s', w') ->
  json_get key d = Some v /\ s' = s /\ w' = w.
Proof.
  rewrite subscript_ok. destruct (json_get key d); [|discriminate].
  intros [= <- <- <-]. now repeat split.
Qed.

(** [rendered["metadata"]["items"][0]["value"] = value] writes the payload
    and leaves the rest of the document as it was. *)
Lemma set_startup_payload_ok (S : Type) (rendered : json) (value : string)
      (s : S) (w : world) d s' w' :
  set_startup_payload rendered value s w = (Ok d, s', w') ->
  s' = s /\ w' = w
  /\ startup_payload d = Some (JStr value)
  /\ (forall key, key <> "metadata" -> json_get key d = json_get key rendered).
Proof.
  unfold set_startup_payload. intros H.
  apply bind_ok in H. destruct H as (metadata & s1 & w1 & H1 & H).
  apply subscript_inv in H1. destruct H1 as (Hmeta & -> & ->).
  apply bind_ok in H. destruct H as (items & s2 & w2 & H2 & H).
  apply subscript_inv in H2. destruct H2 as (Hitems & -> & ->).
  destruct rendered as [| | | | |top]; try discriminate Hmeta.
  destruct metadata as [| | | | |meta]; try discriminate Hitems.
  destruct items as [| | | |[|item rest]|]; try discriminate H.
  destruct item as [| | | | |item0]; try discriminate H.
  unfold ret in H. injection H as <- <- <-.
  split; [reflexivity|]. split; [reflexivity|]. split.
  - unfold startup_payload. simpl. rewrite assoc_get_set_same. simpl.
    rewrite assoc_get_set_same. simpl. apply assoc_get_set_same.
  - intros key Hkey. simpl. now apply assoc_get_set_other.
Qed.

Section MachineConfiguration.

Variable env : environment.
Variable json_loads : string -> option json.

Lemma invoke_ok (S : Type) (c : call) (s : S) (w : world) a s' w' :
  invoke env json_loads c s w = (Ok a, s', w') ->
  answered (env w c) = Returns a /\ s' = s /\ w' = after_call env json_loads w c.
Proof.
  call_step env json_loads c s w x E; rewrite E; [|discriminate].
  intros [= <- <- <-]. now repeat split.
Qed.

Lemma rendering_one (w : world) template bindings text :
  answered (env w (render_template template bindings)) = Returns text ->
  renderings [Event (env w (render_template template bindings)) (now w)]
  = [(template, bindings, text)].
Proof. simpl. now intros ->. Qed.

Lemma cloud_init_render_ok (S : Type) vm_name script job_config e t m (s : S) w
      value s' w' :
  CloudInitConfig_render env json_loads vm_name script job_config e t m s w
  = (Ok value, s', w') ->
  s' = s
  /\ exists evs runner,
       trace w' = (trace w ++ evs)%list
       /\ renderings evs
          = [("clash_runner.sh.j2", runner_bindings vm_name job_config, runner);
             ("cloud-init.yaml.j2",
              cloud_init_bindings vm_name runner script e t m, value)].
Proof.
  unfold CloudInitConfig_render. intros H.
  apply bind_ok in H. destruct H as (runner & s1 & w1 & H1 & H).
  apply invoke_ok in H1. destruct H1 as (Ha1 & -> & ->).
  cbv zeta in H. apply (@invoke_ok S (render_template _ _)) in H.
  destruct H as (Ha2 & -> & ->).
  split; [reflexivity|]. eexists; exists runner.
  split; [rewrite !trace_after_call, <- app_assoc; reflexivity|].
  unfold runner_bindings, cloud_init_bindings.
  cbn [renderings rendering_of app]. rewrite Ha1.
  cbn [renderings rendering_of]. now rewrite Ha2.
Qed.

(** What [_create_machine_config] rendered and returns when it returns. *)
Lemma create_machine_config_ok script e t m self w d s' w' :
  Job._create_machine_config env json_loads script e t m self w = (Ok d, s', w') ->
  s' = self
  /\ exists evs bindings text rendered runner value,
       trace w' = (trace w ++ evs)%list
       /\ renderings evs
          = [("machine_config.json.j2", bindings, text);
             ("clash_runner.sh.j2",
              runner_bindings (Job.name self) (Job.job_config self), runner);
             ("cloud-init.yaml.j2",
              cloud_init_bindings (Job.name self) runner script e t m, value)]
       /\ json_loads text = Some rendered
       /\ startup_payload d = Some (JStr value)
       /\ (forall key, key <> "metadata" -> json_get key d = json_get key rendered).
Proof.
  unfold Job._create_machine_config. rewrite bind_get. intros H.
  apply bind_ok in H. destruct H as (u & s1 & w1 & H1 & H).
  apply invoke_ok in H1. destruct H1 as (_ & -> & ->).
  unfold MachineConfig_to_dict in H.
  apply bind_ok in H. destruct H as (image_response & s2 & w2 & H2 & H).
  apply invoke_ok in H2. destruct H2 as (_ & -> & ->).
  apply bind_ok in H. destruct H as (source & s3 & w3 & H3 & H).
  apply subscript_inv in H3. destruct H3 as (_ & -> & ->).
  apply bind_ok in H. destruct H as (text & s4 & w4 & H4 & H).
  apply invoke_ok in H4. destruct H4 as (Ha4 & -> & ->).
  destruct (json_loads text) as [rendered|] eqn:Hj; [|discriminate H].
  apply bind_ok in H. destruct H as (value & s5 & w5 & H5 & H).
  apply cloud_init_render_ok in H5. destruct H5 as (-> & evs & runner & Ht & Hr).
  apply set_startup_payload_ok in H. destruct H as (-> & -> & Hpay & Hkeys).
  split; [reflexivity|].
  eexists; eexists; exists text, rendered, runner, value.
  split; [rewrite Ht, !trace_after_call, <- !app_assoc; reflexivity|].
  split; [|now repeat split].
  match goal with
  | |- renderings (?a ++ ?b ++ ?c ++ evs) = _ =>
      rewrite (renderings_app a), (renderings_app b), (renderings_app c)
  end.
  rewrite Hr. simpl. now rewrite Ha4.
Qed.

End MachineConfiguration.

Lemma try_except_ok {S A : Type} (m : M S A) (h : exn -> M S A) s w a s' w' :
  (forall e s1 w1 b, fst (fst (h e s1 w1)) <> Ok b) ->
  try_except m h s w = (Ok a, s', w') -> m s w = (Ok a, s', w').
Proof.
  intros Hh. unfold try_except. destruct (m s w) as [[[x|e|] s1] w1]; try easy.
  intros H. destruct (Hh e s1 w1 a). now rewrite H.
Qed.

Lemma behaves_extends {S A : Type} (R : S -> S -> Prop) (P : call -> Prop)
      (m : M S A) s w o s' w' :
  behaves R P m -> m s w = (o, s', w') -> exists evs, trace w' = (trace w ++ evs)%list.
Proof.
  intros H E. destruct (H s w) as (_ & evs & Ht & _). rewrite E in Ht. now exists evs.
Qed.
Arguments behaves_extends {S A R P m s w o s' w'} _ _.

Section RunRenders.

Variable env : environment.
Variable json_loads : string -> option json.

(** What the prologue of [run] rendered and returns when it returns. *)
Lemma run_prepare_ok args_ e t m self w d s0 w0 :
  Job.run_prepare env json_loads args_ e t m self w = (Ok d, s0, w0) ->
  Job.name s0 = Job.name self /\ Job.job_config s0 = Job.job_config self
  /\ exists evs bindings text rendered runner value,
       trace w0 = (trace w ++ evs)%list
       /\ renderings evs
          = [("machine_config.json.j2", bindings, text);
             ("clash_runner.sh.j2",
              runner_bindings (Job.name self) (Job.job_config self), runner);
             ("cloud-init.yaml.j2",
              cloud_init_bindings (Job.name self) runner
                                  (translate_args_to_script args_)
                                  (or_empty e) (or_empty t) (or_empty m), value)]
       /\ json_loads text = Some rendered
       /\ startup_payload d = Some (JStr value)
       /\ (forall key, key <> "metadata" -> json_get key d = json_get key rendered).
Proof.
  unfold Job.run_prepare. intros H.
  apply bind_ok in H. destruct H as (u1 & s1 & w1 & H1 & H).
  apply invoke_ok in H1. destruct H1 as (_ & -> & ->).
  apply bind_ok in H. destruct H as (u2 & s2 & w2 & H2 & H).
  apply invoke_ok in H2. destruct H2 as (_ & -> & ->).
  cbv zeta in H.
  apply bind_ok in H. destruct H as (mc & s3 & w3 & H3 & H).
  apply create_machine_config_ok in H3.
  destruct H3 as (-> & evs & bindings & text & rendered & runner & value
                  & Ht & Hr & Hj & Hpay & Hkeys).
  unfold Job.set_job_status_topic, Job.set_job_status_subscription, bind, ret in H.
  injection H as <- <- <-.
  split; [reflexivity|]. split; [reflexivity|].
  eexists; exists bindings, text, rendered, runner, value.
  split; [rewrite Ht, !trace_after_call, <- !app_assoc; reflexivity|].
  split; [|now repeat split].
  match goal with
  | |- renderings (?a ++ ?b ++ evs) = _ =>
      rewrite (renderings_app a), (renderings_app b)
  end.
  simpl app. rewrite Hr. unfold or_empty. reflexivity.
Qed.

(** A successful [try] block asked for the instance template with the
    machine configuration it was given. *)
Lemma run_try_inserts fuel machine_config wait_for_result s w res s' w' :
  Job.run_try env json_loads fuel machine_config wait_for_result s w = (Ok res, s', w') ->
  exists evs,
    trace w' = (trace w ++ evs)%list
    /\ In (instanceTemplates_insert (project_id (Job.job_config s)) (Job.name s)
                                    machine_config) (calls evs).
Proof.
  unfold Job.run_try. intros H.
  apply bind_ok in H. destruct H as (topic & s1 & w1 & H1 & H).
  destruct (behaves_extends (create_status_topic_behaves env json_loads) H1)
    as [evs1 Ht1].
  apply create_status_topic_ok in H1. destruct H1 as [_ ->].
  apply bind_ok in H. destruct H as ([] & s2 & w2 & H2 & H).
  unfold Job.set_job_status_topic in H2. injection H2 as <- <-.
  apply bind_ok in H. destruct H as (sub & s3 & w3 & H3 & H).
  destruct (behaves_extends (create_status_subscription_behaves env json_loads) H3)
    as [evs3 Ht3].
  apply create_status_subscription_ok in H3. destruct H3 as [_ ->].
  apply bind_ok in H. destruct H as ([] & s4 & w4 & H4 & H).
  unfold Job.set_job_status_subscription in H4. injection H4 as <- <-.
  apply bind_ok in H. destruct H as ([] & s5 & w5 & H5 & H).
  assert (Hrest : exists evs, trace w' = (trace w5 ++ evs)%list).
  { refine (behaves_extends (R := same_job) (P := any_call) _ H).
    behave; first [ apply set_started_behaves | apply keeps_job ].
    - apply create_managed_instance_group_behaves.
    - apply attach_behaves. }
  destruct Hrest as [evs6 Ht6].
  unfold Job._create_instance_template in H5. rewrite bind_get in H5.
  apply bind_ok in H5. destruct H5 as (u & s6 & w6 & H6 & H5).
  apply invoke_ok in H6. destruct H6 as (_ & -> & ->).
  apply bind_ok in H5. destruct H5 as (op & s7 & w7 & H7 & H5).
  apply invoke_ok in H7. destruct H7 as (_ & -> & ->).
  assert (Hpoll : exists evs, trace w5
                              = (trace (after_call env json_loads
                                          (after_call env json_loads w3 get_compute_client)
                                          (instanceTemplates_insert
                                             (project_id (Job.job_config s))
                                             (Job.name s) machine_config)) ++ evs)%list).
  { refine (behaves_extends (R := eq) (P := any_call) _ H5).
    behave. apply wait_for_operation_any. }
  destruct Hpoll as [evs5 Ht5].
  eexists. split.
  - rewrite Ht6, Ht5, !trace_after_call, Ht3, Ht1, <- !app_assoc. reflexivity.
  - unfold calls. rewrite !map_app. simpl.
    apply in_or_app. right. apply in_or_app. right. right. now left.
Qed.

(** X16: when [run] returns, it rendered three templates before it asked
    for anything to be created: the machine configuration, the runner
    script and the boot configuration, the last one from the name of the
    Job, the runner script, the arguments translated to a command line,
    the environment, the target and the mounts.  The instance template
    was then asked for with the decoded machine configuration in which
    [metadata.items[0].value] is the boot configuration; the other
    top-level entries of the document are as decoded. *)
Theorem run_boots_with_rendered_configuration (fuel : nat) (args_ : list string)
        (e t m : option (list (string * string))) (wait_for_result : bool)
        (self s' : Job.t) (w w' : world) (res : option json) :
  Job.run env json_loads fuel args_ e t m wait_for_result self w = (Ok res, s', w') ->
  exists evs0 evs1 bindings text rendered runner value machine_config,
    trace w' = (trace w ++ evs0 ++ evs1)%list
    /\ renderings evs0
       = [("machine_config.json.j2", bindings, text);
          ("clash_runner.sh.j2",
           runner_bindings (Job.name self) (Job.job_config self), runner);
          ("cloud-init.yaml.j2",
           cloud_init_bindings (Job.name self) runner (translate_args_to_script args_)
                               (or_empty e) (or_empty t) (or_empty m), value)]
    /\ creations evs0 = []
    /\ json_loads text = Some rendered
    /\ In (instanceTemplates_insert (project_id (Job.job_config self)) (Job.name self)
                                    machine_config) (calls evs1)
    /\ startup_payload machine_config = Some (JStr value)
    /\ (forall key, key <> "metadata" ->
                    json_get key machine_config = json_get key rendered).
Proof.
  unfold Job.run. intros H.
  apply bind_ok in H. destruct H as (mc & s0 & w0 & H0 & H).
  destruct (run_prepare_creates env json_loads args_ e t m self w)
    as (evs0' & Ht0' & _ & Hp0 & _).
  rewrite H0 in Ht0'. simpl in Ht0'.
  apply run_prepare_ok in H0.
  destruct H0 as (Hn & Hcfg & evs0 & bindings & text & rendered & runner & value
                  & Ht0 & Hr & Hj & Hpay & Hkeys).
  rewrite Ht0 in Ht0'. apply app_inv_head in Ht0'. subst evs0'.
  apply try_except_ok in H.
  - apply run_try_inserts in H. destruct H as (evs1 & Ht1 & Hin).
    rewrite Hn, Hcfg in Hin.
    exists evs0, evs1, bindings, text, rendered, runner, value, mc.
    split; [rewrite Ht1, Ht0, <- app_assoc; reflexivity|].
    split; [exact Hr|]. split; [|now repeat split].
    destruct Hp0 as [rest Hrest]. now destruct (creations evs0).
  - intros ex s1 w1 b Hb.
    destruct (run_rollback_spec env json_loads (option json) fuel ex s1 w1)
      as (_ & [Ho|Ho] & _); rewrite Ho in Hb; discriminate.
Qed.

End RunRenders.

Lemma run_boots_witness :
  exists evs0 evs1 bindings text rendered runner value machine_config,
    trace (snd (Job.run Fake.cloud Fake.decode 5 ["echo"; "hi there"] None None None
                        false Fake.job empty_world))
    = (trace empty_world ++ evs0 ++ evs1)%list
    /\ renderings evs0
       = [("machine_config.json.j2", bindings, text);
          ("clash_runner.sh.j2",
           runner_bindings (Job.name Fake.job) (Job.job_config Fake.job), runner);
          ("cloud-init.yaml.j2",
           cloud_init_bindings (Job.name Fake.job) runner
                               (translate_args_to_script ["echo"; "hi there"])
                               (or_empty None) (or_empty None) (or_empty None), value)]
    /\ creations evs0 = []
    /\ Fake.decode text = Some rendered
    /\ In (instanceTemplates_insert (project_id (Job.job_config Fake.job))
                                    (Job.name Fake.job) machine_config) (calls evs1)
    /\ startup_payload machine_config = Some (JStr value)
    /\ (forall key, key <> "metadata" ->
                    json_get key machine_config = json_get key rendered).
Proof.
  apply (@run_boots_with_rendered_configuration Fake.cloud Fake.decode 5
           ["echo"; "hi there"] None None None false Fake.job
           (snd (fst (Job.run Fake.cloud Fake.decode 5 ["echo"; "hi there"] None None
                              None false Fake.job empty_world)))
           empty_world
           (snd (Job.run Fake.cloud Fake.decode 5 ["echo"; "hi there"] None None None
                         false Fake.job empty_world))
           None).
  vm_compute. reflexivity.
Defined.

(** ** [run_file] *)

Section RunFile.

Variable env : environment.
Variable json_loads : string -> option json.
Variable read_text : string -> answer string.

(** X17: [run_file] hands its arguments to [run] by position, and [run]
    takes them in another order.  When [run_file] returns (which it only
    does without [wait_for_result]): the command line of the boot
    configuration is made of the characters of the script, one argument
    each; the environment variables are rendered as the storage target
    and the storage target as the mounts; the env file is empty; the
    mounts given to [run_file] are used nowhere; and the value returned
    is [None]. *)
Theorem run_file_binds_by_position (fuel : nat) (script_file script : string)
        (e t m : option (list (string * string))) (wait_for_result : bool)
        (self s' : Job.t) (w w' : world) (res : option json) :
  read_text script_file = Returns script ->
  Job.run_file env json_loads read_text fuel script_file e t m wait_for_result self w
  = (Ok res, s', w') ->
  wait_for_result = false /\ res = None
  /\ (forall m', Job.run_file env json_loads read_text fuel script_file e t m'
                              wait_for_result self w = (Ok res, s', w'))
  /\ exists evs0 evs1 bindings text runner value,
       trace w' = (trace w ++ evs0 ++ evs1)%list
       /\ renderings evs0
          = [("machine_config.json.j2", bindings, text);
             ("clash_runner.sh.j2",
              runner_bindings (Job.name self) (Job.job_config self), runner);
             ("cloud-init.yaml.j2",
              cloud_init_bindings (Job.name self) runner
                                  (String.concat " " (map quoted (characters script)))
                                  [] (or_empty e) (or_empty t), value)].
Proof.
  intros Hread H.
  assert (Hfalse : wait_for_result = false).
  { destruct wait_for_result; [exfalso|reflexivity].
    unfold Job.run_file in H. rewrite Hread in H. unfold Job.run_positional in H.
    apply bind_ok in H. destruct H as (u1 & s1 & w1 & _ & H).
    apply bind_ok in H. destruct H as (u2 & s2 & w2 & _ & H).
    cbv zeta in H. rewrite bind_get in H.
    apply bind_ok in H. destruct H as (u3 & s3 & w3 & _ & H).
    apply bind_ok in H. destruct H as (mc & s4 & w4 & H4 & _).
    unfold MachineConfig_to_dict in H4.
    apply bind_ok in H4. destruct H4 as (image_response & s5 & w5 & _ & H4).
    apply bind_ok in H4. destruct H4 as (source & s6 & w6 & _ & H4).
    apply bind_ok in H4. destruct H4 as (text & s7 & w7 & _ & H4).
    destruct (json_loads text); [|discriminate H4].
    apply bind_ok in H4. destruct H4 as (value & s8 & w8 & H8 & _).
    unfold CloudInitConfig_render_without_items in H8.
    apply bind_ok in H8. destruct H8 as (runner & s9 & w9 & _ & H8).
    discriminate H8. }
  subst wait_for_result. split; [reflexivity|].
  assert (Hrun : Job.run env json_loads fuel (characters script) None
                         (Some (or_empty e)) (Some (or_empty t)) false self w
                 = (Ok res, s', w')).
  { unfold Job.run_file in H. rewrite Hread in H. exact H. }
  assert (Hany : forall m', Job.run_file env json_loads read_text fuel script_file e t
                                         m' false self w = (Ok res, s', w')).
  { intros m'. unfold Job.run_file. rewrite Hread. exact Hrun. }
  clear H. unfold Job.run in Hrun.
  apply bind_ok in Hrun. destruct Hrun as (mc & s0 & w0 & H0 & H).
  apply run_prepare_ok in H0.
  destruct H0 as (_ & _ & evs0 & bindings & text & rendered & runner & value
                  & Ht0 & Hr & _).
  apply try_except_ok in H.
  - pose proof H as Hstate. apply run_try_ok in Hstate. destruct Hstate as [_ Hres].
    destruct (behaves_extends (run_try_behaves env json_loads fuel mc false) H)
      as [evs1 Ht1].
    split; [now apply Hres|]. split; [exact Hany|].
    exists evs0, evs1, bindings, text, runner, value.
    split; [rewrite Ht1, Ht0, <- app_assoc; reflexivity|].
    rewrite Hr. unfold translate_args_to_script. rewrite translate_loop_quotes.
    reflexivity.
  - intros ex s1 w1 b Hb.
    destruct (run_rollback_spec env json_loads (option json) fuel ex s1 w1)
      as (_ & [Ho|Ho] & _); rewrite Ho in Hb; discriminate.
Qed.

Lemma to_dict_without_items vm_name job_config (s : Job.t) w :
  let r := MachineConfig_to_dict env json_loads vm_name
             (CloudInitConfig_render_without_items env json_loads vm_name job_config)
             job_config s w in
  (forall d, fst (fst r) <> Ok d)
  /\ snd (fst r) = s
  /\ exists evs, trace (snd r) = (trace w ++ evs)%list
                 /\ creations evs = [] /\ removals evs = [].
Proof.
  intros r. split; [|].
  - intros d Hd.
    assert (H : MachineConfig_to_dict env json_loads vm_name
                  (CloudInitConfig_render_without_items env json_loads vm_name
                                                        job_config)
                  job_config s w = (Ok d, snd (fst r), snd r)).
    { fold r. rewrite <- Hd. now destruct r as [[? ?] ?]. }
    unfold MachineConfig_to_dict in H.
    apply bind_ok in H. destruct H as (image_response & s5 & w5 & _ & H).
    apply bind_ok in H. destruct H as (source & s6 & w6 & _ & H).
    apply bind_ok in H. destruct H as (text & s7 & w7 & _ & H).
    destruct (json_loads text); [|discriminate H].
    apply bind_ok in H. destruct H as (value & s8 & w8 & H8 & _).
    unfold CloudInitConfig_render_without_items in H8.
    apply bind_ok in H8. destruct H8 as (runner & s9 & w9 & _ & H8).
    discriminate H8.
  - assert (H : behaves eq builds_nothing
                        (MachineConfig_to_dict env json_loads vm_name
                           (CloudInitConfig_render_without_items
                              env json_loads (S := Job.t) vm_name job_config)
                           job_config)).
    { unfold MachineConfig_to_dict, CloudInitConfig_render_without_items,
        set_startup_payload. behave. }
    destruct (H s w) as (Hs & evs & Ht & Hf).
    destruct (builds_nothing_events Hf) as [Hc Hr].
    split; [now symmetry|]. exists evs. now repeat split.
Qed.

(** X18: with [wait_for_result] set, [run_file] never returns and never
    gets to create anything: the flag arrives in [run] as the environment
    and fails the writing of the env file, before the first resource is
    asked for.  The Job is left as it was. *)
Theorem run_file_cannot_wait (fuel : nat) (script_file : string)
        (e t m : option (list (string * string))) (self : Job.t) (w : world) :
  let r := Job.run_file env json_loads read_text fuel script_file e t m true self w in
  (forall res, fst (fst r) <> Ok res)
  /\ snd (fst r) = self
  /\ exists evs, trace (snd r) = (trace w ++ evs)%list
                 /\ creations evs = [] /\ removals evs = [].
Proof.
  unfold Job.run_file. destruct (read_text script_file) as [script|what].
  - unfold Job.run_positional.
    call_step env json_loads get_subscriber self w u E; rewrite (bind_run _ _ E);
      [|simpl; split; [discriminate|]; split; [reflexivity|]; eexists;
        split; [apply trace_after_call|now split]].
    set (w1 := after_call env json_loads w get_subscriber).
    call_step env json_loads get_publisher self w1 u1 E1; rewrite (bind_run _ _ E1);
      [|simpl; split; [discriminate|]; split; [reflexivity|]; eexists;
        split; [rewrite trace_after_call; unfold w1; rewrite trace_after_call,
                  <- app_assoc; reflexivity|now split]].
    set (w2 := after_call env json_loads w1 get_publisher). cbv zeta.
    rewrite bind_get.
    call_step env json_loads get_compute_client self w2 u2 E2;
      rewrite (bind_run _ _ E2);
      [|simpl; split; [discriminate|]; split; [reflexivity|]; eexists;
        split; [rewrite trace_after_call; unfold w2; rewrite trace_after_call;
                unfold w1; rewrite trace_after_call, <- !app_assoc; reflexivity
               |now split]].
    set (w3 := after_call env json_loads w2 get_compute_client).
    destruct (to_dict_without_items (Job.name self) (Job.job_config self) self w3)
      as (Hne & Hs & evs & Ht & Hc & Hr).
    destruct (MachineConfig_to_dict env json_loads (Job.name self)
                (CloudInitConfig_render_without_items env json_loads (Job.name self)
                                                      (Job.job_config self))
                (Job.job_config self) self w3) as [[o s4] w4] eqn:E4.
    simpl in Hne, Hs, Ht. subst s4. rewrite (bind_run _ _ E4).
    assert (Htrace : trace w4
                     = (trace w ++ ([Event (env w get_subscriber) (now w)]
                                      ++ [Event (env w1 get_publisher) (now w1)]
                                      ++ [Event (env w2 get_compute_client) (now w2)])
                                ++ evs)%list).
    { rewrite Ht. unfold w3. rewrite trace_after_call. unfold w2.
      rewrite trace_after_call. unfold w1. rewrite trace_after_call.
      rewrite <- !app_assoc. reflexivity. }
    destruct o as [d| |]; [now destruct (Hne d)| |]; simpl;
      (split; [discriminate|]); (split; [reflexivity|]); eexists;
      (split; [exact Htrace|]); rewrite creations_app, removals_app, Hc, Hr;
      split; reflexivity.
  - simpl. split; [discriminate|]. split; [reflexivity|]. exists [].
    now rewrite app_nil_r.
Qed.

End RunFile.

Example run_file_spells_the_script :
  translate_args_to_script (characters "ls -l") = "l s ' ' - l".
Proof. reflexivity. Qed.

Example run_file_fails_when_asked_to_wait :
  fst (fst (Job.run_file Fake.cloud Fake.decode one_script 5 "job.sh" None None None true
                         Fake.job empty_world))
  = Raise (External "AttributeError").
Proof. vm_compute. reflexivity. Qed.

Lemma run_file_binds_by_position_witness :
  let r := Job.run_file Fake.cloud Fake.decode one_script 5 "job.sh"
                        (Some [("A", "1")]) (Some [("out", "gs://b")]) None false
                        Fake.job empty_world in
  false = false /\ @None json = None
  /\ (forall m', Job.run_file Fake.cloud Fake.decode one_script 5 "job.sh"
                              (Some [("A", "1")]) (Some [("out", "gs://b")]) m' false
                              Fake.job empty_world
                 = (Ok None, snd (fst r), snd r))
  /\ exists evs0 evs1 bindings text runner value,
       trace (snd r) = (trace empty_world ++ evs0 ++ evs1)%list
       /\ renderings evs0
          = [("machine_config.json.j2", bindings, text);
             ("clash_runner.sh.j2",
              runner_bindings (Job.name Fake.job) (Job.job_config Fake.job), runner);
             ("cloud-init.yaml.j2",
              cloud_init_bindings (Job.name Fake.job) runner
                                  (String.concat " " (map quoted (characters "ls -l")))
                                  [] (or_empty (Some [("A", "1")]))
                                  (or_empty (Some [("out", "gs://b")])), value)].
Proof.
  intros r.
  apply (@run_file_binds_by_position Fake.cloud Fake.decode one_script 5 "job.sh"
           "ls -l" (Some [("A", "1")]) (Some [("out", "gs://b")]) None false Fake.job
           (snd (fst r)) empty_world (snd r) None).
  - reflexivity.
  - vm_compute. reflexivity.
Defined.

(** ** Where the [ValueError] that [run] builds comes from *)

Lemma raises_only_silent {S A : Type} (Q : exn -> Prop) (m : M S A) :
  (forall s w e, fst (fst (m s w)) <> Raise e) -> raises_only Q m.
Proof. intros H s w e He. now destruct (H s w e). Qed.

Lemma raises_only_raise {S A : Type} (Q : exn -> Prop) (e : exn) :
  Q e -> raises_only Q (@raise S A e).
Proof. intros He s w e' [= <-]. exact He. Qed.

Lemma raises_only_subscript (S : Type) (Q : exn -> Prop) d key :
  Q (KeyError key) -> Q TypeError -> raises_only Q (@subscript S d key).
Proof.
  intros Hk Ht s w e. rewrite subscript_ok.
  destruct (json_get key d); [discriminate|]. simpl.
  intros [= <-]. now destruct d.
Qed.

Lemma raises_only_bind {S A B : Type} (Q : exn -> Prop) (m : M S A) (k : A -> M S B) :
  raises_only Q m -> (forall a, raises_only Q (k a)) -> raises_only Q (bind m k).
Proof.
  intros Hm Hk s w e. specialize (Hm s w).
  destruct (m s w) as [[o s1] w1] eqn:E. rewrite (bind_run m k E). simpl in Hm.
  destruct o as [a| |]; simpl; [apply Hk| |discriminate].
  intros [= <-]. now apply Hm.
Qed.

Lemma raises_only_try_except {S A : Type} (Q : exn -> Prop) (m : M S A)
      (h : exn -> M S A) :
  (forall e, raises_only Q (h e)) -> raises_only Q (try_except m h).
Proof.
  intros Hh s w e.
  destruct (m s w) as [[o s1] w1] eqn:E. rewrite (try_except_run m h E).
  destruct o as [a|e'|]; simpl; [discriminate|apply Hh|discriminate].
Qed.

Section ValueErrors.

Variable env : environment.
Variable json_loads : string -> option json.

Lemma raises_only_invoke (S : Type) (Q : exn -> Prop) (c : call) :
  (forall what, Q (External what)) -> raises_only Q (@invoke env json_loads S c).
Proof.
  intros HQ s w e.
  call_step env json_loads c s w a E; rewrite E; simpl; [discriminate|].
  intros [= <-]. apply HQ.
Qed.

End ValueErrors.

Ltac raises_step :=
  match goal with
  | |- raises_only _ (ret _) => now apply raises_only_silent
  | |- raises_only _ out_of_fuel => now apply raises_only_silent
  | |- raises_only _ get => now apply raises_only_silent
  | |- raises_only _ time_time => now apply raises_only_silent
  | |- raises_only _ (Job.set_started _) => now apply raises_only_silent
  | |- raises_only _ (Job.set_job_status_topic _) => now apply raises_only_silent
  | |- raises_only _ (Job.set_job_status_subscription _) =>
      now apply raises_only_silent
  | |- raises_only _ (raise _) => apply raises_only_raise; exact I
  | |- raises_only _ (subscript _ _) => apply raises_only_subscript; exact I
  | |- raises_only _ (invoke ?e ?j ?c) =>
      refine (@raises_only_invoke e j _ _ c _); intro; exact I
  | |- raises_only _ (bind _ _) => apply raises_only_bind; [|intro]
  | |- raises_only _ (try_except _ _) => apply raises_only_try_except; intro
  | |- raises_only _ (if ?b then _ else _) => destruct b
  | |- raises_only _ (match ?x with _ => _ end) => destruct x
  end.

Ltac raises := repeat raises_step.

Section RunValueError.

Variable env : environment.
Variable json_loads : string -> option json.

Lemma wait_for_operation_no_value_error fuel operation is_global_op :
  raises_only not_raised_value_error
              (Job._wait_for_operation env json_loads fuel operation is_global_op).
Proof.
  unfold Job._wait_for_operation. raises.
  induction fuel as [|fuel IH]; simpl; raises. exact IH.
Qed.

Lemma create_instance_template_no_value_error fuel machine_config :
  raises_only not_raised_value_error
              (Job._create_instance_template env json_loads fuel machine_config).
Proof.
  unfold Job._create_instance_template. raises.
  apply wait_for_operation_no_value_error.
Qed.

Lemma create_managed_instance_group_no_value_error fuel size :
  raises_only not_raised_value_error
              (Job._create_managed_instance_group env json_loads fuel size).
Proof.
  unfold Job._create_managed_instance_group. raises.
  apply wait_for_operation_no_value_error.
Qed.

Lemma attach_loop_no_value_error timeout start fuel :
  raises_only not_raised_value_error (Job.attach_loop env json_loads fuel timeout start).
Proof.
  induction fuel as [|fuel IH]; simpl; unfold Job._pull_message; raises. exact IH.
Qed.

Lemma run_prepare_no_value_error args_ e t m :
  raises_only not_raised_value_error (Job.run_prepare env json_loads args_ e t m).
Proof.
  unfold Job.run_prepare, Job._create_machine_config, MachineConfig_to_dict,
    CloudInitConfig_render, set_startup_payload.
  raises.
Qed.

Lemma create_status_topic_no_value_error :
  raises_only not_raised_value_error (Job._create_status_topic env json_loads).
Proof. unfold Job._create_status_topic. raises. Qed.

(** The only [ValueError] of the subscription step: the topic of the Job
    is not among the topics listed. *)
Lemma create_status_subscription_value_error s w msg s1 w1 :
  Job._create_status_subscription env json_loads s w = (Raise (ValueError msg), s1, w1) ->
  msg = "Could not find status topic for job " ++ Job.name s
  /\ s1 = s
  /\ w1 = after_call env json_loads w
            (list_topics ("projects/" ++ project_id (Job.job_config s))).
Proof.
  unfold Job._create_status_subscription. rewrite bind_get. cbv zeta.
  match goal with
  | |- context [invoke env json_loads ?c] =>
      call_step env json_loads c s w topics E; rewrite (bind_run _ _ E)
  end; [|discriminate].
  match goal with
  | |- context [if ?b then _ else _] => destruct b
  end.
  - unfold raise. intros [= <- <- <-]. now repeat split.
  - match goal with
    | |- context [bind (invoke env json_loads ?c) _ _ ?w'] =>
        call_step env json_loads c s w' u E2; rewrite (bind_run _ _ E2)
    end; discriminate.
Qed.

Lemma run_try_value_error fuel machine_config wait_for_result s w msg s1 w1 :
  Job.run_try env json_loads fuel machine_config wait_for_result s w
  = (Raise (ValueError msg), s1, w1) ->
  msg = "Could not find status topic for job " ++ Job.name s
  /\ Job.started s1 = Job.started s
  /\ Job.job_status_topic s1
     = Some (topic_path (project_id (Job.job_config s)) (Job.name s))
  /\ Job.job_status_subscription s1 = Job.job_status_subscription s
  /\ exists evs, trace w1 = (trace w ++ evs)%list
                 /\ creations evs = [Topic] /\ removals evs = [].
Proof.
  unfold Job.run_try. intros H.
  pose proof (create_status_topic_no_value_error s w) as Hq1.
  destruct (create_status_topic_creates env json_loads s w)
    as (evs1 & Ht1 & Hr1 & _ & Hc1).
  destruct (Job._create_status_topic env json_loads s w) as [[o1 s1'] w1'] eqn:E1.
  rewrite (bind_run _ _ E1) in H. simpl in Hq1, Ht1, Hc1.
  destruct o1 as [topic|e1|]; [|injection H as -> _ _; now destruct (Hq1 _ eq_refl)
                               |discriminate H].
  specialize (Hc1 topic eq_refl).
  apply create_status_topic_ok in E1. destruct E1 as [-> ->].
  rewrite bind_run with (1 := eq_refl (Job.set_job_status_topic _ s w1')) in H.
  cbv [Job.set_job_status_topic] in H.
  match type of H with
  | context [bind (Job._create_status_subscription env json_loads) _ ?x _] =>
      set (s2 := x) in *
  end.
  destruct (Job._create_status_subscription env json_loads s2 w1')
    as [[o3 s3] w3] eqn:E3.
  rewrite (bind_run _ _ E3) in H.
  destruct o3 as [sub|e3|]; [| |discriminate H].
  - exfalso.
    apply create_status_subscription_ok in E3. destruct E3 as [-> ->].
    rewrite bind_run with (1 := eq_refl (Job.set_job_status_subscription _ s2 w3)) in H.
    cbv [Job.set_job_status_subscription] in H.
    match type of H with
    | context [bind (Job._create_instance_template env json_loads fuel machine_config)
                    _ ?x _] =>
        set (s4 := x) in *;
        pose proof (create_instance_template_no_value_error fuel machine_config
                                                            s4 w3) as Hq5;
        destruct (create_instance_template_behaves env json_loads fuel machine_config
                                                   s4 w3) as [Hs5 _];
        destruct (Job._create_instance_template env json_loads fuel machine_config
                                                s4 w3)
          as [[o5 s5] w5] eqn:E5
    end.
    simpl in Hs5, Hq5. subst s5. rewrite (bind_run _ _ E5) in H.
    destruct o5 as [[]|e5|]; [|injection H as -> _ _; exact (Hq5 _ eq_refl)
                              |discriminate H].
    pose proof (create_managed_instance_group_no_value_error fuel 1 s4 w5) as Hq6.
    destruct (create_managed_instance_group_behaves env json_loads fuel 1 s4 w5)
      as [Hs6 _].
    destruct (Job._create_managed_instance_group env json_loads fuel 1 s4 w5)
      as [[o6 s6] w6] eqn:E6.
    simpl in Hs6, Hq6. subst s6. rewrite (bind_run _ _ E6) in H.
    destruct o6 as [[]|e6|]; [|injection H as -> _ _; exact (Hq6 _ eq_refl)
                              |discriminate H].
    rewrite bind_run with (1 := eq_refl (Job.set_started true s4 w6)) in H.
    cbv [Job.set_started] in H.
    destruct wait_for_result; [|discriminate H].
    rewrite bind_get in H.
    match type of H with
    | context [bind (Job.attach env json_loads fuel ?tmo) _ ?x _] =>
        pose proof (attach_started env json_loads fuel tmo x w6 eq_refl) as Hatt;
        destruct (Job.attach env json_loads fuel tmo x w6) as [[o8 s8] w8] eqn:E8
    end.
    rewrite (bind_run _ _ E8) in H.
    destruct o8 as [status|e8|]; try discriminate H.
    injection H as -> _ _.
    destruct (answered (env w6 get_subscriber)); [|discriminate Hatt].
    symmetry in Hatt.
    pose proof attach_loop_no_value_error as Hq. unfold raises_only in Hq.
    exact (Hq _ _ _ _ _ (ValueError msg) (f_equal (fun r => fst (fst r)) Hatt)).
  - injection H as -> <- <-.
    apply create_status_subscription_value_error in E3.
    destruct E3 as (-> & -> & ->).
    split; [reflexivity|]. split; [reflexivity|]. split; [reflexivity|].
    split; [reflexivity|].
    exists (evs1 ++ [Event (env w1' (list_topics ("projects/"
                                                   ++ project_id (Job.job_config s2))))
                           (now w1')])%list.
    rewrite trace_after_call, Ht1, <- app_assoc, creations_app, removals_app, Hc1, Hr1.
    repeat split.
Qed.

Lemma run_prepare_resets args_ e t m self w d s0 w0 :
  Job.run_prepare env json_loads args_ e t m self w = (Ok d, s0, w0) ->
  Job.job_status_topic s0 = None /\ Job.job_status_subscription s0 = None
  /\ Job.started s0 = Job.started self /\ Job.name s0 = Job.name self.
Proof.
  unfold Job.run_prepare. intros H.
  apply bind_ok in H. destruct H as (u1 & s1 & w1 & H1 & H).
  apply invoke_ok in H1. destruct H1 as (_ & -> & ->).
  apply bind_ok in H. destruct H as (u2 & s2 & w2 & H2 & H).
  apply invoke_ok in H2. destruct H2 as (_ & -> & ->).
  cbv zeta in H.
  apply bind_ok in H. destruct H as (mc & s3 & w3 & H3 & H).
  apply create_machine_config_ok in H3. destruct H3 as (-> & _).
  unfold Job.set_job_status_topic, Job.set_job_status_subscription, bind, ret in H.
  injection H as _ <- _. now repeat split.
Qed.

(** X19: when [run] on a Job that was not started ends with an exception
    built by a [raise ValueError(...)] statement of [clash.py], it is the
    one of [_create_status_subscription]: the topic just created was not
    among the topics the project listed.  Its message names the Job; by
    then [run] had asked for the creation of the topic and of nothing
    else, and the rollback asks for the removal of the topic and of
    nothing else; the Job is left unstarted and without a subscription.
    For Python [json.JSONDecodeError] is a [ValueError] as well, and [run]
    raises it where the machine configuration or a status message does
    not decode (see [run_fails_to_decode]): that exception is
    [JSONDecodeError] here and is not the subject of this statement. *)
Theorem value_error_of_run (fuel : nat) (args_ : list string)
        (e t m : option (list (string * string))) (wait_for_result : bool)
        (self s' : Job.t) (w w' : world) (msg : string) :
  Job.started self = false ->
  Job.run env json_loads fuel args_ e t m wait_for_result self w
  = (Raise (ValueError msg), s', w') ->
  msg = "Could not find status topic for job " ++ Job.name self
  /\ Job.started s' = false /\ Job.job_status_subscription s' = None
  /\ exists evs, trace w' = (trace w ++ evs)%list
                 /\ creations evs = [Topic] /\ removals evs = [Topic].
Proof.
  intros Hst. unfold Job.run. intros H.
  pose proof (run_prepare_no_value_error args_ e t m self w) as Hq0.
  destruct (run_prepare_creates env json_loads args_ e t m self w)
    as (evs0 & Ht0 & Hr0 & Hp0 & _).
  destruct (Job.run_prepare env json_loads args_ e t m self w) as [[o0 s0] w0] eqn:E0.
  simpl in Hq0, Ht0. rewrite (bind_run _ _ E0) in H.
  assert (Hc0 : creations evs0 = [])
    by (destruct Hp0 as [rest Hrest]; now destruct (creations evs0)).
  destruct o0 as [machine_config|e0|];
    [|injection H as -> _ _; now destruct (Hq0 _ eq_refl)|discriminate H].
  apply run_prepare_resets in E0. destruct E0 as (Htop0 & Hsub0 & Hst0 & Hn0).
  destruct (Job.run_try env json_loads fuel machine_config wait_for_result s0 w0)
    as [[o1 s1] w1] eqn:E1.
  rewrite (try_except_run _ _ E1) in H.
  destruct o1 as [res|ex|]; try discriminate H.
  destruct (run_rollback_spec env json_loads (option json) fuel ex s1 w1)
    as (Hs & Ho & evs2 & bg & bt & bs & Ht2 & Hr2 & Hg & Hts).
  destruct (run_rollback_creates_nothing env json_loads (option json) fuel ex s1 w1)
    as (_ & evs2' & Ht2' & Hc2).
  rewrite H in Hs, Ho, Ht2, Ht2', Hts. simpl in Hs, Ho, Ht2, Ht2', Hts. subst s'.
  rewrite Ht2 in Ht2'. apply app_inv_head in Ht2'. subst evs2'.
  destruct Ho as [Ho|Ho]; [|discriminate Ho]. injection Ho as <-.
  destruct (Hts eq_refl) as [Hbt Hbs].
  apply run_try_value_error in E1.
  destruct E1 as (-> & Hst1 & Htop1 & Hsub1 & evs1 & Ht1 & Hc1 & Hr1).
  rewrite Hst0, Hst in Hst1. rewrite Hsub0 in Hsub1.
  rewrite Htop1 in Hbt. rewrite Hsub1 in Hbs. simpl in Hbt, Hbs. subst bt bs.
  assert (Hbg : bg = false)
    by (destruct bg; [rewrite (Hg eq_refl) in Hst1; discriminate|reflexivity]).
  subst bg. simpl in Hr2.
  split; [now rewrite Hn0|]. split; [exact Hst1|]. split; [exact Hsub1|].
  exists (evs0 ++ evs1 ++ evs2)%list.
  rewrite Ht2, Ht1, Ht0, <- !app_assoc, !creations_app, !removals_app,
    Hc0, Hc1, Hc2, Hr0, Hr1, Hr2.
  repeat split.
Qed.

End RunValueError.

Example run_without_listed_topic :
  let r := Job.run unlisted_cloud Fake.decode 5 ["echo"] None None None false
                   Fake.job empty_world in
  fst (fst r) = Raise (ValueError "Could not find status topic for job job")
  /\ calls (trace (snd r))
     = [get_subscriber; get_publisher; get_compute_client;
        images_getFromFamily "gce-uefi-images" "cos-stable";
        render_template "machine_config.json.j2"
          [("vm_name", JStr "job"); ("source_image", JStr "image-link");
           ("project_id", JStr "my-gcp-project");
           ("machine_type", JStr "n1-standard-4"); ("region", JStr "europe-west1");
           ("scopes", JList [JStr "https://www.googleapis.com/auth/compute"]);
           ("subnetwork", JStr "default-europe-west1"); ("preemptible", JBool false);
           ("service_account", JStr "default"); ("labels", JObj [])];
        render_template "clash_runner.sh.j2"
          [("vm_name", JStr "job"); ("zone", JStr "europe-west1-b");
           ("image", JStr "google/cloud-sdk"); ("privileged", JBool false)];
        render_template "cloud-init.yaml.j2"
          [("vm_name", JStr "job"); ("clash_runner_script", JStr "clash_runner.sh.j2");
           ("gcs_target", JObj []); ("gcs_mounts", JObj []); ("script", JStr "echo");
           ("env_var_file", JStr "")];
        create_topic "projects/my-gcp-project/topics/job" (Some ["europe-west1"]);
        list_topics "projects/my-gcp-project";
        delete_topic (Some "projects/my-gcp-project/topics/job")].
Proof. vm_compute. split; reflexivity. Qed.

(** A machine configuration that does not decode: [run] fails before it
    creates anything; for Python this exception is a [ValueError] too. *)
Example run_fails_to_decode :
  let r := Job.run Fake.cloud (fun _ => None) 5 ["echo"] None None None false
                   Fake.job empty_world in
  fst (fst r) = Raise JSONDecodeError
  /\ creations (trace (snd r)) = [] /\ removals (trace (snd r)) = [].
Proof. vm_compute. repeat split. Qed.

Lemma value_error_of_run_witness :
  let r := Job.run unlisted_cloud Fake.decode 5 ["echo"] None None None false
                   Fake.job empty_world in
  "Could not find status topic for job job"
  = "Could not find status topic for job " ++ Job.name Fake.job
  /\ Job.started (snd (fst r)) = false
  /\ Job.job_status_subscription (snd (fst r)) = None
  /\ exists evs, trace (snd r) = (trace empty_world ++ evs)%list
                 /\ creations evs = [Topic] /\ removals evs = [Topic].
Proof.
  intros r.
  apply (@value_error_of_run unlisted_cloud Fake.decode 5 ["echo"] None None None false
           Fake.job (snd (fst r)) empty_world (snd r)
           "Could not find status topic for job job").
  - reflexivity.
  - vm_compute. reflexivity.
Defined.

(** ** The code lists of two groups *)

Lemma nth_heap_append_same (h : list (list json)) (x : json) : forall r,
  (r < List.length h)%nat -> nth r (heap_append h r x) [] = (nth r h [] ++ [x])%list.
Proof.
  induction h as [|l h IH]; intros [|r] H; simpl in *; try lia; [reflexivity|].
  apply IH. lia.
Qed.

Lemma nth_heap_append_other (h : list (list json)) (x : json) : forall r i,
  i <> r -> nth i (heap_append h r x) [] = nth i h [].
Proof.
  induction h as [|l h IH]; intros [|r] [|i] H; simpl; try reflexivity;
    try (now destruct H). apply IH. congruence.
Qed.

(** X20: every [JobGroup] gets a code list of its own when it is built: a
    new, empty list; building it makes no call.  A code appended for one
    group (by the callback [run] registers) shows in that group's list
    and leaves the list of a group built before as it was. *)
Theorem groups_keep_separate_code_lists (St : Type) (name1 name2 : string)
        (factory1 factory2 : JobFactory.t) (s : St) (w : world) (code : json) :
  exists g1 g2 w1 w2,
    JobGroup.init name1 factory1 s w = (Ok g1, s, w1)
    /\ JobGroup.init name2 factory2 s w1 = (Ok g2, s, w2)
    /\ trace w2 = trace w
    /\ JobGroup.jobs_status_codes g1 <> JobGroup.jobs_status_codes g2
    /\ recorded g1 w2 = [] /\ recorded g2 w2 = []
    /\ (forall i, (i < List.length (lists w))%nat -> nth i (lists w2) [] = nth i (lists w) [])
    /\ let w3 := apply_callback (list_append (JobGroup.jobs_status_codes g2)) code w2 in
       recorded g2 w3 = [code] /\ recorded g1 w3 = [].
Proof.
  unfold JobGroup.init, new_list, bind, ret. simpl.
  eexists; eexists; eexists; eexists.
  split; [reflexivity|]. split; [reflexivity|]. simpl.
  assert (Hlen : List.length (lists w ++ [[]]) = S (List.length (lists w)))
    by (rewrite length_app; simpl; lia).
  assert (H1 : nth (List.length (lists w)) ((lists w ++ [[]]) ++ [[]]) []
               = @nil json).
  { rewrite app_nth1 by (rewrite Hlen; lia). apply nth_middle_len. }
  assert (H2 : nth (List.length (lists w ++ [[]])) ((lists w ++ [[]]) ++ [[]]) []
               = @nil json) by apply nth_middle_len.
  split; [reflexivity|]. split; [rewrite Hlen; lia|].
  unfold recorded. simpl. split; [exact H1|]. split; [exact H2|]. split.
  - intros i Hi. rewrite !app_nth1; try reflexivity; rewrite ?length_app; simpl; lia.
  - split.
    + rewrite nth_heap_append_same, H2; [reflexivity|].
      rewrite !length_app. simpl. lia.
    + rewrite nth_heap_append_other; [exact H1|]. rewrite Hlen. lia.
Qed.

(** * C3 and C9: [attach] and its timeout *)

Lemma attach_run_ext json_loads fuel sub (within within' : Z -> bool) late o evs finish :
  (forall t, within t = within' t) ->
  attach_run json_loads fuel sub within late o evs finish ->
  attach_run json_loads fuel sub within' late o evs finish.
Proof.
  intros Hext [Hw Ho]. split.
  - apply Forall_impl with (2 := Hw). intros t. now rewrite Hext.
  - destruct o as [payload|e|]; [exact Ho| |].
    + destruct e; try exact Ho. now rewrite <- Hext.
    + now rewrite <- Hext.
Qed.

(** A run in which no call raised and no pull carried a message ended
    with the timeout error or for lack of fuel. *)
Lemma attach_run_idle json_loads fuel sub within late o evs finish :
  attach_run json_loads fuel sub within late o evs finish ->
  Forall (fun e => failure_of e = None) evs ->
  Forall idle_pull (pulls evs) ->
  within finish = false ->
  o = Raise (TimeoutError late).
Proof.
  intros [_ Ho] Hnf Hidle Hfin.
  assert (Hlast : forall idle p m rest,
             pulls evs = (idle ++ [p])%list -> pull_messages p = m :: rest -> False).
  { intros idle p m rest Heq Hm. rewrite Heq in Hidle.
    apply Forall_app in Hidle. destruct Hidle as [_ Hp].
    inversion Hp as [|? ? Hi _]; subst. unfold idle_pull in Hi. congruence. }
  destruct o as [payload|e|].
  - destruct Ho as (idle & p & m & rest & Heq & _ & Hm & _). now destruct (Hlast _ _ _ _ Heq Hm).
  - destruct e; try contradiction.
    + destruct Ho as (_ & _ & _ & ->). reflexivity.
    + destruct Ho as (idle & p & m & rest & Heq & _ & Hm & _).
      now destruct (Hlast _ _ _ _ Heq Hm).
    + destruct Ho as [(before & l & -> & _ & Hl) _].
      apply Forall_app in Hnf. destruct Hnf as [_ Hnf].
      inversion Hnf; subst. congruence.
  - destruct Ho as (_ & _ & _ & Hw). congruence.
Qed.

Section AttachClaims.

Variable env : environment.
Variable json_loads : string -> option json.

(** C3 (amended): on a started Job, [attach] with a non-zero timeout [T]
    asks for the subscriber client, reads the clock once ([start]) and
    then checks the elapsed time only before each pull.  By outcome:
    - every pull is issued no later than [T] seconds after [start], on the
      Job's subscription, for one message, with a wait of up to 30 seconds;
    - it returns the decoded payload of the first message of the first
      pull that carries one, after acknowledging it; that pull may end,
      and so the message may be received, after [T] seconds;
    - it raises the job-timeout error when every pull so far returned
      without a message and the check before the next pull finds more
      than [T] seconds elapsed: if no call raised, no pull carried a
      message and the run ended later than [T] seconds after [start], the
      outcome is the job-timeout error;
    - it is still pulling when the fuel is spent only after [fuel] pulls
      without a message, with no more than [T] seconds elapsed;
    - any other exception is the one of its last call or of the decoding
      of the message. *)
Theorem attach_checks_timeout_before_each_pull (fuel : nat) (T : Z)
        (self : Job.t) (w : world) :
  T <> 0 ->
  Job.started self = true ->
  let r := Job.attach env json_loads fuel (Some T) self w in
  let w1 := after_call env json_loads w get_subscriber in
  let start := now w1 in
  let late := "The job took longer than " ++ str_int T ++ " seconds" in
  snd (fst r) = self
  /\ match answered (env w get_subscriber) with
     | Raises what => r = (Raise (External what), self, w1)
     | Returns _ =>
         exists evs,
           trace (snd r) = (trace w1 ++ evs)%list
           /\ attach_run json_loads fuel (Job.job_status_subscription self)
                         (fun t => Z.leb (t - start) T) late
                         (fst (fst r)) evs (now (snd r))
           /\ (Forall (fun e => failure_of e = None) evs ->
               Forall idle_pull (pulls evs) ->
               now (snd r) - start > T ->
               fst (fst r) = Raise (TimeoutError late))
     end.
Proof.
  intros HT Hst r w1 start late. subst r.
  assert (Htruthy : truthy_int (Some T) = true).
  { unfold truthy_int. now rewrite (proj2 (Z.eqb_neq T 0) HT). }
  rewrite (attach_started env json_loads fuel (Some T) self w Hst).
  destruct (answered (env w get_subscriber)) as [u|what]; [|split; reflexivity].
  fold w1. fold start.
  destruct (attach_loop_total env json_loads (Some T) start fuel self w1)
    as (Hs & evs & Ht & Ho).
  split; [exact Hs|]. exists evs. split; [exact Ht|].
  assert (Hrun : attach_run json_loads fuel (Job.job_status_subscription self)
                   (fun t => Z.leb (t - start) T) late
                   (fst (fst (Job.attach_loop env json_loads fuel (Some T) start self w1)))
                   evs
                   (now (snd (Job.attach_loop env json_loads fuel (Some T) start self w1)))).
  { apply attach_run_ext with (2 := Ho). intros t. unfold attach_goes_on.
    now rewrite Htruthy. }
  split; [exact Hrun|].
  intros Hnf Hidle Hlate.
  apply (attach_run_idle Hrun Hnf Hidle). apply Z.leb_gt. lia.
Qed.

(** C9: [attach] with a timeout of 0 seconds does what [attach] without a
    timeout does, in every world, and never raises the timeout error.  On
    a started Job it pulls until a pull carries a message: it returns the
    payload of the first message (or fails to decode it), it stops on an
    exception of its last call, and otherwise every pull the fuel allows
    is made: a run cut for lack of fuel has made [fuel] pulls, all of them
    without a message.  On a bus that stays silent the run is cut for
    every fuel, after the request for the client and [fuel] pulls. *)
Theorem attach_zero_timeout_is_no_timeout (fuel : nat) (self : Job.t) (w : world) :
  let r := Job.attach env json_loads fuel (Some 0) self w in
  let w1 := after_call env json_loads w get_subscriber in
  r = Job.attach env json_loads fuel None self w
  /\ (forall msg, fst (fst r) <> Raise (TimeoutError msg))
  /\ (Job.started self = true ->
      snd (fst r) = self
      /\ match answered (env w get_subscriber) with
         | Raises what => r = (Raise (External what), self, w1)
         | Returns _ =>
             exists evs,
               trace (snd r) = (trace w1 ++ evs)%list
               /\ attach_run json_loads fuel (Job.job_status_subscription self)
                             (fun _ => true) (timeout_message (Some 0))
                             (fst (fst r)) evs (now (snd r))
         end)
  /\ (Job.started self = true ->
      (forall w' c, exists a, answered (env w' c) = Returns a) ->
      (forall w' s, answered (env w' (pull s 1 false 30)) = Returns []) ->
      fst (fst r) = OutOfFuel
      /\ exists evs,
           trace (snd r) = (trace w ++ evs)%list
           /\ calls evs
              = get_subscriber
                  :: repeat (the_pull (Job.job_status_subscription self)) fuel).
Proof.
  intros r w1.
  assert (Heq : r = Job.attach env json_loads fuel None self w).
  { subst r. unfold Job.attach. rewrite !bind_get.
    destruct (Job.started self); cbv [negb]; [|reflexivity].
    call_step env json_loads get_subscriber self w u E; rewrite !(bind_run _ _ E);
      [|reflexivity].
    rewrite !bind_time_time. now apply attach_loop_falsy_timeout. }
  assert (Hrun : Job.started self = true ->
            snd (fst r) = self
            /\ match answered (env w get_subscriber) with
               | Raises what => r = (Raise (External what), self, w1)
               | Returns _ =>
                   exists evs,
                     trace (snd r) = (trace w1 ++ evs)%list
                     /\ attach_run json_loads fuel (Job.job_status_subscription self)
                                   (fun _ => true) (timeout_message (Some 0))
                             (fst (fst r)) evs (now (snd r))
               end).
  { intros Hst. subst r.
    rewrite (attach_started env json_loads fuel (Some 0) self w Hst).
    destruct (answered (env w get_subscriber)) as [u|what]; [|split; reflexivity].
    fold w1.
    destruct (attach_loop_total env json_loads (Some 0) (now w1) fuel self w1)
      as (Hs & evs & Ht & Ho).
    split; [exact Hs|]. exists evs. split; [exact Ht|].
    destruct Ho as [Hw Ho]. split.
    - apply Forall_impl with (2 := Hw). reflexivity.
    - destruct (fst (fst (Job.attach_loop env json_loads fuel (Some 0) (now w1) self w1)))
        as [payload|e|]; [exact Ho| |].
      + destruct e; exact Ho.
      + destruct Ho as (H1 & H2 & H3 & _). now repeat split. }
  split; [exact Heq|]. split; [|split; [exact Hrun|]].
  - intros msg Hmsg. 
    destruct (Job.started self) eqn:Hst.
    + destruct (Hrun eq_refl) as [_ H].
      destruct (answered (env w get_subscriber)) as [u|what].
      * destruct H as (evs & _ & _ & Ho). rewrite Hmsg in Ho.
        destruct Ho as (_ & _ & Hf & _). discriminate Hf.
      * rewrite H in Hmsg. discriminate Hmsg.
    + subst r. unfold Job.attach in Hmsg. rewrite bind_get, Hst in Hmsg.
      discriminate Hmsg.
  - intros Hst Hok Hpull. destruct (Hrun Hst) as [_ H].
    destruct (Hok w get_subscriber) as [u Hu]. rewrite Hu in H.
    destruct H as (evs & Ht & Hw & Ho).
    assert (Hout : fst (fst r) = OutOfFuel).
    { subst r. rewrite (attach_started env json_loads fuel (Some 0) self w Hst), Hu.
      now apply attach_loop_blocks. }
    split; [exact Hout|]. rewrite Hout in Ho. destruct Ho as (_ & _ & Hc & _).
    exists (Event (env w get_subscriber) (now w) :: evs). split.
    + rewrite Ht. unfold w1. rewrite trace_after_call, <- app_assoc. reflexivity.
    + simpl. now rewrite Hc.
Qed.

End AttachClaims.

Lemma attach_checks_timeout_witness :
  let r := Job.attach late_cloud Fake.decode 5 (Some 10) Fake.started_job empty_world in
  let w1 := after_call late_cloud Fake.decode empty_world get_subscriber in
  let late := "The job took longer than 10 seconds" in
  snd (fst r) = Fake.started_job
  /\ exists evs,
       trace (snd r) = (trace w1 ++ evs)%list
       /\ attach_run Fake.decode 5 (Job.job_status_subscription Fake.started_job)
                     (fun t => Z.leb (t - now w1) 10) late
                     (fst (fst r)) evs (now (snd r))
       /\ (Forall (fun e => failure_of e = None) evs ->
           Forall idle_pull (pulls evs) ->
           now (snd r) - now w1 > 10 ->
           fst (fst r) = Raise (TimeoutError late)).
Proof.
  apply (@attach_checks_timeout_before_each_pull late_cloud Fake.decode 5 10
           Fake.started_job empty_world).
  - lia.
  - reflexivity.
Defined.

Lemma attach_zero_timeout_witness :
  let r := Job.attach Fake.cloud Fake.decode 4 (Some 0) Fake.started_job empty_world in
  fst (fst r) = OutOfFuel
  /\ exists evs,
       trace (snd r) = (trace empty_world ++ evs)%list
       /\ calls evs
          = get_subscriber
              :: repeat (the_pull (Job.job_status_subscription Fake.started_job)) 4.
Proof.
  apply (@attach_zero_timeout_is_no_timeout Fake.cloud Fake.decode 4
           Fake.started_job empty_world).
  - reflexivity.
  - intros w' c. exists (Fake.value w' c). reflexivity.
  - intros w' s. reflexivity.
Defined.

(** * C4: [JobGroup.wait] blocks until every job has reported *)

Section WaitTotal.

Variable env : environment.
Variable json_loads : string -> option json.

Lemma after_sleeps_trace seconds k : forall w,
  exists sleeps,
    trace (after_sleeps env json_loads seconds k w) = (trace w ++ sleeps)%list
    /\ Forall (is_sleep_of seconds) sleeps /\ List.length sleeps = k.
Proof.
  induction k as [|k IH]; intros w; simpl.
  - exists []. rewrite app_nil_r. repeat split. constructor.
  - destruct (IH (after_call env json_loads w (time_sleep seconds)))
      as (sleeps & Ht & Hs & Hl).
    exists (Event (env w (time_sleep seconds)) (now w) :: sleeps).
    rewrite Ht, trace_after_call, <- app_assoc. repeat split.
    + constructor; [reflexivity|exact Hs].
    + simpl. now rewrite Hl.
Qed.

Lemma wait_loop_total fuel : forall g w,
  let r := JobGroup.wait_loop env json_loads fuel g w in
  let count := fun i => List.length (recorded g (after_sleeps env json_loads 1 i w)) in
  let slept := fun i => answered (env (after_sleeps env json_loads 1 i w) (time_sleep 1)) in
  snd (fst r) = g
  /\ exists k,
       (k <= fuel)%nat
       /\ (forall i, (i < k)%nat -> count i <> List.length (JobGroup.running_jobs g)
                                    /\ slept i = Returns tt)
       /\ match fst (fst r) with
          | Ok _ =>
              count k = List.length (JobGroup.running_jobs g)
              /\ snd r = after_sleeps env json_loads 1 k w
          | OutOfFuel =>
              count k <> List.length (JobGroup.running_jobs g) /\ k = fuel
              /\ snd r = after_sleeps env json_loads 1 k w
          | Raise e =>
              count k <> List.length (JobGroup.running_jobs g) /\ (k < fuel)%nat
              /\ (exists what, slept k = Raises what /\ e = External what)
              /\ snd r = after_sleeps env json_loads 1 (S k) w
          end.
Proof.
  induction fuel as [|fuel IH]; intros g w.
  - simpl. msimpl. fold (recorded g w).
    destruct (Nat.eqb_spec (List.length (recorded g w))
                           (List.length (JobGroup.running_jobs g))) as [Heq|Hne];
      simpl; (split; [reflexivity|]); exists 0%nat; (split; [lia|]);
      (split; [intros i Hi; lia|]); simpl; now repeat split.
  - simpl. msimpl. fold (recorded g w).
    destruct (Nat.eqb_spec (List.length (recorded g w))
                           (List.length (JobGroup.running_jobs g))) as [Heq|Hne];
      simpl.
    + split; [reflexivity|]. exists 0%nat. split; [lia|].
      split; [intros i Hi; lia|]. simpl. now split.
    + call_step env json_loads (time_sleep 1) g w u E; rewrite (bind_run _ _ E).
      * specialize (IH g (after_call env json_loads w (time_sleep 1))).
        destruct (JobGroup.wait_loop env json_loads fuel g
                    (after_call env json_loads w (time_sleep 1)))
          as [[o g'] w'].
        simpl in IH |- *. destruct IH as (Hg & k & Hk & Hbefore & Ho).
        split; [exact Hg|]. exists (S k). split; [lia|]. split.
        -- intros [|i] Hi; simpl.
           ++ split; [exact Hne|]. destruct u. exact Hanswer.
           ++ apply Hbefore. lia.
        -- destruct o as [[]|e|]; simpl.
           ++ exact Ho.
           ++ destruct Ho as (H1 & H2 & H3 & H4). repeat split; try assumption. lia.
           ++ destruct Ho as (H1 & H2 & H3). repeat split; try assumption. lia.
      * simpl. split; [reflexivity|]. exists 0%nat. split; [lia|].
        split; [intros i Hi; lia|]. simpl. split; [exact Hne|]. split; [lia|].
        split; [now exists u|reflexivity].
Qed.

Lemma wait_total fuel g w :
  let r := JobGroup.wait env json_loads fuel g w in
  snd (fst r) = g
  /\ wait_run env json_loads fuel g (List.length (JobGroup.running_jobs g)) w
              (fst (fst r)) (snd r).
Proof.
  unfold JobGroup.wait.
  pose proof (wait_loop_total fuel g w) as H. cbv zeta in H.
  destruct (JobGroup.wait_loop env json_loads fuel g w) as [[o g'] w'] eqn:E.
  rewrite (bind_run _ _ E). simpl in H. destruct H as (-> & k & Hk & Hbefore & Ho).
  destruct o as [[]| |]; msimpl; simpl; (split; [reflexivity|]); exists k;
    (split; [exact Hk|]); (split; [exact Hbefore|]).
  - destruct Ho as [H1 ->]. repeat split. exact H1.
  - exact Ho.
  - exact Ho.
Qed.

(** C4: once [run] has launched the jobs of all [N] specs of a group,
    [wait] polls the shared code list and sleeps one second after every
    poll that does not find exactly [N] codes.  It returns at the first
    poll that finds [N] codes, and then the result is true if and only if
    every recorded code equals 0 (false as soon as one of them does not).
    It raises nothing but the exception of a sleep, and it is still
    waiting when the fuel is spent only if none of the [fuel' + 1] polls
    found [N] codes.  The calls of [wait] are its sleeps; the group is
    left as it is. *)
Theorem wait_reports_all_codes (fuel fuel' : nat) (g0 g : JobGroup.t) (w0 w : world) :
  JobGroup.running_jobs g0 = [] ->
  JobGroup.run env json_loads fuel g0 w0 = (Ok tt, g, w) ->
  let N := List.length (JobGroup.job_specs g0) in
  let r := JobGroup.wait env json_loads fuel' g w in
  snd (fst r) = g
  /\ List.length (JobGroup.running_jobs g) = N
  /\ wait_run env json_loads fuel' g N w (fst (fst r)) (snd r)
  /\ (exists sleeps, trace (snd r) = (trace w ++ sleeps)%list
                     /\ Forall (is_sleep_of 1) sleeps
                     /\ (fst (fst r) = OutOfFuel -> List.length sleeps = fuel'))
  /\ forall b, fst (fst r) = Ok b ->
       List.length (recorded g (snd r)) = N
       /\ (b = true <-> forall c, In c (recorded g (snd r)) -> py_eq_zero c = true)
       /\ ((exists c, In c (recorded g (snd r)) /\ py_eq_zero c = false) -> b = false).
Proof.
  intros Hfresh Hrun N r.
  assert (HN : List.length (JobGroup.running_jobs g) = N).
  { destruct (run_spec env json_loads fuel g0 w0) as (_ & l & H1 & _ & H3).
    rewrite Hrun in H1, H3. simpl in H1, H3.
    rewrite H1, Hfresh. simpl. now apply H3. }
  destruct (wait_total fuel' g w) as (Hg & Hw). fold r in Hg, Hw. rewrite HN in Hw.
  destruct (wait_spec env json_loads fuel' g w) as (_ & Hsleeps & Ho).
  fold r in Hsleeps, Ho.
  split; [exact Hg|]. split; [exact HN|]. split; [exact Hw|]. split; [exact Hsleeps|].
  intros b Hb. rewrite Hb in Ho. destruct Ho as [Hlen ->].
  split; [congruence|]. split.
  - apply forallb_forall.
  - intros (c & Hin & Hc).
    destruct (forallb py_eq_zero (recorded g (snd r))) eqn:Hall; [|reflexivity].
    rewrite forallb_forall in Hall. rewrite (Hall c Hin) in Hc. discriminate.
Qed.

End WaitTotal.

Lemma wait_reports_all_codes_witness :
  let env := batch_cloud "status 0" in
  let launched := JobGroup.run env Fake.decode 5 batch_group batch_world in
  let g := snd (fst launched) in
  let r := JobGroup.wait env Fake.decode 5 g (snd launched) in
  snd (fst r) = g
  /\ List.length (JobGroup.running_jobs g) = 2%nat
  /\ wait_run env Fake.decode 5 g 2 (snd launched) (fst (fst r)) (snd r)
  /\ (exists sleeps, trace (snd r) = (trace (snd launched) ++ sleeps)%list
                     /\ Forall (is_sleep_of 1) sleeps
                     /\ (fst (fst r) = OutOfFuel -> List.length sleeps = 5%nat))
  /\ forall b, fst (fst r) = Ok b ->
       List.length (recorded g (snd r)) = 2%nat
       /\ (b = true <-> forall c, In c (recorded g (snd r)) -> py_eq_zero c = true)
       /\ ((exists c, In c (recorded g (snd r)) /\ py_eq_zero c = false) -> b = false).
Proof.
  intros env launched g r.
  apply (@wait_reports_all_codes env Fake.decode 5 5 batch_group g batch_world
           (snd launched)).
  - reflexivity.
  - vm_compute. reflexivity.
Defined.

(** * C5: the names of the jobs a group launches *)

Lemma no_uuid_events (evs : list event) :
  Forall (fun e => no_uuid (call_of e)) evs -> uuids evs = [] /\ uuid_requests evs = 0%nat.
Proof.
  induction 1 as [|e evs He _ [IH1 IH2]]; [now split|].
  destruct e as [c r t]. unfold uuid_requests in *. simpl in He |- *.
  unfold no_uuid in He. rewrite He. split; [|exact IH2].
  destruct c; try discriminate He; exact IH1.
Qed.

Section NoUuid.

Variable env : environment.
Variable json_loads : string -> option json.

Lemma set_started_footprint (P : call -> Prop) b :
  behaves same_job P (Job.set_started b).
Proof.
  intros s w; simpl. split; [now repeat split|]. exists []. now rewrite app_nil_r.
Qed.

Lemma set_job_status_topic_footprint (P : call -> Prop) v :
  behaves same_job P (Job.set_job_status_topic v).
Proof.
  intros s w; simpl. split; [now repeat split|]. exists []. now rewrite app_nil_r.
Qed.

Lemma set_job_status_subscription_footprint (P : call -> Prop) v :
  behaves same_job P (Job.set_job_status_subscription v).
Proof.
  intros s w; simpl. split; [now repeat split|]. exists []. now rewrite app_nil_r.
Qed.

Lemma wait_for_operation_loop_no_uuid fuel operation is_global_op :
  behaves same_job no_uuid
          (Job._wait_for_operation_loop env json_loads fuel operation is_global_op).
Proof.
  induction fuel as [|fuel IH]; simpl; [apply behaves_out_of_fuel; behave_side|].
  footprint. exact IH.
Qed.

Lemma run_no_uuid fuel args_ e t m :
  behaves same_job no_uuid (Job.run env json_loads fuel args_ e t m false).
Proof.
  unfold Job.run, Job.run_prepare, Job.run_try, Job.run_rollback,
    Job._create_machine_config, MachineConfig_to_dict, CloudInitConfig_render,
    set_startup_payload, Job._create_status_topic, Job._create_status_subscription,
    Job._create_instance_template, Job._create_managed_instance_group,
    Job._remove_instance_group, Job._wait_for_operation.
  footprint;
    first [ apply set_started_footprint | apply set_job_status_topic_footprint
          | apply set_job_status_subscription_footprint
          | apply wait_for_operation_loop_no_uuid ].
Qed.

Lemma on_finish_no_uuid cb :
  behaves same_job no_uuid (Job.on_finish env json_loads cb).
Proof. unfold Job.on_finish. footprint. Qed.

Lemma run_loop_names fuel specs : forall first g w,
  let r := JobGroup.run_loop env json_loads fuel first specs g w in
  same_group g (snd (fst r))
  /\ exists launched evs,
       JobGroup.running_jobs (snd (fst r))
       = (JobGroup.running_jobs g ++ launched)%list
       /\ trace (snd r) = (trace w ++ evs)%list
       /\ (forall i j, nth_error launched i = Some j ->
             exists uuid,
               nth_error (uuids evs) i = Some uuid
               /\ Job.name j = launched_name (JobGroup.name g) (first + i) uuid)
       /\ match fst (fst r) with
          | Ok _ =>
              List.length launched = List.length specs
              /\ uuid_requests evs = List.length specs
          | _ =>
              (List.length launched < List.length specs)%nat
              /\ uuid_requests evs = S (List.length launched)
          end.
Proof.
  induction specs as [|spec specs IH]; intros first g w; simpl.
  - split; [now repeat split|]. exists [], []. rewrite !app_nil_r.
    repeat split; try reflexivity. intros [|i] j; discriminate.
  - msimpl.
    unfold JobFactory.create, Job.init. simpl negb. cbv iota zeta.
    rewrite !bind_bind.
    call_step env json_loads uuid1 g w u E; rewrite (bind_run _ _ E); cbv iota beta.
    2:{ simpl. split; [now repeat split|].
        exists [], [Event (env w uuid1) (now w)]. rewrite app_nil_r.
        split; [reflexivity|]. split; [apply trace_after_call|].
        split; [intros [|i] j; discriminate|]. split; [simpl; lia|reflexivity]. }
    pose proof (truthy_with_dash (JobGroup.name g) (str_nat first)) as Hdash.
    change ("-" ++ str_nat first) with (String "-" (str_nat first)) in Hdash.
    rewrite Hdash. clear Hdash. msimpl.
    set (w1 := after_call env json_loads w uuid1).
    assert (Hu : uuids [Event (env w uuid1) (now w)] = [u]).
    { simpl. now rewrite Hanswer. }
    assert (Hq : uuid_requests [Event (env w uuid1) (now w)] = 1%nat) by reflexivity.
    match goal with
    | |- context [on_object ?j _] => set (job := j)
    end.
    rewrite bind_run with (1 := on_object_run _ _ _ _).
    pose proof (run_no_uuid fuel (args spec) (Some (env_vars spec))
                  (Some (gcs_target spec)) (Some (gcs_mounts spec)) job w1)
      as [(Hn & _) (evs2 & Ht2 & Hp2)].
    destruct (no_uuid_events Hp2) as [Hu2 Hq2].
    destruct (Job.run env json_loads fuel (args spec) (Some (env_vars spec))
                (Some (gcs_target spec)) (Some (gcs_mounts spec)) false job w1)
      as [[o2 job2] w2].
    simpl in Hn, Ht2 |- *.
    assert (Hstop2 : trace w2 = (trace w ++ Event (env w uuid1) (now w) :: evs2)%list
                     /\ uuid_requests (Event (env w uuid1) (now w) :: evs2) = 1%nat).
    { split.
      - rewrite Ht2. unfold w1. rewrite trace_after_call, <- app_assoc. reflexivity.
      - change (Event (env w uuid1) (now w) :: evs2)
          with ([Event (env w uuid1) (now w)] ++ evs2)%list.
        rewrite uuid_requests_app, Hq, Hq2. reflexivity. }
    destruct Hstop2 as [Htr2 Hrq2].
    destruct o2 as [res| |]; simpl.
    2,3: split; [now repeat split|]; exists [], (Event (env w uuid1) (now w) :: evs2);
         rewrite app_nil_r; (split; [reflexivity|]); (split; [exact Htr2|]);
         (split; [intros [|i] j; discriminate|]); split; [simpl; lia|exact Hrq2].
    rewrite bind_run with (1 := on_object_run _ _ _ _).
    pose proof (on_finish_no_uuid (list_append (JobGroup.jobs_status_codes g)) job2 w2)
      as [_ (evs3 & Ht3 & Hp3)].
    pose proof (on_finish_behaves env json_loads
                  (list_append (JobGroup.jobs_status_codes g)) job2 w2)
      as [Hsame _].
    destruct (no_uuid_events Hp3) as [Hu3 Hq3].
    destruct (Job.on_finish env json_loads
                (list_append (JobGroup.jobs_status_codes g)) job2 w2)
      as [[o3 job3] w3].
    simpl in Hsame, Ht3 |- *. subst job3.
    assert (Hstop3 : trace w3
                     = (trace w ++ Event (env w uuid1) (now w) :: evs2 ++ evs3)%list
                     /\ uuid_requests (Event (env w uuid1) (now w) :: evs2 ++ evs3)
                        = 1%nat
                     /\ uuids (Event (env w uuid1) (now w) :: evs2 ++ evs3) = [u]).
    { split; [|split].
      - rewrite Ht3, Htr2, <- app_assoc. reflexivity.
      - change (Event (env w uuid1) (now w) :: evs2 ++ evs3)
          with ([Event (env w uuid1) (now w)] ++ evs2 ++ evs3)%list.
        rewrite !uuid_requests_app, Hq, Hq2, Hq3. reflexivity.
      - change (Event (env w uuid1) (now w) :: evs2 ++ evs3)
          with ([Event (env w uuid1) (now w)] ++ evs2 ++ evs3)%list.
        rewrite !uuids_app, Hu, Hu2, Hu3. reflexivity. }
    destruct Hstop3 as (Htr3 & Hrq3 & Hus3).
    destruct o3 as [[]| |]; simpl.
    2,3: split; [now repeat split|];
         exists [], (Event (env w uuid1) (now w) :: evs2 ++ evs3);
         rewrite app_nil_r; (split; [reflexivity|]); (split; [exact Htr3|]);
         (split; [intros [|i] j; discriminate|]); split; [simpl; lia|exact Hrq3].
    msimpl. rewrite bind_set_running_jobs.
    match goal with
    | |- context [JobGroup.run_loop env json_loads fuel (S first) specs ?g' ?w'] =>
        destruct (IH (S first) g' w')
          as (Hg & launched & evs4 & Hrun & Htr4 & Hnames & Hout);
        destruct (JobGroup.run_loop env json_loads fuel (S first) specs g' w')
          as [[o4 g4] w4]
    end.
    simpl in Hg, Hrun, Htr4, Hnames, Hout |- *.
    split; [exact Hg|].
    remember (Event (env w uuid1) (now w) :: evs2 ++ evs3)%list as evs1 eqn:Hevs1.
    exists (job2 :: launched), (evs1 ++ evs4)%list.
    split; [rewrite Hrun, <- app_assoc; reflexivity|].
    split; [rewrite Htr4, Htr3, <- app_assoc; reflexivity|].
    split.
    + rewrite uuids_app, Hus3.
      intros [|i] j Hj; simpl in Hj |- *.
      * injection Hj as <-. exists u. split; [reflexivity|].
        rewrite Nat.add_0_r. unfold launched_name. rewrite Hn. unfold job. simpl.
        now rewrite !string_app_assoc.
      * destruct (Hnames i j Hj) as (uuid' & Hnth & Hname). exists uuid'.
        split; [exact Hnth|]. now rewrite Nat.add_succ_r.
    + rewrite uuid_requests_app, Hrq3.
      destruct o4 as [[]| |]; simpl; destruct Hout as [H1 H2]; rewrite H2;
        split; lia.
Qed.

(** C5 (amended): [JobGroup.run] appends the jobs it launches to
    [running_jobs], and the job launched for the spec at index [i] is
    named ["{G}-{i}-clash-job-{u}"], where [u] is the first 16 characters
    of the [i]-th uuid the run was given by the uuid source: ["{G}-{i}"]
    is the prefix handed to the constructor, not the name.  The run asks
    for one uuid per job it constructs: when it returns, one job per spec
    has been launched; when it does not, the job after the last launched
    one was being constructed or launched. *)
Theorem group_job_names (fuel : nat) (g : JobGroup.t) (w : world) :
  let r := JobGroup.run env json_loads fuel g w in
  exists launched evs,
    JobGroup.running_jobs (snd (fst r)) = (JobGroup.running_jobs g ++ launched)%list
    /\ trace (snd r) = (trace w ++ evs)%list
    /\ (forall i j, nth_error launched i = Some j ->
          exists uuid,
            nth_error (uuids evs) i = Some uuid
            /\ Job.name j
               = JobGroup.name g ++ "-" ++ str_nat i ++ "-clash-job-"
                               ++ substring 0 16 uuid)
    /\ match fst (fst r) with
       | Ok _ =>
           List.length launched = List.length (JobGroup.job_specs g)
           /\ uuid_requests evs = List.length (JobGroup.job_specs g)
       | _ =>
           (List.length launched < List.length (JobGroup.job_specs g))%nat
           /\ uuid_requests evs = S (List.length launched)
       end.
Proof.
  unfold JobGroup.run. rewrite bind_get.
  destruct (run_loop_names fuel (JobGroup.job_specs g) 0 g w)
    as (_ & launched & evs & H1 & H2 & H3 & H4).
  exists launched, evs. repeat split; assumption.
Qed.

End NoUuid.

(** * C2: the order of the removals in the failure rollback *)

(** Polling an operation asks for no removal. *)
Lemma operation_poll_requests (evs : list event) :
  Forall (fun e => operation_poll (call_of e)) evs -> removal_requests evs = [].
Proof.
  unfold removal_requests.
  induction 1 as [|e evs He _ IH]; [reflexivity|].
  simpl. destruct (call_of e); simpl in He; try contradiction; exact IH.
Qed.

Section RollbackExact.

Variable env : environment.
Variable json_loads : string -> option json.

Lemma remove_group_exact fuel self w :
  Job.started self = true ->
  let r := try_except (Job._remove_instance_group env json_loads fuel)
                      (fun _ => ret tt) self w in
  snd (fst r) = self
  /\ (forall e, fst (fst r) <> Raise e)
  /\ exists evs,
       trace (snd r) = (trace w ++ evs)%list
       /\ removal_requests evs
          = match answered (env w get_compute_client) with
            | Returns _ => [group_removal self]
            | Raises _ => []
            end
       /\ (fst (fst r) = OutOfFuel ->
           removal_requests evs = [group_removal self]
           /\ Forall (fun p => is_done p = false) (polled evs)
           /\ List.length (polled evs) = fuel).
Proof.
  intros Hst.
  unfold try_except, Job._remove_instance_group. rewrite bind_get, Hst. cbv [negb].
  call_step env json_loads get_compute_client self w u E; rewrite (bind_run _ _ E),
    Hanswer.
  2:{ simpl. split; [reflexivity|]. split; [discriminate|].
      eexists. split; [apply trace_after_call|]. split; [reflexivity|discriminate]. }
  set (w1 := after_call env json_loads w get_compute_client).
  set (c := instanceGroupManagers_delete (project_id (Job.job_config self))
              (zone (Job.job_config self)) (Job.name self)).
  assert (Ht : trace (after_call env json_loads w1 c)
               = (trace w ++ [Event (env w get_compute_client) (now w);
                              Event (env w1 c) (now w1)])%list).
  { rewrite trace_after_call. unfold w1. rewrite trace_after_call.
    now rewrite <- app_assoc. }
  assert (Hstop : forall (o : outcome unit),
             o <> OutOfFuel -> (forall e, o <> Raise e) ->
             snd (fst (o, self, after_call env json_loads w1 c)) = self
             /\ (forall e, fst (fst (o, self, after_call env json_loads w1 c)) <> Raise e)
             /\ exists evs,
                  trace (snd (o, self, after_call env json_loads w1 c))
                  = (trace w ++ evs)%list
                  /\ removal_requests evs = [group_removal self]
                  /\ (fst (fst (o, self, after_call env json_loads w1 c)) = OutOfFuel ->
                      removal_requests evs = [group_removal self]
                      /\ Forall (fun p => is_done p = false) (polled evs)
                      /\ List.length (polled evs) = fuel)).
  { intros o Hno Hne. simpl. split; [reflexivity|]. split; [exact Hne|].
    eexists. split; [exact Ht|]. split; [reflexivity|].
    intros X. now destruct (Hno X). }
  call_step env json_loads c self w1 op E2; rewrite (bind_run _ _ E2).
  2:{ apply (Hstop (Ok tt)); discriminate. }
  set (w2 := after_call env json_loads w1 c) in *.
  pose proof (subscript_ok op "name" self w2) as Hsub.
  destruct (json_get "name" op) as [op_name|]; rewrite (bind_run _ _ Hsub).
  2:{ apply (Hstop (Ok tt)); discriminate. }
  cbv iota beta. unfold Job._wait_for_operation. rewrite bind_bind.
  call_step env json_loads get_compute_client self w2 u3 E3;
    rewrite (bind_run _ _ E3).
  2:{ simpl. split; [reflexivity|]. split; [discriminate|].
      eexists. split.
      - rewrite trace_after_call, Ht, <- app_assoc. reflexivity.
      - split; [reflexivity|discriminate]. }
  set (w3 := after_call env json_loads w2 get_compute_client).
  destruct (wait_for_operation_loop_behaves env json_loads fuel op_name false self w3)
    as (_ & evs4' & Ht4' & Hp4).
  destruct (wait_for_operation_loop_spec env json_loads op_name false self fuel w3)
    as (Hs4 & evs4 & Ht4 & Ho4).
  assert (evs4' = evs4) by (rewrite Ht4 in Ht4'; now apply app_inv_head in Ht4').
  subst evs4'. clear Ht4'.
  destruct (Job._wait_for_operation_loop env json_loads fuel op_name false self w3)
    as [[o4 s4] w4] eqn:E4.
  simpl in Hs4, Ht4, Ho4. subst s4. rewrite (bind_run _ _ E4).
  remember ([Event (env w get_compute_client) (now w); Event (env w1 c) (now w1);
             Event (env w2 get_compute_client) (now w2)] ++ evs4)%list
    as whole eqn:Hwhole.
  assert (Htrace : trace w4 = (trace w ++ whole)%list).
  { subst whole. rewrite Ht4. unfold w3. rewrite trace_after_call, Ht, <- !app_assoc.
    reflexivity. }
  assert (Hreq : removal_requests whole = [group_removal self]).
  { subst whole. rewrite removal_requests_app, (operation_poll_requests Hp4).
    reflexivity. }
  assert (Hpol : polled whole = polled evs4).
  { subst whole. rewrite polled_app. reflexivity. }
  destruct o4 as [res|e|]; simpl; (split; [reflexivity|]);
    (split; [discriminate|]); exists whole; (split; [exact Htrace|]);
    (split; [exact Hreq|]); try discriminate.
  intros _. split; [exact Hreq|]. rewrite Hpol.
  destruct Ho4 as (H1 & H2 & _). now split.
Qed.

(** What the [except] handler of [run] does, from any state. *)
Lemma run_rollback_exact (A : Type) fuel (ex : exn) self w :
  let r := @Job.run_rollback env json_loads A fuel ex self w in
  snd (fst r) = self
  /\ exists evs,
       trace (snd r) = (trace w ++ evs)%list
       /\ rollback_observed fuel self (answered (env w get_compute_client)) ex
                            (fst (fst r)) evs.
Proof.
  unfold Job.run_rollback, rollback_observed. rewrite bind_get.
  destruct (Job.started self) eqn:Hst.
  - destruct (remove_group_exact fuel self w Hst) as (Hs & Hne & evs & Ht & Hr & Hout).
    destruct (try_except (Job._remove_instance_group env json_loads fuel)
                         (fun _ => ret tt) self w) as [[o s1] w1] eqn:E.
    simpl in Hs, Hne, Ht, Hout. subst s1. rewrite (bind_run _ _ E).
    destruct o as [[]|e|].
    + rewrite bind_get.
      destruct (rollback_tail env json_loads A ex self w1) as (Hf & evs2 & Ht2 & _ & Hc2).
      match goal with
      | |- context [snd (fst ?x)] => destruct x as [[o2 s2] w2]
      end.
      simpl in Hf, Ht2 |- *. injection Hf as -> ->.
      split; [reflexivity|]. exists (evs ++ evs2)%list.
      split; [now rewrite Ht2, Ht, app_assoc|]. split; [reflexivity|].
      rewrite removal_requests_app, Hr. f_equal.
      unfold removal_requests. rewrite Hc2. unfold bus_removals.
      destruct (truthy (Job.job_status_topic self));
        destruct (truthy (Job.job_status_subscription self)); reflexivity.
    + now destruct (Hne e).
    + simpl. split; [reflexivity|]. exists evs. split; [exact Ht|].
      split; [reflexivity|]. now apply Hout.
  - rewrite bind_ret, bind_get.
    destruct (rollback_tail env json_loads A ex self w) as (Hf & evs2 & Ht2 & _ & Hc2).
    match goal with
    | |- context [snd (fst ?x)] => destruct x as [[o2 s2] w2]
    end.
    simpl in Hf, Ht2 |- *. injection Hf as -> ->.
    split; [reflexivity|]. exists evs2. split; [exact Ht2|]. split; [reflexivity|].
    unfold removal_requests. rewrite Hc2. unfold bus_removals.
    destruct (truthy (Job.job_status_topic self));
      destruct (truthy (Job.job_status_subscription self)); reflexivity.
Qed.

(** C2: whenever the [try] block of [Job.run] fails with an exception
    [ex], at whatever point, the handler asks for removals in this order
    and for no other: the managed instance group, if the Job is marked
    started (and the compute client can be had); the status topic, if the
    Job holds one; the status subscription, if the Job holds one.  Then it
    raises [ex] again.  The removal of the instance template is never
    asked for.  The handler stops early only while it waits for the
    removal of the group: a run cut for lack of fuel has asked for the
    removal of the group and polled that operation [fuel] times without
    finding it done. *)
Theorem rollback_removal_order (fuel : nat) (args_ : list string)
        (e t m : option (list (string * string))) (wait_for_result : bool)
        (self s0 s1 : Job.t) (w w0 w1 : world) (machine_config : json) (ex : exn) :
  Job.run_prepare env json_loads args_ e t m self w = (Ok machine_config, s0, w0) ->
  Job.run_try env json_loads fuel machine_config wait_for_result s0 w0
  = (Raise ex, s1, w1) ->
  let r := Job.run env json_loads fuel args_ e t m wait_for_result self w in
  snd (fst r) = s1
  /\ exists evs,
       trace (snd r) = (trace w1 ++ evs)%list
       /\ rollback_observed fuel s1 (answered (env w1 get_compute_client)) ex
                            (fst (fst r)) evs
       /\ ~ In Template (removals evs)
       /\ exists b_group b_topic b_sub,
            removals evs
            = (optional b_group Group ++ optional b_topic Topic
                        ++ optional b_sub Subscription)%list.
Proof.
  intros Hp Ht. unfold Job.run. rewrite (bind_run _ _ Hp).
  rewrite (try_except_run _ _ Ht).
  destruct (run_rollback_exact (option json) fuel ex s1 w1) as (Hs & evs & Htr & Ho).
  destruct (run_rollback_spec env json_loads (option json) fuel ex s1 w1)
    as (_ & _ & evs' & bg & bt & bs & Htr' & Hrem & _).
  assert (evs' = evs) by (rewrite Htr in Htr'; now apply app_inv_head in Htr').
  subst evs'.
  split; [exact Hs|]. exists evs. split; [exact Htr|]. split; [exact Ho|].
  split; [|now exists bg, bt, bs].
  rewrite Hrem. destruct bg, bt, bs; simpl; intuition discriminate.
Qed.

End RollbackExact.

Lemma rollback_removal_order_witness :
  let prepared := Job.run_prepare silent_cloud Fake.decode ["echo"] None None None
                                  impatient_job empty_world in
  let tried := Job.run_try silent_cloud Fake.decode 5 rendered_machine_config
                           true (snd (fst prepared)) (snd prepared) in
  let ex := TimeoutError "The job took longer than 5 seconds" in
  let r := Job.run silent_cloud Fake.decode 5 ["echo"] None None None true
                   impatient_job empty_world in
  snd (fst r) = snd (fst tried)
  /\ exists evs,
       trace (snd r) = (trace (snd tried) ++ evs)%list
       /\ rollback_observed 5 (snd (fst tried))
                            (answered (silent_cloud (snd tried) get_compute_client)) ex
                            (fst (fst r)) evs
       /\ ~ In Template (removals evs)
       /\ exists b_group b_topic b_sub,
            removals evs
            = (optional b_group Group ++ optional b_topic Topic
                        ++ optional b_sub Subscription)%list.
Proof.
  intros prepared tried ex r.
  apply (@rollback_removal_order silent_cloud Fake.decode 5 ["echo"] None None None
           true impatient_job (snd (fst prepared)) (snd (fst tried)) empty_world
           (snd prepared) (snd tried) rendered_machine_config ex).
  - vm_compute. reflexivity.
  - vm_compute. reflexivity.
Defined.

(** * C8: clean-up waits for the group before it deletes the template *)

Lemma group_names_raises (items : list json) : forall res e,
  group_names items res = inl e ->
  match e with External _ => False | _ => True end.
Proof.
  induction items as [|item items IH]; intros res e; simpl; [discriminate|].
  destruct item; try (intros [= <-]; exact I).
  destruct (assoc_get "name" fields); [apply IH|intros [= <-]; exact I].
Qed.

(** Reading a listing raises no exception of a client library. *)
Lemma listed_groups_raises (listing : json) (e : exn) :
  listed_groups listing = inl e ->
  match e with External _ => False | _ => True end.
Proof.
  unfold listed_groups. destruct listing; try (intros [= <-]; exact I).
  destruct (assoc_get "items" fields) as [items|]; [|intros [= <-]; exact I].
  destruct items; try (intros [= <-]; exact I).
  - destruct s; [discriminate|intros [= <-]; exact I].
  - apply group_names_raises.
  - destruct fields0; [discriminate|intros [= <-]; exact I].
Qed.

Section CleanUpExact.

Variable env : environment.
Variable json_loads : string -> option json.

Lemma retrieve_exact self w :
  let w1 := after_call env json_loads w get_compute_client in
  let w2 := after_call env json_loads w1 (listing_request self) in
  Job._retrieve_active_instance_groups env json_loads self w
  = match answered (env w get_compute_client) with
    | Raises what => (Raise (External what), self, w1)
    | Returns _ =>
        match answered (env w1 (listing_request self)) with
        | Raises what => (Raise (External what), self, w2)
        | Returns listing =>
            (match listed_groups listing with
             | inl e => Raise e
             | inr groups => Ok groups
             end, self, w2)
        end
    end.
Proof.
  intros w1 w2. unfold Job._retrieve_active_instance_groups. rewrite bind_get.
  call_step env json_loads get_compute_client self w u E; rewrite (bind_run _ _ E),
    Hanswer; [|reflexivity].
  fold w1. fold (listing_request self).
  call_step env json_loads (listing_request self) self w1 listing E2;
    rewrite (bind_run _ _ E2), Hanswer0; [|reflexivity].
  destruct (listed_groups listing); reflexivity.
Qed.

Lemma failure_of_event (c : call) (w : world) :
  failure_of (Event (env w c) (now w))
  = match answered (env w c) with
    | Raises what => Some what
    | Returns _ => None
    end.
Proof. reflexivity. Qed.

Lemma wait_for_removal_exact fuel : forall self w,
  let r := Job._wait_for_instance_group_removal env json_loads fuel self w in
  snd (fst r) = self
  /\ exists evs, trace (snd r) = (trace w ++ evs)%list
                 /\ group_wait_observed fuel self (fst (fst r)) evs.
Proof.
  induction fuel as [|fuel IH]; intros self w; simpl.
  - split; [reflexivity|]. exists []. rewrite app_nil_r. split; [reflexivity|].
    exists [], []. repeat split; constructor.
  - rewrite bind_get.
    pose proof (retrieve_exact self w) as Hr. cbv zeta in Hr.
    set (w1 := after_call env json_loads w get_compute_client) in *.
    set (c := listing_request self) in *.
    set (w2 := after_call env json_loads w1 c) in *.
    set (e1 := Event (env w get_compute_client) (now w)).
    set (e2 := Event (env w1 c) (now w1)).
    assert (Ht1 : trace w1 = (trace w ++ [e1])%list) by apply trace_after_call.
    assert (Ht2 : trace w2 = (trace w ++ [e1; e2])%list).
    { unfold w2. rewrite trace_after_call, Ht1, <- app_assoc. reflexivity. }
    pose proof (failure_of_event get_compute_client w) as Hf1. fold e1 in Hf1.
    pose proof (failure_of_event c w1) as Hf2. fold e2 in Hf2.
    destruct (answered (env w get_compute_client)) as [u|what] eqn:Ha1.
    2:{ rewrite (bind_run _ _ Hr). simpl. split; [reflexivity|].
        exists [e1]. split; [exact Ht1|].
        exists [], []. split; [reflexivity|]. split; [constructor|].
        split; [reflexivity|]. split; [now apply ends_raising_one|].
        now exists [listing_request self; time_sleep Job.POLLING_INTERVAL_SECONDS]. }
    assert (Hl1 : listed [e1] = []) by reflexivity.
    destruct (answered (env w1 c)) as [listing|what] eqn:Ha2.
    2:{ rewrite (bind_run _ _ Hr). simpl. split; [reflexivity|].
        exists [e1; e2]. split; [exact Ht2|].
        assert (Hl2 : listed [e1; e2] = []).
        { unfold e1, e2, c, listing_request in *. simpl. now rewrite Ha2. }
        exists [], []. split; [exact Hl2|]. split; [constructor|].
        split; [reflexivity|]. split.
        - exists [e1], e2. split; [reflexivity|]. split; [now repeat constructor|].
          exact Hf2.
        - now exists [time_sleep Job.POLLING_INTERVAL_SECONDS]. }
    assert (Hl2 : listed [e1; e2] = [listing]).
    { unfold e1, e2, c, listing_request in *. simpl. now rewrite Ha2. }
    assert (Hsh : shows self listing
                  = match listed_groups listing with
                    | inr groups => inr (Job.name_in (Job.name self) groups)
                    | inl e => inl e
                    end) by reflexivity.
    destruct (listed_groups listing) as [e|groups] eqn:Hlg;
      rewrite (bind_run _ _ Hr).
    + simpl. split; [reflexivity|]. exists [e1; e2]. split; [exact Ht2|].
      exists [], [listing]. split; [exact Hl2|]. split; [constructor|].
      assert (Hbad : (exists bad, [listing] = [bad] /\ shows self bad = inl e)
                     /\ calls [e1; e2]
                        = (waiting_rounds self (List.length (@nil json))
                             ++ [get_compute_client; listing_request self])%list
                     /\ Forall (fun e' => failure_of e' = None) [e1; e2]).
      { split; [now exists listing|]. split; [reflexivity|]. now repeat constructor. }
      pose proof (listed_groups_raises listing Hlg) as He.
      destruct e; try exact Hbad; now destruct He.
    + cbv iota beta.
      destruct (Job.name_in (Job.name self) groups) eqn:Hin.
      * set (c3 := time_sleep Job.POLLING_INTERVAL_SECONDS).
        set (e3 := Event (env w2 c3) (now w2)).
        pose proof (failure_of_event c3 w2) as Hf3. fold e3 in Hf3.
        assert (Ht3 : trace (after_call env json_loads w2 c3)
                      = (trace w ++ [e1; e2; e3])%list).
        { rewrite trace_after_call, Ht2, <- app_assoc. reflexivity. }
        assert (Hl3 : listed [e1; e2; e3] = [listing]).
        { change [e1; e2; e3] with ([e1; e2] ++ [e3])%list.
          rewrite listed_app, Hl2. reflexivity. }
        call_step env json_loads c3 self w2 u3 E3; rewrite (bind_run _ _ E3);
          rewrite Hanswer in Hf3.
        -- destruct (IH self (after_call env json_loads w2 c3))
             as (Hs & evs & Ht & shown & rest & Hl & Hshown & Ho).
           destruct (Job._wait_for_instance_group_removal env json_loads fuel self
                       (after_call env json_loads w2 c3)) as [[o s'] w'].
           simpl in Hs, Ht, Ho |- *. split; [exact Hs|].
           exists ([e1; e2; e3] ++ evs)%list.
           split; [rewrite Ht, Ht3, <- app_assoc; reflexivity|].
           exists (listing :: shown), rest.
           split; [rewrite listed_app, Hl3, Hl; reflexivity|].
           split; [constructor; [rewrite Hsh; reflexivity|exact Hshown]|].
           assert (Hnf : forall l, Forall (fun e' => failure_of e' = None) l ->
                           Forall (fun e' => failure_of e' = None)
                                  ([e1; e2; e3] ++ l)%list).
           { intros l Hl'. apply Forall_app. split; [|exact Hl'].
             now repeat constructor. }
           destruct o as [[]|e|].
           ++ destruct Ho as (Habs & Hc & Hn). split; [exact Habs|].
              split; [rewrite calls_app, Hc; reflexivity|now apply Hnf].
           ++ destruct e;
                try (destruct Ho as (Hbad & Hc & Hn); split; [exact Hbad|];
                     split; [rewrite calls_app, Hc; reflexivity|now apply Hnf]).
              destruct Ho as (Hrest & Hend & tail & Hpre).
              split; [exact Hrest|]. split.
              ** simpl app. now repeat apply ends_raising_cons.
              ** exists tail. rewrite calls_app, <- app_assoc, <- Hpre. reflexivity.
           ++ destruct Ho as (Hrest & Hlen & Hc & Hn). split; [exact Hrest|].
              split; [simpl; now rewrite Hlen|].
              split; [rewrite calls_app, Hc; reflexivity|now apply Hnf].
        -- simpl. split; [reflexivity|]. exists [e1; e2; e3]. split; [exact Ht3|].
           exists [listing], []. split; [exact Hl3|].
           split; [constructor; [rewrite Hsh; reflexivity|constructor]|].
           split; [reflexivity|]. split.
           ++ exists [e1; e2], e3. split; [reflexivity|].
              split; [now repeat constructor|exact Hf3].
           ++ exists (waiting_rounds self 1). reflexivity.
      * simpl. split; [reflexivity|]. exists [e1; e2]. split; [exact Ht2|].
        exists [], [listing]. split; [exact Hl2|]. split; [constructor|].
        split; [exists listing; split; [reflexivity|now rewrite Hsh]|].
        split; [reflexivity|now repeat constructor].
Qed.

Lemma remove_template_exact fuel self w :
  Job.started self = true ->
  let r := Job._remove_instance_template env json_loads fuel self w in
  snd (fst r) = self
  /\ exists evs, trace (snd r) = (trace w ++ evs)%list
                 /\ template_removal_observed self (fst (fst r)) evs.
Proof.
  intros Hst. unfold Job._remove_instance_template. rewrite bind_get, Hst.
  cbv [negb].
  set (e1 := Event (env w get_compute_client) (now w)).
  pose proof (failure_of_event get_compute_client w) as Hf1. fold e1 in Hf1.
  call_step env json_loads get_compute_client self w u E; rewrite (bind_run _ _ E);
    rewrite Hanswer in Hf1.
  2:{ simpl. split; [reflexivity|]. exists [e1]. split; [apply trace_after_call|].
      exists e1, []. split; [reflexivity|]. split; [reflexivity|].
      rewrite Hf1. now split. }
  set (w1 := after_call env json_loads w get_compute_client).
  fold (template_removal self). set (c := template_removal self).
  set (e2 := Event (env w1 c) (now w1)).
  pose proof (failure_of_event c w1) as Hf2. fold e2 in Hf2.
  assert (Ht : trace (after_call env json_loads w1 c) = (trace w ++ [e1; e2])%list).
  { rewrite trace_after_call. unfold w1. rewrite trace_after_call.
    now rewrite <- app_assoc. }
  assert (Hstop : forall o : outcome unit,
             (forall what, failure_of e2 = Some what -> o = Raise (External what)) ->
             template_removal_observed self o [e1; e2]).
  { intros o Ho. exists e1, [e2]. split; [reflexivity|]. split; [reflexivity|].
    rewrite Hf1. exists e2, []. split; [reflexivity|]. split; [reflexivity|].
    split; [constructor|]. intros what Hw. split; [reflexivity|now apply Ho]. }
  call_step env json_loads c self w1 op E2; rewrite (bind_run _ _ E2);
    rewrite Hanswer0 in Hf2.
  2:{ simpl. split; [reflexivity|]. exists [e1; e2]. split; [exact Ht|].
      apply Hstop. intros what. rewrite Hf2. now intros [= ->]. }
  set (w2 := after_call env json_loads w1 c) in *.
  pose proof (subscript_ok op "name" self w2) as Hsub.
  destruct (json_get "name" op) as [op_name|]; rewrite (bind_run _ _ Hsub).
  2:{ simpl. split; [reflexivity|]. exists [e1; e2]. split; [exact Ht|].
      apply Hstop. intros what. rewrite Hf2. discriminate. }
  cbv iota beta.
  destruct (wait_for_operation_behaves env json_loads fuel op_name true self w2)
    as (Hs4 & evs4 & Ht4 & Hp4).
  destruct (Job._wait_for_operation env json_loads fuel op_name true self w2)
    as [[o4 s4] w4] eqn:E4.
  simpl in Hs4, Ht4. subst s4. rewrite (bind_run _ _ E4).
  assert (Hobs : forall o : outcome unit,
             template_removal_observed self o ([e1; e2] ++ evs4)).
  { intros o. exists e1, (e2 :: evs4). split; [reflexivity|]. split; [reflexivity|].
    rewrite Hf1. exists e2, evs4. split; [reflexivity|]. split; [reflexivity|].
    split; [exact Hp4|]. intros what. rewrite Hf2. discriminate. }
  assert (Htrace : trace w4 = (trace w ++ [e1; e2] ++ evs4)%list).
  { rewrite Ht4, Ht, <- app_assoc. reflexivity. }
  destruct o4 as [res|e|]; simpl; (split; [reflexivity|]);
    exists ([e1; e2] ++ evs4)%list; (split; [exact Htrace|apply Hobs]).
Qed.

(** C8: [clean_up] does nothing on a Job that was never started.  On a
    started Job it first waits for the group to be gone: it lists the
    instance groups of the Job's project and zone, and after every listing
    that shows the Job's group it sleeps 30 seconds and lists again.  The
    wait ends on the first listing that does not show the group; only
    then, as its next request, [clean_up] asks for a compute client and
    for the deletion of the Job's instance template, and whatever follows
    is the polling of that deletion.  If the wait does not end this way
    (an exception of the client, the listing or the sleep, a listing that
    cannot be read, or [fuel] listings that all show the group), nothing
    else is requested and [clean_up] ends as the wait did.  When
    [clean_up] returns, the whole sequence has happened. *)
Theorem clean_up_waits_for_group (fuel : nat) (self : Job.t) (w : world) :
  let r := Job.clean_up env json_loads fuel self w in
  (Job.started self = false -> r = (Ok tt, self, w))
  /\ (Job.started self = true ->
      snd (fst r) = self
      /\ exists (waited : outcome unit) (wait_evs rest : list event),
           trace (snd r) = (trace w ++ wait_evs ++ rest)%list
           /\ group_wait_observed fuel self waited wait_evs
           /\ match waited with
              | Ok _ => template_removal_observed self (fst (fst r)) rest
              | _ => rest = [] /\ fst (fst r) = waited
              end
           /\ (fst (fst r) = Ok tt ->
               exists k m,
                 cleanup_view (Job.name self) (wait_evs ++ rest)
                 = (polling_rounds k ++ [Listed false; TemplateDeleted]
                                   ++ repeat (Slept 1) m)%list)).
Proof.
  unfold Job.clean_up. rewrite bind_get.
  destruct (Job.started self) eqn:Hst; (split; [|]); try discriminate;
    try (intros _; reflexivity).
  intros _.
  destruct (wait_for_removal_exact fuel self w) as (Hs & evs & Ht & Hobs).
  destruct (wait_for_removal_spec env json_loads fuel self w)
    as (_ & evs' & k & Ht' & Hv).
  assert (evs' = evs) by (rewrite Ht in Ht'; now apply app_inv_head in Ht').
  subst evs'. clear Ht'.
  destruct (Job._wait_for_instance_group_removal env json_loads fuel self w)
    as [[o s1] w1] eqn:E.
  simpl in Hs, Ht, Hobs, Hv. subst s1. rewrite (bind_run _ _ E).
  destruct o as [[]| |].
  - destruct (remove_template_exact fuel self w1 Hst) as (Hs2 & evs2 & Ht2 & Hobs2).
    destruct (remove_template_spec env json_loads fuel self w1 Hst)
      as (_ & evs2' & m & Ht2' & _ & Hv2).
    assert (evs2' = evs2) by (rewrite Ht2 in Ht2'; now apply app_inv_head in Ht2').
    subst evs2'. clear Ht2'.
    destruct (Job._remove_instance_template env json_loads fuel self w1)
      as [[o2 s2] w2].
    simpl in Hs2, Ht2, Hobs2, Hv2 |- *. split; [exact Hs2|].
    exists (Ok tt), evs, evs2.
    split; [rewrite Ht2, Ht, <- app_assoc; reflexivity|].
    split; [exact Hobs|]. split; [exact Hobs2|].
    intros Ho. exists k, m.
    rewrite cleanup_view_app, Hv, <- app_assoc, (Hv2 Ho). reflexivity.
  - simpl. split; [reflexivity|]. exists (Raise e), evs, [].
    rewrite app_nil_r. split; [exact Ht|]. split; [exact Hobs|].
    split; [now split|discriminate].
  - simpl. split; [reflexivity|]. exists OutOfFuel, evs, [].
    rewrite app_nil_r. split; [exact Ht|]. split; [exact Hobs|].
    split; [now split|discriminate].
Qed.

End CleanUpExact.

Lemma clean_up_waits_for_group_witness :
  let env := Fake.reporting [] (Fake.lingering 2 "job" Fake.cloud) in
  let r := Job.clean_up env Fake.decode 5 Fake.started_job empty_world in
  snd (fst r) = Fake.started_job
  /\ exists (waited : outcome unit) (wait_evs rest : list event),
       trace (snd r) = (trace empty_world ++ wait_evs ++ rest)%list
       /\ group_wait_observed 5 Fake.started_job waited wait_evs
       /\ match waited with
          | Ok _ => template_removal_observed Fake.started_job (fst (fst r)) rest
          | _ => rest = [] /\ fst (fst r) = waited
          end
       /\ (fst (fst r) = Ok tt ->
           exists k m,
             cleanup_view (Job.name Fake.started_job) (wait_evs ++ rest)
             = (polling_rounds k ++ [Listed false; TemplateDeleted]
                               ++ repeat (Slept 1) m)%list).
Proof.
  intros env r.
  apply (@clean_up_waits_for_group env Fake.decode 5 Fake.started_job empty_world).
  reflexivity.
Defined.
